(** * HeliosEngine build scripts: configure.py and build.py

    A shallow embedding of the toolchain detection, configuration
    resolution, environment bootstrap and build orchestration code of
    [scripts/configure.py] and [scripts/build.py], and of the formatting
    and linting scripts build.py starts, [scripts/format.py] and
    [scripts/lint.py], followed by the properties of that code.

    Conventions of the embedding:
    - Python [str] is [string], restricted to ASCII text;
    - [Optional[T]] is [option T]; Python truthiness of an optional string
      ([if args.compiler:]) is [truthy];
    - [dict] is [gmap string string];
    - [pathlib.Path] is the list of its components;
    - the host (installed tools, outcome of subprocesses) is a record of
      oracles [Host]; the mutable part of the process (environment
      variables, file system, pending console input, subprocesses started)
      is the state [World] threaded by the monad [M];
    - [input()] raising [KeyboardInterrupt] or [EOFError] is an exceptional
      outcome [Exc] of [M];
    - console output ([print_info] and friends) is not modelled. *)

From Stdlib Require Import ZArith Ascii String List Bool Lia DecimalString Sorted.
From stdpp Require Import base option list gmap strings.

Open Scope Z_scope.

(** ** Python strings *)

Module Py.

Definition dquote : string := String "034"%char EmptyString.
Definition backslash : string := String "092"%char EmptyString.

Definition is_upper (c : ascii) : bool :=
  let n := nat_of_ascii c in (Nat.leb 65 n && Nat.leb n 90)%bool.
Definition is_lower (c : ascii) : bool :=
  let n := nat_of_ascii c in (Nat.leb 97 n && Nat.leb n 122)%bool.

Definition lower_char (c : ascii) : ascii :=
  if is_upper c then ascii_of_nat (nat_of_ascii c + 32) else c.
Definition upper_char (c : ascii) : ascii :=
  if is_lower c then ascii_of_nat (nat_of_ascii c - 32) else c.

Fixpoint map_chars (f : ascii -> ascii) (s : string) : string :=
  match s with
  | EmptyString => EmptyString
  | String c r => String (f c) (map_chars f r)
  end.

(** [s.lower()], [s.upper()] *)
Definition lower : string -> string := map_chars lower_char.
Definition upper : string -> string := map_chars upper_char.

(** [s.capitalize()] *)
Definition capitalize (s : string) : string :=
  match s with
  | EmptyString => EmptyString
  | String c r => String (upper_char c) (lower r)
  end.

(** [s.startswith(p)] *)
Fixpoint startswith (p s : string) : bool :=
  match p, s with
  | EmptyString, _ => true
  | String a p', String b s' => (Ascii.eqb a b && startswith p' s')%bool
  | String _ _, EmptyString => false
  end.

(** [sub in s] *)
Fixpoint contains (sub s : string) : bool :=
  (startswith sub s ||
   match s with
   | EmptyString => false
   | String _ r => contains sub r
   end)%bool.

(** [str.isspace] on ASCII *)
Definition is_space (c : ascii) : bool :=
  let n := nat_of_ascii c in
  ((Nat.leb 9 n && Nat.leb n 13) || (Nat.leb 28 n && Nat.leb n 32))%bool.

Fixpoint lstrip (s : string) : string :=
  match s with
  | EmptyString => EmptyString
  | String c r => if is_space c then lstrip r else s
  end.

Fixpoint rev_onto (s acc : string) : string :=
  match s with
  | EmptyString => acc
  | String c r => rev_onto r (String c acc)
  end.
Definition rev (s : string) : string := rev_onto s EmptyString.

Definition rstrip (s : string) : string := rev (lstrip (rev s)).

(** [s.strip()] *)
Definition strip (s : string) : string := rstrip (lstrip s).

(** [s.partition(c)] for a one-character separator: [None] when the
    separator does not occur ([c in s] is false). *)
Fixpoint partition (c : ascii) (s : string) : option (string * string) :=
  match s with
  | EmptyString => None
  | String a r =>
      if Ascii.eqb a c then Some (EmptyString, r)
      else match partition c r with
           | Some (k, v) => Some (String a k, v)
           | None => None
           end
  end.

(** [s.split(c)[0]] *)
Definition before (c : ascii) (s : string) : string :=
  match partition c s with
  | Some (k, _) => k
  | None => s
  end.

(** Line boundaries of [str.splitlines] on ASCII text, and of a text file
    read with universal newlines. *)
Definition is_linebreak (c : ascii) : bool :=
  let n := nat_of_ascii c in
  ((Nat.leb 10 n && Nat.leb n 13) || (Nat.leb 28 n && Nat.leb n 30))%bool.
Definition is_newline (c : ascii) : bool :=
  (Ascii.eqb c "010" || Ascii.eqb c "013")%bool.

(** [split_acc brk cur s]: [cur] is the current line, reversed. A carriage
    return followed by a line feed is one boundary. *)
Fixpoint split_acc (brk : ascii -> bool) (cur : string) (s : string) : list string :=
  match s with
  | EmptyString =>
      match cur with EmptyString => [] | _ => [rev cur] end
  | String c r =>
      if brk c then
        match c, r with
        | "013"%char, String "010"%char r' => rev cur :: split_acc brk EmptyString r'
        | _, _ => rev cur :: split_acc brk EmptyString r
        end
      else split_acc brk (String c cur) r
  end.

(** [s.splitlines()] *)
Definition splitlines (s : string) : list string := split_acc is_linebreak EmptyString s.

(** [for line in f] over the text [s] of a file (line ends dropped) *)
Definition file_lines (s : string) : list string := split_acc is_newline EmptyString s.

(** [x in (a, b, ...)] for strings, and for an optional string *)
Definition among (x : string) (l : list string) : bool := existsb (String.eqb x) l.
Definition opt_among (o : option string) (l : list string) : bool :=
  match o with Some x => among x l | None => false end.
Definition opt_is (o : option string) (x : string) : bool := opt_among o [x].

Definition digit (c : ascii) : option Z :=
  let n := nat_of_ascii c in
  if (Nat.leb 48 n && Nat.leb n 57)%bool then Some (Z.of_nat (n - 48)) else None.

(** Digits of a decimal literal; a single underscore is allowed between two
    digits. [prev] tells whether the previous character was a digit. *)
Fixpoint digits (acc : Z) (prev : bool) (s : string) : option Z :=
  match s with
  | EmptyString => if prev then Some acc else None
  | String c r =>
      match digit c with
      | Some d => digits (10 * acc + d) true r
      | None =>
          if (Ascii.eqb c "_" && prev)%bool then
            match r with
            | String c' _ => match digit c' with
                             | Some _ => digits acc false r
                             | None => None
                             end
            | EmptyString => None
            end
          else None
      end
  end.

(** [int(s)] on ASCII text: [None] stands for [ValueError]. *)
Definition int (s : string) : option Z :=
  match strip s with
  | String "-" r => Z.opp <$> digits 0 false r
  | String "+" r => digits 0 false r
  | t => digits 0 false t
  end.

(** Truthiness of an optional string: [None] and the empty string are false. *)
Definition truthy (o : option string) : bool :=
  match o with
  | Some s => negb (String.eqb s "")
  | None => false
  end.

(** [sep.join(l)] *)
Fixpoint join (sep : string) (l : list string) : string :=
  match l with
  | [] => ""
  | [x] => x
  | x :: r => x +:+ sep +:+ join sep r
  end.

(** [s.split()] (runs of white space separate the words) *)
Fixpoint words_acc (cur : string) (s : string) : list string :=
  match s with
  | EmptyString => match cur with EmptyString => [] | _ => [rev cur] end
  | String c r =>
      if is_space c then
        match cur with
        | EmptyString => words_acc EmptyString r
        | _ => rev cur :: words_acc EmptyString r
        end
      else words_acc (String c cur) r
  end.
Definition words (s : string) : list string := words_acc EmptyString s.

(** Exceptions the scripts can meet. *)
Inductive exn : Type :=
| KeyboardInterrupt
| EOFError
| TypeError
| KeyError.

Inductive outcome (A : Type) : Type :=
| Ret (a : A)
| Exc (e : exn).
Arguments Ret {A} a.
Arguments Exc {A} e.

End Py.
Export Py.

(** ** The process and its host *)

Module OS.

(** A [pathlib.Path]: its components, outermost first. [p / c] appends. *)
Definition Path : Type := list string.

Definition div (p : Path) (c : string) : Path := p ++ [c].
Notation "p // c" := (div p c) (at level 40, left associativity).

(** [p.name] and [p.parent] *)
Definition name (p : Path) : string := List.last p "".
Definition parent (p : Path) : Path := List.removelast p.

(** Separators of the path flavour: both slashes on Windows. *)
Definition is_sep (windows : bool) (c : ascii) : bool :=
  (Ascii.eqb c "/" || (windows && Ascii.eqb c "092"))%bool.

(** [Path(s)]: the text between separators; empty components vanish, except
    a leading one, which marks a rooted path. *)
Fixpoint split_path_acc (windows : bool) (cur : string) (s : string) : list string :=
  match s with
  | EmptyString => match cur with EmptyString => [] | _ => [Py.rev cur] end
  | String c r =>
      if is_sep windows c then
        match cur with
        | EmptyString => split_path_acc windows EmptyString r
        | _ => Py.rev cur :: split_path_acc windows EmptyString r
        end
      else split_path_acc windows (String c cur) r
  end.

Definition Path_of (windows : bool) (s : string) : Path :=
  match s with
  | String c r =>
      if is_sep windows c then "" :: split_path_acc windows EmptyString r
      else split_path_acc windows EmptyString s
  | EmptyString => []
  end.

(** [str(p)] *)
Definition str_of (windows : bool) (p : Path) : string :=
  Py.join (if windows then Py.backslash else "/") p.

Arguments Path_of : simpl never.
Arguments str_of : simpl never.

(** The file system: an association list from paths to nodes; the first
    entry of a path counts, and the order of the list is the order in which
    [iterdir] lists a directory. *)
Inductive node : Type :=
| Dir
| File (content : string) (mtime : Z).

Definition FS : Type := list (Path * node).

Definition path_eqb (p q : Path) : bool := bool_decide (p = q).

Fixpoint fs_lookup (fs : FS) (p : Path) : option node :=
  match fs with
  | [] => None
  | (q, n) :: r => if path_eqb q p then Some n else fs_lookup r p
  end.

(** [p.exists()], [p.is_dir()] *)
Definition exists_ (fs : FS) (p : Path) : bool :=
  match fs_lookup fs p with Some _ => true | None => false end.
Definition is_dir (fs : FS) (p : Path) : bool :=
  match fs_lookup fs p with Some Dir => true | _ => false end.

(** Text of a file; [None] where [open] would raise. *)
Definition read_text (fs : FS) (p : Path) : option string :=
  match fs_lookup fs p with Some (File c _) => Some c | _ => None end.

Definition st_mtime (fs : FS) (p : Path) : Z :=
  match fs_lookup fs p with Some (File _ t) => t | _ => 0 end.

(** [p.iterdir()]: the entries directly below [p]. *)
Definition iterdir (fs : FS) (p : Path) : list Path :=
  List.map fst
    (List.filter (fun e => (path_eqb (parent (fst e)) p && negb (path_eqb (fst e) [])))%bool fs).

Fixpoint is_prefix (p q : Path) : bool :=
  match p, q with
  | [], _ => true
  | a :: p', b :: q' => (String.eqb a b && is_prefix p' q')%bool
  | _ :: _, [] => false
  end.

(** All non-empty prefixes of [p], shortest first. *)
Fixpoint prefixes_from (done : Path) (rest : Path) : list Path :=
  match rest with
  | [] => []
  | c :: r => (done ++ [c]) :: prefixes_from (done ++ [c]) r
  end.

(** [p.mkdir(parents=True, exist_ok=True)] *)
Definition mkdir (p : Path) (fs : FS) : FS :=
  fs ++ List.map (fun q => (q, Dir))
          (List.filter (fun q => negb (exists_ fs q)) (prefixes_from [] p)).

(** [shutil.rmtree(p)] *)
Definition rmtree (p : Path) (fs : FS) : FS :=
  List.filter (fun e => negb (is_prefix p (fst e))) fs.

(** A command handed to [subprocess.run]: an argument vector, or one line
    for the shell ([shell=True]). *)
Inductive Cmd : Type :=
| Argv (args : list string)
| Shell (line : string).

(** The job a subprocess is started for, noted in the log of the process:
    the Visual Studio locator, the vendor environment script
    (vcvarsall.bat and the like), Conan's conanbuild.bat, the dependency
    installer install_deps.py, cmake configuring, cmake building, and the
    sibling scripts configure.py, format.py and lint.py. *)
Inductive role : Type :=
| Vswhere
| VendorScript
| ConanEnv
| InstallDeps
| CMakeConfigure
| CMakeBuild
| ConfigurePy
| FormatPy
| LintPy.

(** What a finished subprocess leaves behind. *)
Record ProcResult : Type := mkProc {
  returncode : Z;
  stdout : string;
  stderr : string;
  fs_after : FS
}.

(** Console input still to come: a line typed, or Ctrl-C. The end of the
    list is the end of the input. *)
Inductive stdin_event : Type :=
| Line (s : string)
| Interrupt.

(** The host: everything the scripts observe but do not control.
    - [system] is [platform.system()];
    - [which env fs cmd] tells whether [shutil.which(cmd)] finds [cmd];
    - [run cmd env fs] is the outcome of running [cmd] with environment
      [env] on file system [fs];
    - [executable] is [sys.executable];
    - [scripts_dir] is [Path(__file__).parent.resolve()], the directory
      that holds the scripts;
    - [os_cpu_count] is [os.cpu_count()]. *)
Record Host : Type := mkHost {
  system : string;
  which : gmap string string -> FS -> string -> bool;
  run : Cmd -> gmap string string -> FS -> ProcResult;
  executable : string;
  scripts_dir : Path;
  os_cpu_count : option Z
}.

(** The mutable state of the process. [spawned] lists the subprocesses
    started so far, each with its job, command and return code, oldest
    first. *)
Record World : Type := mkWorld {
  environ : gmap string string;
  fs : FS;
  stdin : list stdin_event;
  spawned : list (role * Cmd * Z)
}.

Definition with_environ (e : gmap string string) (w : World) : World :=
  mkWorld e (fs w) (stdin w) (spawned w).
Definition with_fs (f : FS) (w : World) : World :=
  mkWorld (environ w) f (stdin w) (spawned w).
Definition with_stdin (i : list stdin_event) (w : World) : World :=
  mkWorld (environ w) (fs w) i (spawned w).
Definition with_spawned (l : list (role * Cmd * Z)) (w : World) : World :=
  mkWorld (environ w) (fs w) (stdin w) l.

(** State and exception monad of the scripts. *)
Definition M (A : Type) : Type := World -> outcome A * World.

Definition ret {A} (a : A) : M A := fun w => (Ret a, w).
Definition raise {A} (e : exn) : M A := fun w => (Exc e, w).
Definition bind {A B} (m : M A) (k : A -> M B) : M B :=
  fun w => match m w with
           | (Ret a, w') => k a w'
           | (Exc e, w') => (Exc e, w')
           end.

(** [try: m except (KeyboardInterrupt, EOFError): h] *)
Definition try_input {A} (m : M A) (h : M A) : M A :=
  fun w => match m w with
           | (Exc KeyboardInterrupt, w') | (Exc EOFError, w') => h w'
           | r => r
           end.

Definition get : M World := fun w => (Ret w, w).
Definition modify (f : World -> World) : M unit := fun w => (Ret tt, f w).

Definition windows (h : Host) : bool := String.eqb (system h) "Windows".

(** Keys of [os.environ] are upper-cased on Windows. *)
Definition encodekey (h : Host) (k : string) : string :=
  if windows h then Py.upper k else k.

(** [os.environ.get(k)], [os.environ[k] = v] *)
Definition environ_get (h : Host) (k : string) : M (option string) :=
  fun w => (Ret (environ w !! encodekey h k), w).
Definition environ_set (h : Host) (k v : string) : M unit :=
  modify (fun w => with_environ (<[encodekey h k := v]> (environ w)) w).

(** [check_command(cmd)]: [shutil.which(cmd) is not None] *)
Definition check_command (h : Host) (cmd : string) : M bool :=
  fun w => (Ret (which h (environ w) (fs w) cmd), w).

Definition path_exists (p : Path) : M bool := fun w => (Ret (exists_ (fs w) p), w).

Definition do_mkdir (p : Path) : M unit := modify (fun w => with_fs (mkdir p (fs w)) w).
Definition do_rmtree (p : Path) : M unit := modify (fun w => with_fs (rmtree p (fs w)) w).

(** [subprocess.run(cmd, env=env)]; without [env] the child inherits
    [os.environ]. *)
Definition spawn (h : Host) (job : role) (cmd : Cmd) (env : option (gmap string string))
  : M ProcResult :=
  fun w =>
    let r := run h cmd (default (environ w) env) (fs w) in
    (Ret r, mkWorld (environ w) (fs_after r) (stdin w)
              (spawned w ++ [(job, cmd, returncode r)])).

(** [input(prompt)] *)
Definition input : M string :=
  fun w => match stdin w with
           | [] => (Exc EOFError, w)
           | Interrupt :: r => (Exc KeyboardInterrupt, with_stdin r w)
           | Line s :: r => (Ret s, with_stdin r w)
           end.

(** [os.pathsep] *)
Definition pathsep (h : Host) : string := if windows h then ";" else ":".

(** [os.cpu_count() or 4] *)
Definition get_cpu_count (h : Host) : Z :=
  match os_cpu_count h with
  | Some n => if n =? 0 then 4 else n
  | None => 4
  end.

(** [for x in l: if f(x): return True] ... [return False] *)
Fixpoint any_M {A} (f : A -> M bool) (l : list A) : M bool :=
  match l with
  | [] => ret false
  | x :: r => bind (f x) (fun b => if b then ret true else any_M f r)
  end.

(** Merging the output of [set] into a dictionary whose keys are stored as
    [enc key]:
    [for line in out.splitlines(): if "=" in line: d[key] = value] *)
Definition merge_line (enc : string -> string) (d : gmap string string) (line : string)
  : gmap string string :=
  match Py.partition "=" line with
  | Some (key, value) => <[enc key := value]> d
  | None => d
  end.
Definition merge_lines (enc : string -> string) (d : gmap string string) (out : string)
  : gmap string string :=
  List.fold_left (merge_line enc) (Py.splitlines out) d.

End OS.
Export OS.

Notation "'let*' x ':=' c1 'in' c2" := (bind c1 (fun x => c2))
  (at level 10, x pattern, c1 at level 100, c2 at level 200).

(** ** scripts/configure.py *)

Module Configure.

(** [ask_yes_no(prompt, default)]: loops until the answer is recognised;
    an interrupted or closed input answers [False]. *)
Fixpoint ask_yes_no_on (default : bool) (inp : list stdin_event) : bool * list stdin_event :=
  match inp with
  | [] => (false, [])
  | Interrupt :: r => (false, r)
  | Line s :: r =>
      let response := lower (strip s) in
      if String.eqb response "" then (default, r)
      else if among response ["y"; "yes"] then (true, r)
      else if among response ["n"; "no"] then (false, r)
      else ask_yes_no_on default r
  end.

Definition ask_yes_no (default : bool) : M bool :=
  fun w => let (b, r) := ask_yes_no_on default (stdin w) in (Ret b, with_stdin r w).

(** One line of CMakeCache.txt, [NAME:TYPE=VALUE]. *)
Definition cache_line (cache : gmap string string) (raw : string) : gmap string string :=
  let line := strip raw in
  if (String.eqb line "" || startswith "#" line || startswith "//" line)%bool then cache
  else if (contains "=" line && contains ":" line)%bool then
    match partition "=" line with
    | Some (key_type, value) => <[before ":" key_type := value]> cache
    | None => cache
    end
  else cache.

(** [read_cmake_cache(build_dir)]: the empty dictionary when the file is
    missing or cannot be read. *)
Definition read_cmake_cache_in (fs : FS) (build_dir : Path) : gmap string string :=
  match read_text fs (build_dir // "CMakeCache.txt") with
  | Some text => List.fold_left cache_line (file_lines text) ∅
  | None => ∅
  end.

Definition read_cmake_cache (build_dir : Path) : M (gmap string string) :=
  fun w => (Ret (read_cmake_cache_in (fs w) build_dir), w).

(** [class BuildConfig] *)
Record BuildConfig : Type := mkConfig {
  script_dir : Path;
  project_root : Path;
  build_type : option string;
  compiler : option string;
  cxx_compiler : option string;
  build_system : option string;
  parallel_jobs : Z;
  vs_version : option string;
  core_only : option bool;
  build_tests : option bool;
  build_examples : option bool;
  clean_build : bool;
  conan_toolchain : option Path;
  use_conan : option bool;
  interactive : bool;
  cmake_args : string;
  is_windows : bool;
  is_linux : bool;
  is_macos : bool
}.

(** [BuildConfig.__init__] *)
Definition BuildConfig_init (h : Host) : BuildConfig :=
  {| script_dir := scripts_dir h;
     project_root := parent (scripts_dir h);
     build_type := None;
     compiler := None;
     cxx_compiler := None;
     build_system := None;
     parallel_jobs := get_cpu_count h;
     vs_version := None;
     core_only := None;
     build_tests := None;
     build_examples := None;
     clean_build := false;
     conan_toolchain := None;
     use_conan := None;
     interactive := true;
     cmake_args := "";
     is_windows := String.eqb (system h) "Windows";
     is_linux := String.eqb (system h) "Linux";
     is_macos := String.eqb (system h) "Darwin" |}.

(** Assignments to the fields of [self.config]. *)
Definition set_build_type (v : option string) (c : BuildConfig) : BuildConfig :=
  mkConfig (script_dir c) (project_root c) v (compiler c) (cxx_compiler c) (build_system c)
    (parallel_jobs c) (vs_version c) (core_only c) (build_tests c) (build_examples c)
    (clean_build c) (conan_toolchain c) (use_conan c) (interactive c) (cmake_args c)
    (is_windows c) (is_linux c) (is_macos c).
Definition set_compiler (v : option string) (c : BuildConfig) : BuildConfig :=
  mkConfig (script_dir c) (project_root c) (build_type c) v (cxx_compiler c) (build_system c)
    (parallel_jobs c) (vs_version c) (core_only c) (build_tests c) (build_examples c)
    (clean_build c) (conan_toolchain c) (use_conan c) (interactive c) (cmake_args c)
    (is_windows c) (is_linux c) (is_macos c).
Definition set_cxx_compiler (v : option string) (c : BuildConfig) : BuildConfig :=
  mkConfig (script_dir c) (project_root c) (build_type c) (compiler c) v (build_system c)
    (parallel_jobs c) (vs_version c) (core_only c) (build_tests c) (build_examples c)
    (clean_build c) (conan_toolchain c) (use_conan c) (interactive c) (cmake_args c)
    (is_windows c) (is_linux c) (is_macos c).
Definition set_build_system (v : option string) (c : BuildConfig) : BuildConfig :=
  mkConfig (script_dir c) (project_root c) (build_type c) (compiler c) (cxx_compiler c) v
    (parallel_jobs c) (vs_version c) (core_only c) (build_tests c) (build_examples c)
    (clean_build c) (conan_toolchain c) (use_conan c) (interactive c) (cmake_args c)
    (is_windows c) (is_linux c) (is_macos c).
Definition set_vs_version (v : option string) (c : BuildConfig) : BuildConfig :=
  mkConfig (script_dir c) (project_root c) (build_type c) (compiler c) (cxx_compiler c)
    (build_system c) (parallel_jobs c) v (core_only c) (build_tests c) (build_examples c)
    (clean_build c) (conan_toolchain c) (use_conan c) (interactive c) (cmake_args c)
    (is_windows c) (is_linux c) (is_macos c).
Definition set_core_only (v : option bool) (c : BuildConfig) : BuildConfig :=
  mkConfig (script_dir c) (project_root c) (build_type c) (compiler c) (cxx_compiler c)
    (build_system c) (parallel_jobs c) (vs_version c) v (build_tests c) (build_examples c)
    (clean_build c) (conan_toolchain c) (use_conan c) (interactive c) (cmake_args c)
    (is_windows c) (is_linux c) (is_macos c).
Definition set_build_tests (v : option bool) (c : BuildConfig) : BuildConfig :=
  mkConfig (script_dir c) (project_root c) (build_type c) (compiler c) (cxx_compiler c)
    (build_system c) (parallel_jobs c) (vs_version c) (core_only c) v (build_examples c)
    (clean_build c) (conan_toolchain c) (use_conan c) (interactive c) (cmake_args c)
    (is_windows c) (is_linux c) (is_macos c).
Definition set_build_examples (v : option bool) (c : BuildConfig) : BuildConfig :=
  mkConfig (script_dir c) (project_root c) (build_type c) (compiler c) (cxx_compiler c)
    (build_system c) (parallel_jobs c) (vs_version c) (core_only c) (build_tests c) v
    (clean_build c) (conan_toolchain c) (use_conan c) (interactive c) (cmake_args c)
    (is_windows c) (is_linux c) (is_macos c).
Definition set_clean_build (v : bool) (c : BuildConfig) : BuildConfig :=
  mkConfig (script_dir c) (project_root c) (build_type c) (compiler c) (cxx_compiler c)
    (build_system c) (parallel_jobs c) (vs_version c) (core_only c) (build_tests c)
    (build_examples c) v (conan_toolchain c) (use_conan c) (interactive c) (cmake_args c)
    (is_windows c) (is_linux c) (is_macos c).
Definition set_conan_toolchain (v : option Path) (c : BuildConfig) : BuildConfig :=
  mkConfig (script_dir c) (project_root c) (build_type c) (compiler c) (cxx_compiler c)
    (build_system c) (parallel_jobs c) (vs_version c) (core_only c) (build_tests c)
    (build_examples c) (clean_build c) v (use_conan c) (interactive c) (cmake_args c)
    (is_windows c) (is_linux c) (is_macos c).
Definition set_use_conan (v : option bool) (c : BuildConfig) : BuildConfig :=
  mkConfig (script_dir c) (project_root c) (build_type c) (compiler c) (cxx_compiler c)
    (build_system c) (parallel_jobs c) (vs_version c) (core_only c) (build_tests c)
    (build_examples c) (clean_build c) (conan_toolchain c) v (interactive c) (cmake_args c)
    (is_windows c) (is_linux c) (is_macos c).
Definition set_interactive (v : bool) (c : BuildConfig) : BuildConfig :=
  mkConfig (script_dir c) (project_root c) (build_type c) (compiler c) (cxx_compiler c)
    (build_system c) (parallel_jobs c) (vs_version c) (core_only c) (build_tests c)
    (build_examples c) (clean_build c) (conan_toolchain c) (use_conan c) v (cmake_args c)
    (is_windows c) (is_linux c) (is_macos c).
Definition set_cmake_args (v : string) (c : BuildConfig) : BuildConfig :=
  mkConfig (script_dir c) (project_root c) (build_type c) (compiler c) (cxx_compiler c)
    (build_system c) (parallel_jobs c) (vs_version c) (core_only c) (build_tests c)
    (build_examples c) (clean_build c) (conan_toolchain c) (use_conan c) (interactive c) v
    (is_windows c) (is_linux c) (is_macos c).

(** [self.config.compiler = a; self.config.cxx_compiler = b] *)
Definition use_compiler (a b : string) (c : BuildConfig) : BuildConfig :=
  set_cxx_compiler (Some b) (set_compiler (Some a) c).

(** [BuildConfig.get_platform_name] *)
Definition get_platform_name (c : BuildConfig) : string :=
  if is_windows c then "windows"
  else if is_linux c then "linux"
  else if is_macos c then "macos"
  else "unknown".

(** [BuildConfig.get_build_dir] *)
Definition get_build_dir (c : BuildConfig) : Path :=
  let build_type_lower :=
    if truthy (build_type c) then lower (default "" (build_type c)) else "release" in
  project_root c // "build" // build_type_lower // get_platform_name c.

(** [BuildConfig.get_conan_dir] *)
Definition get_conan_dir (c : BuildConfig) : Path := get_build_dir c.

(** *** class CompilerDetector *)

(** The Visual Studio installations looked for when vswhere is of no help. *)
Definition vs_install_paths (h : Host) : list Path :=
  List.map (Path_of (windows h))
    [ "C:/Program Files/Microsoft Visual Studio/2022/Community";
      "C:/Program Files/Microsoft Visual Studio/2022/Professional";
      "C:/Program Files/Microsoft Visual Studio/2022/Enterprise";
      "C:/Program Files (x86)/Microsoft Visual Studio/2019/Community";
      "C:/Program Files (x86)/Microsoft Visual Studio/2019/Professional";
      "C:/Program Files (x86)/Microsoft Visual Studio/2019/Enterprise" ].

Definition llvm_paths (h : Host) : list Path :=
  List.map (Path_of (windows h))
    [ "C:/Program Files/LLVM/bin"; "C:/Program Files (x86)/LLVM/bin" ].

(** Body of the two search loops of [_setup_clang_cl_path]: when
    [dir/clang-cl.exe] exists, [dir] is put in front of PATH and clang-cl is
    looked up again. *)
Definition try_clang_cl_dir (h : Host) (dir : Path) : M bool :=
  let* found := path_exists (dir // "clang-cl.exe") in
  if found then
    let* old := environ_get h "PATH" in
    match old with
    | None => raise KeyError
    | Some path =>
        let* _ := environ_set h "PATH" (str_of (windows h) dir +:+ pathsep h +:+ path) in
        check_command h "clang-cl"
    end
  else ret false.

(** [CompilerDetector._setup_clang_cl_path] *)
Definition _setup_clang_cl_path (h : Host) (c : BuildConfig) : M bool :=
  if negb (is_windows c) then ret true
  else
    let* present := check_command h "clang-cl" in
    if present then ret true
    else
      let* in_vs :=
        any_M (fun vs_path =>
                 let* there := path_exists vs_path in
                 if there then
                   any_M (try_clang_cl_dir h)
                     [ vs_path // "VC" // "Tools" // "Llvm" // "x64" // "bin";
                       vs_path // "VC" // "Tools" // "Llvm" // "bin" ]
                 else ret false)
              (vs_install_paths h) in
      if in_vs then ret true
      else any_M (try_clang_cl_dir h) (llvm_paths h).

Definition vswhere_args (vswhere : string) : list string :=
  [ vswhere; "-latest"; "-products"; "*"; "-requires";
    "Microsoft.VisualStudio.Component.VC.Tools.x86.x64";
    "-property"; "installationPath" ].

Definition vswhere_under (h : Host) (program_files : string) : Path :=
  Path_of (windows h) program_files // "Microsoft Visual Studio" // "Installer" // "vswhere.exe".

(** [CompilerDetector.detect_msvc]: availability and Visual Studio version *)
Definition detect_msvc (h : Host) (c : BuildConfig) : M (bool * option string) :=
  if negb (is_windows c) then ret (false, None)
  else
    let* pf := environ_get h "ProgramFiles(x86)" in
    let vswhere_path := vswhere_under h (default "C:\Program Files (x86)" pf) in
    let* have_vswhere := path_exists vswhere_path in
    let* by_vswhere :=
      if have_vswhere then
        let* result := spawn h Vswhere (Argv (vswhere_args (str_of (windows h) vswhere_path))) None in
        if (returncode result =? 0) && negb (String.eqb (strip (stdout result)) "") then
          let vs_path := Path_of (windows h) (strip (stdout result)) in
          let vs_version := List.find (fun part => among part ["2022"; "2019"; "2017"]) vs_path in
          let* have_vcvars :=
            path_exists (vs_path // "VC" // "Auxiliary" // "Build" // "vcvarsall.bat") in
          if have_vcvars then ret (Some vs_version) else ret None
        else ret None
      else ret None in
    match by_vswhere with
    | Some vs_version => ret (true, vs_version)
    | None =>
        let* cl := check_command h "cl" in
        ret (cl, None)
    end.

(** The check of the tool the bootstrap is for: mt for clang-cl, cl
    otherwise. *)
Definition msvc_tool_visible (h : Host) (c : BuildConfig) : M bool :=
  if opt_is (compiler c) "clang-cl" then
    let* mt := check_command h "mt" in
    if mt then ret true else check_command h "mt.exe"
  else check_command h "cl".

(** [os.environ[key] = value] for every [key=value] line of [out] *)
Definition import_environment (h : Host) (out : string) : M unit :=
  modify (fun w => with_environ (merge_lines (encodekey h) (environ w) out) w).

(** [CompilerDetector.setup_msvc_environment] *)
Definition setup_msvc_environment (h : Host) (c : BuildConfig) : M bool :=
  if negb (is_windows c) then ret true
  else if (truthy (build_system c) && negb (contains "Ninja" (default "" (build_system c))))%bool
  then ret true
  else if negb (opt_among (compiler c) ["msvc"; "cl"; "clang-cl"]) then ret true
  else
    let* ready := msvc_tool_visible h c in
    if ready then ret true
    else
      let* pf86 := environ_get h "ProgramFiles(x86)" in
      let* pf := environ_get h "ProgramFiles" in
      let first_vswhere := vswhere_under h (default "C:\Program Files (x86)" pf86) in
      let fallback_vswhere := vswhere_under h (default "C:\Program Files" pf) in
      let* first_there := path_exists first_vswhere in
      let* fallback_there := path_exists fallback_vswhere in
      let vswhere_path :=
        if (negb first_there && fallback_there)%bool then fallback_vswhere else first_vswhere in
      let* have_vswhere := path_exists vswhere_path in
      let* from_vswhere :=
        if have_vswhere then
          let* result := spawn h Vswhere (Argv (vswhere_args (str_of (windows h) vswhere_path))) None in
          if returncode result =? 0 then ret (strip (stdout result)) else ret ""
        else ret "" in
      let* vs_path :=
        if String.eqb from_vswhere "" then
          let* w := get in
          match List.find (exists_ (fs w)) (vs_install_paths h) with
          | Some p => ret (str_of (windows h) p)
          | None => ret ""
          end
        else ret from_vswhere in
      if String.eqb vs_path "" then ret false
      else
        let root := Path_of (windows h) vs_path in
        let vcvars_candidates :=
          [ root // "VC" // "Auxiliary" // "Build" // "vcvarsall.bat";
            root // "Common7" // "Tools" // "VsDevCmd.bat";
            root // "Common7" // "Tools" // "vcvars64.bat" ] in
        let* w := get in
        match List.find (exists_ (fs w)) vcvars_candidates with
        | None => ret false
        | Some vcvars =>
            let quoted := dquote +:+ str_of (windows h) vcvars +:+ dquote in
            let cmd :=
              if startswith "vsdevcmd" (lower (name vcvars))
              then quoted +:+ " && set"
              else quoted +:+ " amd64 && set" in
            let* proc := spawn h VendorScript (Shell cmd) None in
            if negb (returncode proc =? 0) then ret false
            else
              let* _ := import_environment h (stdout proc) in
              msvc_tool_visible h c
        end.

(** [CompilerDetector.detect_gcc] *)
Definition detect_gcc (h : Host) : M bool :=
  let* gcc := check_command h "gcc" in
  if gcc then check_command h "g++" else ret false.

Definition have_clang_pair (h : Host) : M bool :=
  let* clang := check_command h "clang" in
  if clang then check_command h "clang++" else ret false.

(** [CompilerDetector.detect_clang]: availability and variant *)
Definition detect_clang (h : Host) (c : BuildConfig) : M (bool * option string) :=
  if is_windows c then
    let* first := check_command h "clang-cl" in
    let* has_clang_cl :=
      if first then ret true
      else
        let* _ := _setup_clang_cl_path h c in
        check_command h "clang-cl" in
    let* has_clang := have_clang_pair h in
    if has_clang_cl then ret (true, Some "clang-cl")
    else if has_clang then ret (true, Some "clang")
    else ret (false, None)
  else
    let* has_clang := have_clang_pair h in
    if has_clang then ret (true, Some "clang") else ret (false, None).

(** Answer to a numbered menu: [input(...).strip()] *)
Definition menu_choice : M string :=
  let* line := input in ret (strip line).

(** [CompilerDetector.select_compiler_interactive] *)
Definition select_compiler_interactive (h : Host) (c : BuildConfig) : M (bool * BuildConfig) :=
  if is_windows c then
    let* (has_msvc, vs_version) := detect_msvc h c in
    let* (has_clang, clang_variant) := detect_clang h c in
    if (negb has_msvc && negb has_clang)%bool then ret (false, c)
    else if (has_msvc && negb has_clang)%bool then ret (true, use_compiler "msvc" "cl" c)
    else if (has_clang && negb has_msvc)%bool then
      if opt_is clang_variant "clang-cl"
      then ret (true, use_compiler "clang-cl" "clang-cl" c)
      else ret (true, use_compiler "clang" "clang++" c)
    else
      let* choice := menu_choice in
      if String.eqb choice "2" then
        if opt_is clang_variant "clang-cl"
        then ret (true, use_compiler "clang-cl" "clang-cl" c)
        else ret (true, use_compiler "clang" "clang++" c)
      else ret (true, use_compiler "msvc" "cl" c)
  else if (is_linux c || is_macos c)%bool then
    let* has_gcc := detect_gcc h in
    let* (has_clang, _) := detect_clang h c in
    if (negb has_gcc && negb has_clang)%bool then ret (false, c)
    else if (has_gcc && negb has_clang)%bool then ret (true, use_compiler "gcc" "g++" c)
    else if (has_clang && negb has_gcc)%bool then ret (true, use_compiler "clang" "clang++" c)
    else
      let* choice := menu_choice in
      if String.eqb choice "2"
      then ret (true, use_compiler "clang" "clang++" c)
      else ret (true, use_compiler "gcc" "g++" c)
  else ret (false, c).

(** How [setup_compiler] reads a cached CMAKE_CXX_COMPILER value: the
    compiler and C++ driver it stands for, if any. *)
Definition compiler_of_cache (h : Host) (cxx_compiler : string) : option (string * string) :=
  if (contains "g++" cxx_compiler || contains "gcc" cxx_compiler)%bool then Some ("gcc", "g++")
  else if contains "clang-cl" cxx_compiler then Some ("clang-cl", "clang-cl")
  else if (contains "clang++" cxx_compiler || contains "clang" cxx_compiler)%bool
  then Some ("clang", "clang++")
  else if (contains "cl.exe" cxx_compiler
           || String.eqb "cl" (name (Path_of (windows h) cxx_compiler))
           || contains "msvc" (lower cxx_compiler))%bool
  then Some ("msvc", "cl")
  else None.

(** The branch of [setup_compiler] that validates a compiler already set. *)
Definition validate_compiler (h : Host) (c : BuildConfig) : M (bool * BuildConfig) :=
  if is_windows c then
    if opt_among (compiler c) ["msvc"; "cl"] then
      let* (has_msvc, vs_version) := detect_msvc h c in
      if negb has_msvc then ret (false, c)
      else ret (true, set_vs_version vs_version (use_compiler "msvc" "cl" c))
    else if opt_among (compiler c) ["clang"; "clang-cl"] then
      let* _ := if opt_is (compiler c) "clang-cl" then _setup_clang_cl_path h c else ret true in
      let* (has_clang, clang_variant) := detect_clang h c in
      if negb has_clang then ret (false, c)
      else if opt_is (compiler c) "clang-cl" then
        let* clang_cl := check_command h "clang-cl" in
        if (negb (opt_is clang_variant "clang-cl") && negb clang_cl)%bool then ret (false, c)
        else ret (true, use_compiler "clang-cl" "clang-cl" c)
      else
        let* regular := have_clang_pair h in
        if (opt_is clang_variant "clang-cl" && negb regular)%bool
        then ret (true, use_compiler "clang-cl" "clang-cl" c)
        else ret (true, use_compiler "clang" "clang++" c)
    else ret (false, c)
  else
    if opt_is (compiler c) "gcc" then
      let* has_gcc := detect_gcc h in
      if negb has_gcc then ret (false, c)
      else ret (true, set_cxx_compiler (Some "g++") c)
    else if opt_is (compiler c) "clang" then
      let* (has_clang, _) := detect_clang h c in
      if negb has_clang then ret (false, c)
      else ret (true, set_cxx_compiler (Some "clang++") c)
    else ret (false, c).

(** The non-interactive detection of [setup_compiler]. *)
Definition autodetect_compiler (h : Host) (c : BuildConfig) : M (bool * BuildConfig) :=
  if is_windows c then
    let* (has_msvc, vs_version) := detect_msvc h c in
    let* (has_clang, clang_variant) := detect_clang h c in
    if has_msvc then ret (true, set_vs_version vs_version (use_compiler "msvc" "cl" c))
    else if has_clang then
      if opt_is clang_variant "clang-cl"
      then ret (true, use_compiler "clang-cl" "clang-cl" c)
      else ret (true, use_compiler "clang" "clang++" c)
    else ret (false, c)
  else
    let* has_gcc := detect_gcc h in
    if has_gcc then ret (true, use_compiler "gcc" "g++" c)
    else
      let* (has_clang, _) := detect_clang h c in
      if has_clang then ret (true, use_compiler "clang" "clang++" c)
      else ret (false, c).

(** [CompilerDetector.setup_compiler] *)
Definition setup_compiler (h : Host) (c : BuildConfig) : M (bool * BuildConfig) :=
  if truthy (compiler c) then validate_compiler h c
  else
    let* cmake_cache := read_cmake_cache (get_build_dir c) in
    let (c, cmake_cache) :=
      match cmake_cache !! "CMAKE_CXX_COMPILER" with
      | Some cxx_compiler =>
          match compiler_of_cache h cxx_compiler with
          | Some (comp, cxx) => (use_compiler comp cxx c, cmake_cache)
          | None => (c, ∅)
          end
      | None => (c, cmake_cache)
      end in
    match cmake_cache !! "CMAKE_CXX_COMPILER" with
    | Some _ => ret (true, c)
    | None =>
        if interactive c then select_compiler_interactive h c
        else autodetect_compiler h c
    end.

(** *** class BuildSystemSelector *)

Definition detect_ninja (h : Host) : M bool := check_command h "ninja".

Definition detect_make (h : Host) : M bool :=
  let* make := check_command h "make" in
  if make then ret true else check_command h "mingw32-make".

(** [BuildSystemSelector.detect_msbuild]: availability and generator *)
Definition detect_msbuild (h : Host) (c : BuildConfig) : M (bool * option string) :=
  if negb (is_windows c) then ret (false, None)
  else
    let* (has_msvc, vs_version) := detect_msvc h c in
    if negb has_msvc then ret (false, None)
    else if opt_is vs_version "2022" then ret (true, Some "Visual Studio 17 2022")
    else if opt_is vs_version "2019" then ret (true, Some "Visual Studio 16 2019")
    else if opt_is vs_version "2017" then ret (true, Some "Visual Studio 15 2017")
    else
      let* msbuild := check_command h "msbuild" in
      if msbuild then ret (true, Some "Visual Studio 17 2022") else ret (false, None).

(** [BuildSystemSelector.select_build_system_interactive] *)
Definition select_build_system_interactive (h : Host) (c : BuildConfig)
  : M (bool * BuildConfig) :=
  if is_windows c then
    let* (has_msbuild, msbuild_generator) := detect_msbuild h c in
    let* has_ninja := detect_ninja h in
    if (negb has_msbuild && negb has_ninja)%bool then ret (false, c)
    else if (has_ninja && negb has_msbuild)%bool then ret (true, set_build_system (Some "Ninja") c)
    else if (has_msbuild && negb has_ninja)%bool
    then ret (true, set_build_system msbuild_generator c)
    else
      let* choice := menu_choice in
      if String.eqb choice "1"
      then ret (true, set_build_system msbuild_generator c)
      else ret (true, set_build_system (Some "Ninja") c)
  else if (is_linux c || is_macos c)%bool then
    let* has_ninja := detect_ninja h in
    let* has_make := detect_make h in
    if (negb has_ninja && negb has_make)%bool then ret (false, c)
    else if (has_ninja && negb has_make)%bool then ret (true, set_build_system (Some "Ninja") c)
    else if (has_make && negb has_ninja)%bool then ret (true, set_build_system (Some "Make") c)
    else
      let* choice := menu_choice in
      if String.eqb choice "2"
      then ret (true, set_build_system (Some "Make") c)
      else ret (true, set_build_system (Some "Ninja") c)
  else ret (false, c).

(** [BuildSystemSelector.setup_build_system] *)
Definition setup_build_system (h : Host) (c : BuildConfig) : M (bool * BuildConfig) :=
  if truthy (build_system c) then
    let build_sys_lower := lower (default "" (build_system c)) in
    if String.eqb build_sys_lower "ninja" then
      let* ninja := detect_ninja h in
      if negb ninja then ret (false, c) else ret (true, set_build_system (Some "Ninja") c)
    else if among build_sys_lower ["make"; "unix makefiles"] then
      let* make := detect_make h in
      if negb make then ret (false, c)
      else ret (true, set_build_system (Some "Unix Makefiles") c)
    else if among build_sys_lower ["msbuild"; "visual studio"] then
      let* (has_msbuild, msbuild_generator) := detect_msbuild h c in
      if negb has_msbuild then ret (false, c)
      else ret (true, set_build_system msbuild_generator c)
    else ret (true, c)
  else if interactive c then select_build_system_interactive h c
  else if is_windows c then
    let* ninja := detect_ninja h in
    if ninja then ret (true, set_build_system (Some "Ninja") c)
    else
      let* (has_msbuild, msbuild_generator) := detect_msbuild h c in
      if has_msbuild then ret (true, set_build_system msbuild_generator c)
      else ret (false, c)
  else
    let* ninja := detect_ninja h in
    if ninja then ret (true, set_build_system (Some "Ninja") c)
    else
      let* make := detect_make h in
      if make then ret (true, set_build_system (Some "Unix Makefiles") c)
      else ret (false, c).

(** *** class ConanManager *)

(** [ConanManager.find_conan_toolchain] *)
Definition find_conan_toolchain (c : BuildConfig) : M (option Path) :=
  let toolchain := get_conan_dir c // "conan_toolchain.cmake" in
  let* there := path_exists toolchain in
  if there then ret (Some toolchain) else ret None.

(** [ConanManager.ask_use_conan] *)
Definition ask_use_conan (c : BuildConfig) : M bool :=
  match use_conan c with
  | Some b => ret b
  | None =>
      let* conan_toolchain := find_conan_toolchain c in
      match conan_toolchain with
      | Some _ => ret true
      | None => if negb (interactive c) then ret false else ask_yes_no true
      end
  end.

Definition install_deps_cmd (h : Host) (c : BuildConfig) (install_script : Path)
  (build_type : string) : list string :=
  [ executable h; str_of (windows h) install_script; "--use-conan"; "--no-interactive";
    "--build-type"; build_type ]
  ++ (if truthy (compiler c) then ["--compiler"; default "" (compiler c)] else [])
  ++ (if truthy (build_system c) then ["--generator"; default "" (build_system c)] else []).

(** [ConanManager.setup_conan] *)
Definition setup_conan (h : Host) (c : BuildConfig) : M (bool * BuildConfig) :=
  let* use := ask_use_conan c in
  if negb use then ret (true, set_use_conan (Some false) c)
  else
    let c := set_use_conan (Some true) c in
    let* conan_toolchain := find_conan_toolchain c in
    let* reinstall :=
      match conan_toolchain with
      | Some _ => if interactive c then ask_yes_no false else ret false
      | None => ret true
      end in
    if negb reinstall then ret (true, set_conan_toolchain conan_toolchain c)
    else
      let install_script := script_dir c // "install_deps.py" in
      let* have_script := path_exists install_script in
      if negb have_script then ret (true, set_use_conan (Some false) c)
      else if interactive c then
        let* run_now := ask_yes_no true in
        if run_now then
          match build_type c with
          | None => raise TypeError
          | Some bt =>
              let* result := spawn h InstallDeps (Argv (install_deps_cmd h c install_script bt)) None in
              if negb (returncode result =? 0) then ret (true, set_use_conan (Some false) c)
              else
                let* conan_toolchain := find_conan_toolchain c in
                match conan_toolchain with
                | Some t => ret (true, set_conan_toolchain (Some t) c)
                | None => ret (true, set_use_conan (Some false) c)
                end
          end
        else ret (true, set_use_conan (Some false) c)
      else ret (true, set_use_conan (Some false) c).

(** *** class CMakeBuilder *)

(** [CMakeBuilder.select_build_type_interactive] *)
Definition select_build_type_interactive (c : BuildConfig) : M BuildConfig :=
  let* choice := menu_choice in
  if String.eqb choice "1" then ret (set_build_type (Some "Debug") c)
  else if String.eqb choice "2" then ret (set_build_type (Some "RelWithDebInfo") c)
  else ret (set_build_type (Some "Release") c).

(** [CMakeBuilder.select_modules_interactive] *)
Definition select_modules_interactive (c : BuildConfig) : M BuildConfig :=
  let* choice := menu_choice in
  if String.eqb choice "1" then ret (set_core_only (Some true) c)
  else ret (set_core_only (Some false) c).

(** [CMakeBuilder.select_tests_and_examples_interactive] *)
Definition select_tests_and_examples_interactive (c : BuildConfig) : M BuildConfig :=
  let* c :=
    match build_tests c with
    | None => let* yes := ask_yes_no false in ret (set_build_tests (Some yes) c)
    | Some _ => ret c
    end in
  match build_examples c with
  | None => let* yes := ask_yes_no false in ret (set_build_examples (Some yes) c)
  | Some _ => ret c
  end.

Definition on_off (b : bool) : string := if b then "ON" else "OFF".

Definition flag (key : string) (value : option bool) : list string :=
  match value with
  | Some b => ["-D" +:+ key +:+ "=" +:+ on_off b]
  | None => []
  end.

(** [shlex.split(cmake_args)], without its quoting rules *)
Definition extra_cmake_args (c : BuildConfig) : list string :=
  if String.eqb (cmake_args c) "" then [] else words (cmake_args c).

Definition generator_args (c : BuildConfig) : list string :=
  if truthy (build_system c) then ["-G"; default "" (build_system c)] else [].

(** The command of the Conan branch of [configure]. *)
Definition cmake_cmd_conan (h : Host) (c : BuildConfig) (build_dir toolchain : Path)
  : list string :=
  [ "cmake"; "-S"; str_of (windows h) (project_root c); "-B"; str_of (windows h) build_dir;
    "-DCMAKE_TOOLCHAIN_FILE=" +:+ str_of (windows h) toolchain;
    "-DCMAKE_EXPORT_COMPILE_COMMANDS=ON"; "-DHELIOS_USE_CONAN=ON"; "-DHELIOS_FORCE_CONAN=ON" ]
  ++ generator_args c
  ++ (if truthy (build_type c) then ["-DCMAKE_BUILD_TYPE=" +:+ default "" (build_type c)] else [])
  ++ flag "HELIOS_BUILD_CORE_ONLY" (core_only c)
  ++ flag "HELIOS_BUILD_TESTS" (build_tests c)
  ++ flag "HELIOS_BUILD_EXAMPLES" (build_examples c)
  ++ extra_cmake_args c.

(** The compiler and archiver arguments of the manual branch. *)
Definition compiler_args (h : Host) (c : BuildConfig) (env_fs : gmap string string * FS)
  : list string :=
  let found := which h (fst env_fs) (snd env_fs) in
  if (truthy (compiler c) && negb (opt_is (compiler c) "msvc"))%bool then
    let c_compiler := default "" (compiler c) in
    let cxx := if opt_is (compiler c) "clang-cl" then "clang-cl"
               else default "None" (cxx_compiler c) in
    [ "-DCMAKE_C_COMPILER=" +:+ c_compiler; "-DCMAKE_CXX_COMPILER=" +:+ cxx ]
    ++ (if opt_is (compiler c) "clang-cl" then
          if found "llvm-lib" then ["-DCMAKE_AR=llvm-lib"] else []
        else if opt_is (compiler c) "clang" then
          if is_windows c then []
          else (if found "llvm-ar" then ["-DCMAKE_AR=llvm-ar"] else [])
               ++ (if found "llvm-ranlib" then ["-DCMAKE_RANLIB=llvm-ranlib"] else [])
        else [])
  else [].

(** The command of the manual branch of [configure]. *)
Definition cmake_cmd_manual (h : Host) (c : BuildConfig) (build_dir : Path)
  (env_fs : gmap string string * FS) : list string :=
  let is_multi_config :=
    (truthy (build_system c) && contains "Visual Studio" (default "" (build_system c)))%bool in
  [ "cmake"; "-S"; str_of (windows h) (project_root c); "-B"; str_of (windows h) build_dir ]
  ++ generator_args c
  ++ match use_conan c, conan_toolchain c with
     | Some true, Some toolchain =>
         [ "-DCMAKE_TOOLCHAIN_FILE=" +:+ str_of (windows h) toolchain;
           "-DHELIOS_USE_CONAN=ON"; "-DHELIOS_FORCE_CONAN=ON" ]
     | _, _ => [ "-DHELIOS_USE_CONAN=OFF"; "-DHELIOS_FORCE_CONAN=OFF" ]
     end
  ++ (if (truthy (build_type c) && negb is_multi_config)%bool
      then ["-DCMAKE_BUILD_TYPE=" +:+ default "" (build_type c)] else [])
  ++ (if negb is_multi_config then compiler_args h c env_fs else [])
  ++ flag "HELIOS_BUILD_CORE_ONLY" (core_only c)
  ++ flag "HELIOS_BUILD_TESTS" (build_tests c)
  ++ flag "HELIOS_BUILD_EXAMPLES" (build_examples c)
  ++ ["-DCMAKE_EXPORT_COMPILE_COMMANDS=ON"]
  ++ extra_cmake_args c.

(** The loop of [configure] over the lines of an existing CMakeCache.txt
    that looks for a change of generator. *)
Fixpoint generator_check (c : BuildConfig) (lines : list string) : M BuildConfig :=
  match lines with
  | [] => ret c
  | line :: rest =>
      if startswith "CMAKE_GENERATOR:INTERNAL=" line then
        let old_generator := match partition "=" line with Some (_, v) => v | None => "" end in
        if negb (opt_is (build_system c) old_generator) then
          if interactive c then
            let* clean := ask_yes_no true in
            ret (if clean then set_clean_build true c else c)
          else ret c
        else generator_check c rest
      else generator_check c rest
  end.

(** The environment given to cmake: on Windows with Conan, [os.environ]
    extended by what conanbuild.bat sets. *)
Definition configure_env (h : Host) (c : BuildConfig) : M (gmap string string) :=
  let* w := get in
  let env := environ w in
  if (is_windows c && bool_decide (use_conan c = Some true))%bool then
    let conan_env_script := get_build_dir c // "conanbuild.bat" in
    let* there := path_exists conan_env_script in
    if there then
      let* result_env :=
        spawn h ConanEnv (Shell (dquote +:+ str_of (windows h) conan_env_script +:+ dquote +:+ " && set"))
          None in
      if returncode result_env =? 0
      then ret (merge_lines id env (stdout result_env))
      else ret env
    else ret env
  else ret env.

(** [CMakeBuilder.configure] *)
Definition configure (h : Host) (c : BuildConfig) : M (bool * BuildConfig) :=
  match use_conan c, conan_toolchain c with
  | Some true, Some toolchain =>
      let build_dir := get_build_dir c in
      let* _ := do_mkdir build_dir in
      let* result := spawn h CMakeConfigure (Argv (cmake_cmd_conan h c build_dir toolchain)) None in
      ret (returncode result =? 0, c)
  | _, _ =>
      let build_dir := get_build_dir c in
      let* _ := do_mkdir build_dir in
      let* w := get in
      let* c :=
        match read_text (fs w) (build_dir // "CMakeCache.txt") with
        | Some cache_content => generator_check c (splitlines cache_content)
        | None => ret c
        end in
      let* _ :=
        if clean_build c then
          let* there := path_exists build_dir in
          let* _ := if there then do_rmtree build_dir else ret tt in
          do_mkdir build_dir
        else ret tt in
      let* w := get in
      let cmake_cmd := cmake_cmd_manual h c build_dir (environ w, fs w) in
      let* env := configure_env h c in
      let* result := spawn h CMakeConfigure (Argv cmake_cmd) (Some env) in
      ret (returncode result =? 0, c)
  end.

(** *** Command line and [main] *)

(** The [argparse] namespace of configure.py. *)
Record Args : Type := mkArgs {
  arg_type : option string;
  arg_compiler : option string;
  arg_build_system : option string;
  arg_core_only : bool;
  arg_build_tests : option bool;
  arg_build_examples : option bool;
  arg_clean : bool;
  arg_no_interactive : bool;
  arg_use_conan : bool;
  arg_no_conan : bool;
  arg_cmake_args : string
}.

(** The configuration after "Apply command line arguments". *)
Definition apply_args (h : Host) (args : Args) : BuildConfig :=
  let c := BuildConfig_init h in
  let c := if truthy (arg_type args) then set_build_type (arg_type args) c else c in
  let c := if truthy (arg_compiler args) then set_compiler (arg_compiler args) c else c in
  let c := if truthy (arg_build_system args)
           then set_build_system (arg_build_system args) c else c in
  let c := set_clean_build (arg_clean args) c in
  let c := set_interactive (negb (arg_no_interactive args)) c in
  let c := set_build_tests (arg_build_tests args) c in
  let c := set_build_examples (arg_build_examples args) c in
  let c := if arg_use_conan args then set_use_conan (Some true) c
           else if arg_no_conan args then set_use_conan (Some false) c else c in
  let c := if arg_core_only args then set_core_only (Some true) c else c in
  set_cmake_args (arg_cmake_args args) c.

(** The end of both branches of [main]: bootstrap, Conan, CMake. *)
Definition bootstrap_and_configure (h : Host) (c : BuildConfig) : M (Z * BuildConfig) :=
  let* ok := setup_msvc_environment h c in
  if (negb ok && opt_among (compiler c) ["msvc"; "clang-cl"])%bool then ret (1, c)
  else
    let* (ok, c) := setup_conan h c in
    if negb ok then ret (1, c)
    else
      let* (ok, c) := configure h c in
      if negb ok then ret (1, c) else ret (0, c).

(** [main] of configure.py, returning the exit code together with the
    configuration it ends with. *)
Definition main_with_config (h : Host) (args : Args) : M (Z * BuildConfig) :=
  let c := apply_args h args in
  let* cmake := check_command h "cmake" in
  if negb cmake then ret (1, c)
  else if interactive c then
    let* c := match core_only c with
              | None => select_modules_interactive c
              | Some _ => ret c
              end in
    let* c := select_tests_and_examples_interactive c in
    let* c := if negb (truthy (build_type c)) then select_build_type_interactive c else ret c in
    let* c := if negb (truthy (compiler c))
              then let* (_, c) := select_compiler_interactive h c in ret c
              else ret c in
    let* (ok, c) := setup_compiler h c in
    if negb ok then ret (1, c)
    else
      let* c := if negb (truthy (build_system c))
                then let* (_, c) := select_build_system_interactive h c in ret c
                else ret c in
      let* (ok, c) := setup_build_system h c in
      if negb ok then ret (1, c)
      else bootstrap_and_configure h c
  else
    let c := if negb (truthy (build_type c)) then set_build_type (Some "Release") c else c in
    let c := match core_only c with None => set_core_only (Some false) c | Some _ => c end in
    let c := match build_tests c with None => set_build_tests (Some false) c | Some _ => c end in
    let c := match build_examples c with
             | None => set_build_examples (Some false) c
             | Some _ => c
             end in
    let* (ok, c) := setup_compiler h c in
    if negb ok then ret (1, c)
    else
      let* (ok, c) := setup_build_system h c in
      if negb ok then ret (1, c)
      else bootstrap_and_configure h c.

(** [main] of configure.py: the exit code of the process. *)
Definition main (h : Host) (args : Args) : M Z :=
  let* (code, _) := main_with_config h args in ret code.

End Configure.

(** ** scripts/build.py *)

Module Build.

(** [read_cmake_cache]: the same text as in configure.py. *)
Definition read_cmake_cache_in : FS -> Path -> gmap string string :=
  Configure.read_cmake_cache_in.

(** [get_platform_name()] *)
Definition get_platform_name (h : Host) : string :=
  if String.eqb (system h) "Windows" then "windows"
  else if String.eqb (system h) "Linux" then "linux"
  else if String.eqb (system h) "Darwin" then "macos"
  else "unknown".

(** [get_build_dir(project_root, build_type)] *)
Definition get_build_dir (h : Host) (project_root : Path) (build_type : string) : Path :=
  project_root // "build" // lower build_type // get_platform_name h.

(** The directories [build/<type>/<platform>] that hold a CMakeCache.txt,
    in the order the two nested [iterdir] loops meet them. *)
Definition configured_dirs_in (fs : FS) (project_root : Path) : list Path :=
  let build_root := project_root // "build" in
  List.flat_map
    (fun build_type_dir =>
       if is_dir fs build_type_dir then
         List.filter
           (fun platform_dir =>
              (is_dir fs platform_dir && exists_ fs (platform_dir // "CMakeCache.txt"))%bool)
           (iterdir fs build_type_dir)
       else [])
    (iterdir fs build_root).

(** [max(l, key=key)]: the first element with the largest key. *)
Fixpoint max_by {A} (key : A -> Z) (best : A) (l : list A) : A :=
  match l with
  | [] => best
  | x :: r => if key best <? key x then max_by key x r else max_by key best r
  end.

(** [find_configured_build_dir(project_root)] *)
Definition find_configured_build_dir_in (fs : FS) (project_root : Path) : option Path :=
  if negb (exists_ fs (project_root // "build")) then None
  else
    match configured_dirs_in fs project_root with
    | [] => None
    | d :: r => Some (max_by (fun d => st_mtime fs (d // "CMakeCache.txt")) d r)
    end.

Definition find_configured_build_dir (project_root : Path) : M (option Path) :=
  fun w => (Ret (find_configured_build_dir_in (fs w) project_root), w).

(** [sorted(l, key=key)]: a stable sort. *)
Fixpoint insert_by {A} (key : A -> Z) (x : A) (l : list A) : list A :=
  match l with
  | [] => [x]
  | y :: r => if key x <? key y then x :: l else y :: insert_by key x r
  end.
Definition sorted_by {A} (key : A -> Z) (l : list A) : list A :=
  List.fold_left (fun acc x => insert_by key x acc) l [].

Definition sort_key (path : Path) : Z :=
  let build_type := lower (name (parent path)) in
  if String.eqb build_type "debug" then 0
  else if String.eqb build_type "release" then 1
  else if String.eqb build_type "relwithdebinfo" then 2
  else 999.

(** [find_all_configured_build_dirs(project_root)] *)
Definition find_all_configured_build_dirs_in (fs : FS) (project_root : Path) : list Path :=
  if negb (exists_ fs (project_root // "build")) then []
  else sorted_by sort_key (configured_dirs_in fs project_root).

(** [detect_build_type_from_dir(build_dir)] *)
Definition detect_build_type_from_dir (build_dir : Path) : string :=
  let build_type := name (parent build_dir) in
  if among (lower build_type) ["debug"; "release"; "relwithdebinfo"] then
    if String.eqb (lower build_type) "relwithdebinfo" then "RelWithDebInfo"
    else capitalize build_type
  else "Release".

(** [is_configured(build_dir)] *)
Definition is_configured_in (fs : FS) (build_dir : Path) : bool :=
  exists_ fs (build_dir // "CMakeCache.txt").

(** The answer of [select_build_dir_interactive]:
    [(build_dir, needs_configure, build_type)]. *)
Definition Selection : Type := option Path * bool * option string.

Definition nth_dir (dirs : list Path) (idx : Z) : Path :=
  List.nth (Z.to_nat (idx - 1)) dirs [].

Definition in_range (idx : Z) (dirs : list Path) : bool :=
  ((1 <=? idx) && (idx <=? Z.of_nat (List.length dirs)))%bool.

(** The [while True] loop of [select_build_dir_interactive] over the
    pending input. The first prompt of a round is inside
    [try ... except (KeyboardInterrupt, EOFError)]; the prompt of
    "Reconfigure existing" is only inside [try ... except ValueError]. *)
Fixpoint select_loop (configured_dirs : list Path) (inp : list stdin_event)
  : outcome (option Selection) * list stdin_event :=
  match inp with
  | [] => (Ret None, [])
  | Interrupt :: r => (Ret None, r)
  | Line s :: r =>
      let choice := if String.eqb (strip s) "" then "1" else strip s in
      match int choice with
      | None => select_loop configured_dirs r
      | Some idx =>
          if in_range idx configured_dirs then
            let selected_dir := nth_dir configured_dirs idx in
            (Ret (Some (Some selected_dir, false,
                        Some (detect_build_type_from_dir selected_dir))), r)
          else if idx =? Z.of_nat (List.length configured_dirs) + 1 then
            (Ret (Some (None, true, None)), r)
          else if idx =? Z.of_nat (List.length configured_dirs) + 2 then
            match r with
            | [] => (Exc EOFError, [])
            | Interrupt :: r' => (Exc KeyboardInterrupt, r')
            | Line s' :: r' =>
                let reconfig_choice := if String.eqb (strip s') "" then "1" else strip s' in
                match int reconfig_choice with
                | None => select_loop configured_dirs r'
                | Some reconfig_idx =>
                    if in_range reconfig_idx configured_dirs then
                      let selected_dir := nth_dir configured_dirs reconfig_idx in
                      (Ret (Some (Some selected_dir, true,
                                  Some (detect_build_type_from_dir selected_dir))), r')
                    else select_loop configured_dirs r'
                end
            end
          else select_loop configured_dirs r
      end
  end.

(** [select_build_dir_interactive(project_root)]: [None] is "the user
    wants to exit". *)
Definition select_build_dir_interactive (project_root : Path) : M (option Selection) :=
  fun w =>
    match find_all_configured_build_dirs_in (fs w) project_root with
    | [] => (Ret (Some (None, true, None)), w)
    | configured_dirs =>
        let (result, rest) := select_loop configured_dirs (stdin w) in
        (result, with_stdin rest w)
    end.

(** The [argparse] namespace of build.py. [core_only] is a [store_true]
    flag, so it is never [None]. *)
Record Args : Type := mkArgs {
  arg_type : option string;
  arg_compiler : option string;
  arg_build_system : option string;
  arg_platform : option string;
  arg_core_only : bool;
  arg_build_tests : option bool;
  arg_build_examples : option bool;
  arg_use_conan : option bool;
  arg_jobs : Z;
  arg_clean : bool;
  arg_no_interactive : bool;
  arg_skip_configure : bool;
  arg_format : bool;
  arg_lint : bool;
  arg_cmake_args : string
}.

(** [args.type = build_type] *)
Definition set_arg_type (v : option string) (a : Args) : Args :=
  mkArgs v (arg_compiler a) (arg_build_system a) (arg_platform a) (arg_core_only a)
    (arg_build_tests a) (arg_build_examples a) (arg_use_conan a) (arg_jobs a) (arg_clean a)
    (arg_no_interactive a) (arg_skip_configure a) (arg_format a) (arg_lint a) (arg_cmake_args a).

(** The options [run_configure] takes over from the cache of the build
    directory it reconfigures; none of them when the option was given on
    the command line. (The test [args.core_only is None] of the source never
    holds.) *)
Definition options_from_cache (args : Args) (fs : FS) (existing_build_dir : Path)
  : list string :=
  let cache := read_cmake_cache_in fs existing_build_dir in
  (if negb (truthy (arg_compiler args)) then
     match cache !! "CMAKE_CXX_COMPILER" with
     | Some cxx_compiler =>
         if (contains "g++" cxx_compiler || contains "gcc" cxx_compiler)%bool
         then ["--compiler"; "gcc"]
         else if (contains "clang++" cxx_compiler || contains "clang" cxx_compiler)%bool
         then ["--compiler"; "clang"]
         else if (contains "cl.exe" cxx_compiler || contains "msvc" (lower cxx_compiler))%bool
         then ["--compiler"; "msvc"]
         else []
     | None => []
     end
   else [])
  ++ (if negb (truthy (arg_build_system args)) then
        match cache !! "CMAKE_GENERATOR" with
        | Some generator => ["--build-system"; generator]
        | None => []
        end
      else [])
  ++ match arg_build_tests args, cache !! "HELIOS_BUILD_TESTS" with
     | None, Some v => if String.eqb v "ON" then ["--tests"] else ["--no-tests"]
     | _, _ => []
     end
  ++ match arg_build_examples args, cache !! "HELIOS_BUILD_EXAMPLES" with
     | None, Some v => if String.eqb v "ON" then ["--examples"] else ["--no-examples"]
     | _, _ => []
     end
  ++ match arg_use_conan args with
     | None =>
         if exists_ fs (existing_build_dir // "conan_toolchain.cmake")
         then ["--use-conan"] else []
     | Some _ => []
     end.

(** "Pass through explicit arguments (these override cache)" *)
Definition explicit_options (args : Args) : list string :=
  (if truthy (arg_type args) then ["--type"; default "" (arg_type args)] else [])
  ++ (if truthy (arg_compiler args) then ["--compiler"; default "" (arg_compiler args)] else [])
  ++ (if truthy (arg_build_system args)
      then ["--build-system"; default "" (arg_build_system args)] else [])
  ++ (if truthy (arg_platform args) then ["--platform"; default "" (arg_platform args)] else [])
  ++ (if arg_core_only args then ["--core-only"] else [])
  ++ match arg_build_tests args with
     | Some true => ["--tests"] | Some false => ["--no-tests"] | None => []
     end
  ++ match arg_build_examples args with
     | Some true => ["--examples"] | Some false => ["--no-examples"] | None => []
     end
  ++ match arg_use_conan args with
     | Some true => ["--use-conan"] | Some false => ["--no-conan"] | None => []
     end
  ++ (if arg_clean args then ["--clean"] else [])
  ++ (if arg_no_interactive args then ["--no-interactive"] else [])
  ++ (if negb (String.eqb (arg_cmake_args args) "")
      then ["--cmake-args"; arg_cmake_args args] else []).

(** [run_configure(args, script_dir, project_root, existing_build_dir)] *)
Definition run_configure (h : Host) (args : Args) (script_dir project_root : Path)
  (existing_build_dir : option Path) : M (bool * option Path) :=
  let configure_script := script_dir // "configure.py" in
  let* there := path_exists configure_script in
  if negb there then ret (false, None)
  else
    let* w := get in
    let cached :=
      match existing_build_dir with
      | Some d => if exists_ (fs w) d then options_from_cache args (fs w) d else []
      | None => []
      end in
    let cmd := [executable h; str_of (windows h) configure_script] ++ cached
               ++ explicit_options args in
    let* result := spawn h ConfigurePy (Argv cmd) None in
    if returncode result =? 0 then
      let* build_dir := find_configured_build_dir project_root in
      ret (true, build_dir)
    else ret (false, None).

(** [setup_msvc_environment()] of build.py: the environment for the build,
    a copy of [os.environ] with the variables of vcvarsall.bat merged in. *)
Definition setup_msvc_environment (h : Host) : M (gmap string string) :=
  let* w := get in
  let env := environ w in
  if negb (String.eqb (system h) "Windows") then ret env
  else
    let* cl := check_command h "cl" in
    let* include := environ_get h "INCLUDE" in
    if (cl && bool_decide (include <> None))%bool then ret env
    else
      let* pf86 := environ_get h "ProgramFiles(x86)" in
      let* pf := environ_get h "ProgramFiles" in
      let first_vswhere :=
        Configure.vswhere_under h (default "C:\Program Files (x86)" pf86) in
      let fallback_vswhere := Configure.vswhere_under h (default "C:\Program Files" pf) in
      let* first_there := path_exists first_vswhere in
      let* fallback_there := path_exists fallback_vswhere in
      let vswhere_path :=
        if (negb first_there && fallback_there)%bool then fallback_vswhere else first_vswhere in
      let* have_vswhere := path_exists vswhere_path in
      let* from_vswhere :=
        if have_vswhere then
          let* result :=
            spawn h Vswhere (Argv (Configure.vswhere_args (str_of (windows h) vswhere_path))) None in
          if returncode result =? 0 then ret (strip (stdout result)) else ret ""
        else ret "" in
      let* vs_path :=
        if String.eqb from_vswhere "" then
          let* w := get in
          match List.find (exists_ (fs w)) (Configure.vs_install_paths h) with
          | Some p => ret (str_of (windows h) p)
          | None => ret ""
          end
        else ret from_vswhere in
      if String.eqb vs_path "" then ret env
      else
        let vcvars :=
          Path_of (windows h) vs_path // "VC" // "Auxiliary" // "Build" // "vcvarsall.bat" in
        let* there := path_exists vcvars in
        if negb there then ret env
        else
          let cmd := dquote +:+ str_of (windows h) vcvars +:+ dquote +:+ " amd64 && set" in
          let* proc := spawn h VendorScript (Shell cmd) None in
          if returncode proc =? 0 then ret (merge_lines id env (stdout proc))
          else ret env.

(** [str(jobs)] *)
Definition str_of_Z (n : Z) : string := DecimalString.NilZero.string_of_int (Z.to_int n).

(** [build_project(build_dir, build_type, jobs)] *)
Definition build_project (h : Host) (build_dir : Path) (build_type : string) (jobs : Z)
  : M bool :=
  let* w := get in
  if negb (is_configured_in (fs w) build_dir) then ret false
  else
    let* env :=
      if String.eqb (system h) "Windows" then
        let conan_env_script := build_dir // "conanbuild.bat" in
        let* there := path_exists conan_env_script in
        if there then
          let* result :=
            spawn h ConanEnv (Shell (dquote +:+ str_of (windows h) conan_env_script +:+ dquote
                            +:+ " && set")) None in
          if returncode result =? 0
          then ret (merge_lines id (environ w) (stdout result))
          else setup_msvc_environment h
        else setup_msvc_environment h
      else ret (environ w) in
    let cmd := [ "cmake"; "--build"; str_of (windows h) build_dir; "--parallel";
                 str_of_Z jobs; "--config"; build_type ] in
    let* result := spawn h CMakeBuild (Argv cmd) (Some env) in
    ret (returncode result =? 0).

(** [has_config_args] of [main] *)
Definition has_config_args (args : Args) : bool :=
  (truthy (arg_type args) || truthy (arg_compiler args) || truthy (arg_build_system args)
   || arg_core_only args || bool_decide (arg_build_tests args <> None)
   || bool_decide (arg_build_examples args <> None)
   || bool_decide (arg_use_conan args <> None) || arg_clean args)%bool.

(** The end of [main]: the build, then the optional lint step. *)
Definition build_and_lint (h : Host) (args : Args) (script_dir build_dir : Path)
  (build_type : string) : M Z :=
  let build_type :=
    if negb (truthy (arg_type args)) then detect_build_type_from_dir build_dir
    else build_type in
  let* built := build_project h build_dir build_type (arg_jobs args) in
  if negb built then ret 1
  else
    let* _ :=
      if arg_lint args then
        let lint_script := script_dir // "lint.py" in
        let* there := path_exists lint_script in
        if there then
          let* _ := spawn h LintPy (Argv [ executable h; str_of (windows h) lint_script;
                                    "--build-dir"; str_of (windows h) build_dir ]) None in
          ret tt
        else ret tt
      else ret tt in
    ret 0.

(** A run of [run_configure] inside [main], with the search for the
    directory it configured: the build directory, or [None] for
    [return 1]. *)
Definition configure_step (h : Host) (args : Args) (script_dir project_root : Path)
  (existing_build_dir : option Path) : M (option Path) :=
  let* (success, new_build_dir) := run_configure h args script_dir project_root
                                     existing_build_dir in
  if negb success then ret None
  else
    match new_build_dir with
    | Some d => ret (Some d)
    | None => find_configured_build_dir project_root
    end.

(** [main] of build.py after the optional formatting step, from the
    choice of the build directory on. [None] stands for the user leaving at
    the selection prompt. *)
Definition choose_build_dir (h : Host) (args : Args) (project_root : Path)
  : M (option (Args * option Path * bool * string)) :=
  let build_type := if truthy (arg_type args) then default "" (arg_type args) else "Release" in
  if (negb (has_config_args args) && negb (arg_skip_configure args)
      && negb (arg_no_interactive args))%bool then
    let* result := select_build_dir_interactive project_root in
    match result with
    | None => ret None
    | Some (build_dir, needs_configure, selected_build_type) =>
        if truthy selected_build_type
        then ret (Some (set_arg_type selected_build_type args, build_dir, needs_configure,
                        default "" selected_build_type))
        else ret (Some (args, build_dir, needs_configure, build_type))
    end
  else
    let* configured_dir := find_configured_build_dir project_root in
    let needs_configure :=
      (if arg_clean args then true
       else match configured_dir with
            | None => true
            | Some d =>
                if truthy (arg_type args)
                then negb (path_eqb d (get_build_dir h project_root (default "" (arg_type args))))
                else false
            end) in
    let needs_configure := (needs_configure || has_config_args args)%bool in
    let build_dir := if negb needs_configure then configured_dir else None in
    ret (Some (args, build_dir, needs_configure, build_type)).

(** The optional formatting step at the start of [main]: [False] stands
    for [return 1]. *)
Definition format_step (h : Host) (args : Args) : M bool :=
  if arg_format args then
    let format_script := scripts_dir h // "format.py" in
    let* there := path_exists format_script in
    if there then
      let* result := spawn h FormatPy (Argv [executable h; str_of (windows h) format_script])
                       None in
      ret (returncode result =? 0)
    else ret true
  else ret true.

(** [main] of build.py: the exit code of the process. *)
Definition main (h : Host) (args : Args) : M Z :=
  let script_dir := scripts_dir h in
  let project_root := parent script_dir in
  let* formatted := format_step h args in
  if negb formatted then ret 1
  else
    let* chosen := choose_build_dir h args project_root in
    match chosen with
    | None => ret 0
    | Some (args, build_dir, needs_configure, build_type) =>
        if (negb (arg_skip_configure args) && needs_configure)%bool then
          let* configured := configure_step h args script_dir project_root build_dir in
          match configured with
          | None => ret 1
          | Some build_dir => build_and_lint h args script_dir build_dir build_type
          end
        else
          match build_dir with
          | Some build_dir => build_and_lint h args script_dir build_dir build_type
          | None =>
              let* configured_dir := find_configured_build_dir project_root in
              let build_dir := default (get_build_dir h project_root build_type)
                                       configured_dir in
              let* w := get in
              if negb (is_configured_in (fs w) build_dir) then
                if arg_skip_configure args then ret 1
                else
                  let* configured := configure_step h args script_dir project_root None in
                  match configured with
                  | None => ret 1
                  | Some build_dir => build_and_lint h args script_dir build_dir build_type
                  end
              else build_and_lint h args script_dir build_dir build_type
          end
    end.

End Build.

(** ** scripts/format.py

    format.py reads no console input and leaves [os.environ] alone, so its
    state is the files and the subprocesses started; the environment [env]
    is a parameter. Paths are compared component by component and by exact
    text, as the file system of this embedding does ([pathlib] folds case on
    Windows); [resolve] is lexical: there are no symbolic links. *)

Module Format.

(** The [argparse] namespace: [--check] and the positional [paths]. *)
Record Args : Type := mkArgs {
  arg_check : bool;
  arg_paths : list string
}.

(** The exceptions that leave [main]: [FileNotFoundError] of
    [subprocess.run] in [format_file], which catches
    [CalledProcessError] only, and [UnboundLocalError] for a local variable
    read before any assignment. *)
Inductive crash : Type :=
| FileNotFoundError
| UnboundLocalError.

(** The files, and the subprocesses started so far, each with its command
    and return code, oldest first. *)
Record State : Type := mkState {
  files : FS;
  started : list (list string * Z)
}.

(** [subprocess.run(["clang-format"] + args, ...)]: [None] stands for
    [FileNotFoundError], raised when the program is not on PATH. *)
Definition run_clang_format (h : Host) (env : gmap string string) (args : list string)
  (st : State) : option ProcResult * State :=
  if which h env (files st) "clang-format" then
    let cmd := "clang-format" :: args in
    let r := run h (Argv cmd) env (files st) in
    (Some r, mkState (fs_after r) (started st ++ [(cmd, returncode r)]))
  else (None, st).

(** [check_clang_format()]: [check=True] raises [CalledProcessError] for a
    return code other than 0; both exceptions are caught. *)
Definition check_clang_format (h : Host) (env : gmap string string) (st : State)
  : bool * State :=
  match run_clang_format h env ["--version"] st with
  | (Some r, st') => (returncode r =? 0, st')
  | (None, st') => (false, st')
  end.

(** [s.endswith(suffix)] *)
Definition endswith (suffix s : string) : bool := startswith (Py.rev suffix) (Py.rev s).

(** [p.rglob("*." + ext)]: the entries below [p], at any depth, whose name
    ends with [.ext], in the order the file system lists them. *)
Definition rglob (fs : FS) (p : Path) (ext : string) : list Path :=
  List.filter
    (fun q => (is_prefix p q && negb (path_eqb p q) && endswith ("." +:+ ext) (name q))%bool)
    (List.map fst fs).

(** The loop over [exclude_dirs]: [file_path.relative_to(exclude_dir)]
    succeeds for one of them. *)
Definition excluded (exclude_dirs : list Path) (file_path : Path) : bool :=
  existsb (fun exclude_dir => is_prefix exclude_dir file_path) exclude_dirs.

(** [p < q] on paths: the order of their component lists. *)
Fixpoint path_ltb (p q : Path) : bool :=
  match p, q with
  | [], [] => false
  | [], _ :: _ => true
  | _ :: _, [] => false
  | a :: p', b :: q' =>
      match String.compare a b with
      | Lt => true
      | Gt => false
      | Eq => path_ltb p' q'
      end
  end.

(** [sorted(l)]: a stable sort. *)
Fixpoint insert_path (x : Path) (l : list Path) : list Path :=
  match l with
  | [] => [x]
  | y :: r => if path_ltb x y then x :: l else y :: insert_path x r
  end.
Definition sorted (l : list Path) : list Path :=
  List.fold_left (fun acc x => insert_path x acc) l [].

(** [find_source_files(source_dirs, extensions, exclude_dirs)] *)
Definition find_source_files (fs : FS) (source_dirs : list Path) (extensions : list string)
  (exclude_dirs : list Path) : list Path :=
  sorted
    (List.flat_map
       (fun source_dir =>
          if negb (exists_ fs source_dir) then []
          else
            List.flat_map
              (fun ext =>
                 List.filter (fun file_path => negb (excluded exclude_dirs file_path))
                   (rglob fs source_dir ext))
              extensions)
       source_dirs).

(** The command of [format_file(file_path, check_only)] after the program
    name. *)
Definition format_args (check_only : bool) (file : string) : list string :=
  if check_only then ["-style=file"; "--dry-run"; "--Werror"; file]
  else ["-style=file"; "-i"; file].

(** [format_file(file_path, check_only)]: with [check_only] the answer is
    [returncode == 0]; without, [check=True] raises [CalledProcessError]
    for a return code other than 0, which is caught and answered [False]. *)
Definition format_file (h : Host) (env : gmap string string) (file_path : Path)
  (check_only : bool) (st : State) : (crash + bool) * State :=
  match run_clang_format h env (format_args check_only (str_of (windows h) file_path)) st with
  | (Some r, st') => (inr (returncode r =? 0), st')
  | (None, st') => (inl FileNotFoundError, st')
  end.

(** [Path(s)]: components [.] vanish. *)
Definition parse_path (windows : bool) (s : string) : Path :=
  List.filter (fun part => negb (String.eqb part ".")) (Path_of windows s).

(** [path.is_absolute()]: a root, with a drive on Windows. *)
Definition is_absolute (windows : bool) (s : string) : bool :=
  if windows then
    match s with
    | String _ (String ":" (String c _)) => is_sep true c
    | String a (String b _) => (is_sep true a && is_sep true b)%bool
    | _ => false
    end
  else startswith "/" s.

(** [path.resolve()] of an absolute path without symbolic links: [..] drops
    the component before it, but never the anchor. *)
Fixpoint resolve_onto (seen : list string) (rest : Path) : Path :=
  match rest with
  | [] => List.rev seen
  | part :: rest' =>
      if String.eqb part ".." then
        match seen with
        | [_] | [] => resolve_onto seen rest'
        | _ :: seen' => resolve_onto seen' rest'
        end
      else resolve_onto (part :: seen) rest'
  end.
Definition resolve (p : Path) : Path := resolve_onto [] p.

(** [path.suffix]: from the last dot of the name, when that dot is neither
    its first nor its last character. *)
Definition suffix (p : Path) : string :=
  match partition "." (Py.rev (name p)) with
  | Some (rev_ext, rev_stem) =>
      if (negb (String.eqb rev_stem "") && negb (String.eqb rev_ext ""))%bool
      then "." +:+ Py.rev rev_ext else ""
  | None => ""
  end.

(** [s[1:]] *)
Definition tail (s : string) : string :=
  match s with
  | String _ r => r
  | EmptyString => ""
  end.

(** [path.is_file()] *)
Definition is_file (fs : FS) (p : Path) : bool :=
  match fs_lookup fs p with Some (File _ _) => true | _ => false end.

(** The loop of [main] over [args.paths], before [sorted(set(...))]. *)
Definition explicit_files (h : Host) (fs : FS) (project_root : Path) (extensions : list string)
  (exclude_dirs : list Path) (paths : list string) : list Path :=
  List.flat_map
    (fun path_str =>
       let path := parse_path (windows h) path_str in
       let path :=
         if negb (is_absolute (windows h) path_str) then resolve (project_root ++ path)
         else path in
       if negb (exists_ fs path) then []
       else if is_file fs path then
         if among (tail (suffix path)) extensions then
           if negb (excluded exclude_dirs path) then [path] else []
         else []
       else if is_dir fs path then find_source_files fs [path] extensions exclude_dirs
       else [])
    paths.

(** [set(l)], before it is sorted *)
Fixpoint distinct (l : list Path) : list Path :=
  match l with
  | [] => []
  | x :: r => x :: List.filter (fun y => negb (path_eqb x y)) (distinct r)
  end.

(** The two loops over [source_files] of [main]: the files for which
    [format_file] answered [False]. *)
Fixpoint format_files (h : Host) (env : gmap string string) (check_only : bool)
  (source_files : list Path) (st : State) : (crash + list Path) * State :=
  match source_files with
  | [] => (inr [], st)
  | file_path :: rest =>
      match format_file h env file_path check_only st with
      | (inl e, st') => (inl e, st')
      | (inr ok, st') =>
          match format_files h env check_only rest st' with
          | (inl e, st'') => (inl e, st'')
          | (inr failed, st'') => (inr (if ok then failed else file_path :: failed), st'')
          end
      end
  end.

Definition extensions : list string := ["cpp"; "h"; "hpp"; "inl"].

(** [source_files] as [main] computes it, and whether [source_dirs] was
    assigned on the way (it is in the [else] branch only). *)
Definition find_files (h : Host) (args : Args) (fs : FS) : list Path * bool :=
  let project_root := parent (scripts_dir h) in
  let exclude_dirs := [project_root // "third-party"] in
  match arg_paths args with
  | _ :: _ =>
      (sorted (distinct (explicit_files h fs project_root extensions exclude_dirs
                           (arg_paths args))), false)
  | [] =>
      let source_dirs :=
        [project_root // "src"; project_root // "tests"; project_root // "examples"] in
      (find_source_files fs source_dirs extensions exclude_dirs, true)
  end.

(** [main]: the exit code of the process, or the exception that ends it.
    The warning for an empty [source_files] reads [source_dirs]. *)
Definition main (h : Host) (env : gmap string string) (args : Args) (st : State)
  : (crash + Z) * State :=
  let (installed, st) := check_clang_format h env st in
  if negb installed then (inr 1, st)
  else
    let (source_files, source_dirs_assigned) := find_files h args (files st) in
    match source_files with
    | [] => if source_dirs_assigned then (inr 0, st) else (inl UnboundLocalError, st)
    | _ :: _ =>
        if arg_check args then
          match format_files h env true source_files st with
          | (inl e, st') => (inl e, st')
          | (inr [], st') => (inr 0, st')
          | (inr (_ :: _), st') => (inr 1, st')
          end
        else
          match format_files h env false source_files st with
          | (inl e, st') => (inl e, st')
          | (inr [], st') => (inr 0, st')
          | (inr (_ :: _), st') => (inr 1, st')
          end
    end.

End Format.

(** ** scripts/lint.py

    The conventions are those of format.py; the state is the same. *)

Module Lint.

(** The [argparse] namespace. *)
Record Args : Type := mkArgs {
  arg_fix : bool;
  arg_platform : option string;
  arg_type : option string;
  arg_build_dir : option string
}.

(** The exception that leaves [main]: [FileNotFoundError] of
    [subprocess.run] in [lint_file], which catches [CalledProcessError]
    only. *)
Inductive crash : Type :=
| FileNotFoundError.

(** [subprocess.run(["clang-tidy"] + args, ...)]: [None] stands for
    [FileNotFoundError]. *)
Definition run_clang_tidy (h : Host) (env : gmap string string) (args : list string)
  (st : Format.State) : option ProcResult * Format.State :=
  if which h env (Format.files st) "clang-tidy" then
    let cmd := "clang-tidy" :: args in
    let r := run h (Argv cmd) env (Format.files st) in
    (Some r, Format.mkState (fs_after r) (Format.started st ++ [(cmd, returncode r)]))
  else (None, st).

(** [check_clang_tidy()] *)
Definition check_clang_tidy (h : Host) (env : gmap string string) (st : Format.State)
  : bool * Format.State :=
  match run_clang_tidy h env ["--version"] st with
  | (Some r, st') => (returncode r =? 0, st')
  | (None, st') => (false, st')
  end.

(** [find_source_files]: the same text as in format.py. *)
Definition find_source_files : FS -> list Path -> list string -> list Path -> list Path :=
  Format.find_source_files.

(** The command of [lint_file(file_path, build_dir, fix)] after the
    program name. *)
Definition lint_args (h : Host) (file_path build_dir : Path) (fix_issues : bool) : list string :=
  [ "-p=" +:+ str_of (windows h) build_dir; str_of (windows h) file_path ]
  ++ (if fix_issues then ["--fix"] else []).

(** [lint_file(file_path, build_dir, fix)] *)
Definition lint_file (h : Host) (env : gmap string string) (file_path build_dir : Path)
  (fix_issues : bool) (st : Format.State) : (crash + bool) * Format.State :=
  match run_clang_tidy h env (lint_args h file_path build_dir fix_issues) st with
  | (Some r, st') => (inr (returncode r =? 0), st')
  | (None, st') => (inl FileNotFoundError, st')
  end.

(** [base_dir.glob("*/.../compile_commands.json")] with [depth + 1] stars:
    the first match in the order the file system lists its entries. *)
Definition glob_compile_commands (fs : FS) (base_dir : Path) (depth : nat) : option Path :=
  List.find
    (fun q => (is_prefix base_dir q
               && Nat.eqb (List.length q) (List.length base_dir + depth + 2)
               && String.eqb (name q) "compile_commands.json")%bool)
    (List.map fst fs).

(** [find_compile_commands(base_dir)]: [None] stands for
    [FileNotFoundError]. *)
Definition find_compile_commands (fs : FS) (base_dir : Path) : option Path :=
  if exists_ fs (base_dir // "compile_commands.json") then Some base_dir
  else
    match List.find (fun subdir => exists_ fs (base_dir // subdir // "compile_commands.json"))
            ["build"; "debug"; "relwithdebinfo"; "release"] with
    | Some subdir => Some (base_dir // subdir)
    | None =>
        match glob_compile_commands fs base_dir 0 with
        | Some candidate => Some (parent candidate)
        | None =>
            match glob_compile_commands fs base_dir 1 with
            | Some candidate => Some (parent candidate)
            | None =>
                match glob_compile_commands fs base_dir 2 with
                | Some candidate => Some (parent candidate)
                | None => None
                end
            end
        end
    end.

(** [detect_platform(platform_arg)]; [os.uname().sysname] and
    [sys.platform] are read off [platform.system()]. *)
Definition detect_platform (h : Host) (platform_arg : option string) : string :=
  if truthy platform_arg then lower (default "" platform_arg)
  else if startswith "linux" (lower (system h)) then "linux"
  else if startswith "darwin" (lower (system h)) then "macos"
  else if windows h then "windows"
  else "unknown".

(** The build directory [main] searches. *)
Definition requested_build_dir (h : Host) (args : Args) : Path :=
  let project_root := parent (scripts_dir h) in
  let platform := detect_platform h (arg_platform args) in
  let build_type := if truthy (arg_type args) then lower (default "" (arg_type args))
                    else "release" in
  let build_dir :=
    if truthy (arg_build_dir args) then
      let text := default "" (arg_build_dir args) in
      if negb (Format.is_absolute (windows h) text)
      then project_root ++ Format.parse_path (windows h) text
      else Format.parse_path (windows h) text
    else project_root // "build" // build_type // platform in
  Format.resolve build_dir.

(** The loop of [main] over [source_files]: [has_errors]. *)
Fixpoint lint_files (h : Host) (env : gmap string string) (build_dir : Path)
  (fix_issues : bool)
  (source_files : list Path) (st : Format.State) : (crash + bool) * Format.State :=
  match source_files with
  | [] => (inr false, st)
  | file_path :: rest =>
      match lint_file h env file_path build_dir fix_issues st with
      | (inl e, st') => (inl e, st')
      | (inr ok, st') =>
          match lint_files h env build_dir fix_issues rest st' with
          | (inl e, st'') => (inl e, st'')
          | (inr has_errors, st'') => (inr (if ok then has_errors else true), st'')
          end
      end
  end.

(** The files [main] lints. *)
Definition source_files (h : Host) (fs : FS) : list Path :=
  let project_root := parent (scripts_dir h) in
  find_source_files fs [project_root // "src"; project_root // "examples"]
    ["cpp"; "h"; "hpp"; "inl"] [project_root // "third-party"].

(** [main]: the exit code of the process, or the exception that ends it. *)
Definition main (h : Host) (env : gmap string string) (args : Args) (st : Format.State)
  : (crash + Z) * Format.State :=
  let (installed, st) := check_clang_tidy h env st in
  if negb installed then (inr 1, st)
  else
    match find_compile_commands (Format.files st) (requested_build_dir h args) with
    | None => (inr 1, st)
    | Some build_dir =>
        match source_files h (Format.files st) with
        | [] => (inr 0, st)
        | files =>
            match lint_files h env build_dir (arg_fix args) files st with
            | (inl e, st') => (inl e, st')
            | (inr has_errors, st') => (inr (if has_errors then 1 else 0), st')
            end
        end
    end.

End Lint.

(** ** Notions used to state the properties *)

(** The build types [argparse] accepts for [--type]. *)
Definition build_type_choices : list string := ["Debug"; "Release"; "RelWithDebInfo"].

(** The platform of a configuration: the three flags [BuildConfig] keeps. *)
Definition platform_flags (c : Configure.BuildConfig) : bool * bool * bool :=
  (Configure.is_windows c, Configure.is_linux c, Configure.is_macos c).

(** The configuration lives on host [h]: its platform flags are those
    [BuildConfig.__init__] computes there. *)
Definition on_host (h : Host) (c : Configure.BuildConfig) : Prop :=
  platform_flags c = platform_flags (Configure.BuildConfig_init h).

(** The value the last [key=value] line for variable [k] gives it, if any
    line of [lines] is about [k]. *)
Fixpoint last_value (enc : string -> string) (k : string) (lines : list string)
  : option string :=
  match lines with
  | [] => None
  | line :: rest =>
      match last_value enc k rest with
      | Some v => Some v
      | None =>
          match partition "=" line with
          | Some (key, value) => if bool_decide (enc key = k) then Some value else None
          | None => None
          end
      end
  end.


(** The job and the return code of an entry of the subprocess log. *)
Definition job_of (e : role * Cmd * Z) : role := fst (fst e).
Definition rc_of (e : role * Cmd * Z) : Z := snd e.

(** Jobs that only prepare an environment. *)
Definition env_job (j : role) : Prop := j = ConanEnv \/ j = Vswhere \/ j = VendorScript.

(** The log grew by entries that satisfy [P]. *)
Definition grows (P : role * Cmd * Z -> Prop) : relation World :=
  fun w w' => exists l, spawned w' = spawned w ++ l /\ Forall P l.

(** The Visual Studio locator only reads: running it leaves the files as
    they are. *)
Definition vswhere_readonly (h : Host) : Prop :=
  forall vswhere env fs, fs_after (run h (Argv (Configure.vswhere_args vswhere)) env fs) = fs.

(** What looking for tools may do: start the Visual Studio locator, and
    nothing else; the files stay as they are if the locator only reads. *)
Definition probing (h : Host) : relation World :=
  fun w w' => grows (fun e => job_of e = Vswhere) w w'
              /\ (vswhere_readonly h -> fs w' = fs w).

(** The jobs configure.py starts besides cmake. *)
Definition aux_job (j : role) : Prop :=
  j = Vswhere \/ j = VendorScript \/ j = ConanEnv \/ j = InstallDeps.

(** The log grew by entries of such jobs only. *)
Definition preparing : relation World := grows (fun e => aux_job (job_of e)).

(** What [CMakeBuilder.configure] adds to the log: possibly the entry of
    Conan's environment script, then the entry of cmake, whose return code
    decides the answer. *)
Definition cmake_entry (ok : bool) (e : role * Cmd * Z) : Prop :=
  aux_job (job_of e) \/ (job_of e = CMakeConfigure /\ (rc_of e = 0 <-> ok = true)).

(** What an entry of the log of configure.py tells about the exit code
    [code] of the run: cmake's configuration succeeded exactly if the run
    did; the locator, the vendor script, Conan's environment script and the
    dependency installer may have returned anything; configure.py starts
    no other job. *)
Definition configure_entry (code : Z) (e : role * Cmd * Z) : Prop :=
  match job_of e with
  | CMakeConfigure => code = 0 <-> rc_of e = 0
  | Vswhere | VendorScript | ConanEnv | InstallDeps => True
  | CMakeBuild | ConfigurePy | FormatPy | LintPy => False
  end.

(** What an entry of the log of build.py tells about the exit code [code] of
    the run: formatting and configuring succeeded if the run did, the build
    succeeded exactly if the run did, lint ran only in a run that succeeded,
    and build.py itself starts neither the dependency installer nor
    cmake's configuration. *)
Definition entry_ok (code : Z) (e : role * Cmd * Z) : Prop :=
  match job_of e with
  | FormatPy | ConfigurePy => code = 0 -> rc_of e = 0
  | CMakeBuild => code = 0 <-> rc_of e = 0
  | LintPy => code = 0
  | ConanEnv | Vswhere | VendorScript => True
  | InstallDeps | CMakeConfigure => False
  end.

(** The user left at the prompt of the workspace selection: formatting, if
    asked for, went through, and the selection returned "no selection". *)
Definition cancelled_at_selection (h : Host) (args : Build.Args) (w w' : World) : Prop :=
  exists w1, Build.format_step h args w = (Ret true, w1)
             /\ Build.choose_build_dir h args (parent (scripts_dir h)) w1 = (Ret None, w').

(** The compilers [setup_compiler] can settle on, each with its C++
    driver. *)
Definition compiler_pairs : list (option string * option string) :=
  [ (Some "gcc", Some "g++"); (Some "clang", Some "clang++");
    (Some "clang-cl", Some "clang-cl"); (Some "msvc", Some "cl") ].

(** The generators [setup_build_system] chooses by itself. *)
Definition known_generators : list (option string) :=
  [ Some "Ninja"; Some "Unix Makefiles"; Some "Make"; Some "Visual Studio 17 2022";
    Some "Visual Studio 16 2019"; Some "Visual Studio 15 2017" ].

(** Everything but the pending console input is as before. *)
Definition only_input_read : relation World :=
  fun w w' => environ w' = environ w /\ fs w' = fs w /\ spawned w' = spawned w.

(** Nothing was read from the console. *)
Definition same_stdin : relation World := fun w w' => stdin w' = stdin w.

(** The bootstrap is called for: Windows, Ninja (or no generator yet) and a
    compiler of the MSVC family. *)
Definition bootstrap_applies (c : Configure.BuildConfig) : bool :=
  (Configure.is_windows c
   && negb (truthy (Configure.build_system c)
            && negb (contains "Ninja" (default "" (Configure.build_system c))))
   && opt_among (Configure.compiler c) ["msvc"; "cl"; "clang-cl"])%bool.

(** ** Hosts and worlds to run the scripts on *)

Module Sample.

Definition repo : Path := [""; "repo"].

Definition tools : list string :=
  ["cmake"; "git"; "gcc"; "g++"; "clang"; "clang++"; "ninja"; "make"].

(** A Linux machine with the tools [found] on PATH, on which a subprocess
    started for job [j] returns [rc j], prints nothing and leaves the files
    alone. *)
Definition linux (found : list string) (rc : Cmd -> Z) : Host :=
  {| system := "Linux";
     which := fun _ _ cmd => among cmd found;
     run := fun cmd _ fs => mkProc (rc cmd) "" "" fs;
     executable := "python3";
     scripts_dir := repo // "scripts";
     os_cpu_count := Some 8 |}.

Definition all_fine : Cmd -> Z := fun _ => 0.

(** Everything succeeds but the script named [script], which returns 1. *)
Definition only_fails (script : string) : Cmd -> Z :=
  fun cmd =>
    match cmd with
    | Argv (_ :: first :: _) => if contains script first then 1 else 0
    | _ => 0
    end.

(** The checkout with its scripts, nothing built yet. *)
Definition checkout : FS :=
  [ (repo, Dir); (repo // "scripts", Dir);
    (repo // "scripts" // "configure.py", File "" 0);
    (repo // "scripts" // "install_deps.py", File "" 0);
    (repo // "scripts" // "lint.py", File "" 0) ].

(** The checkout with one configured Release workspace. *)
Definition configured : FS :=
  checkout ++
  [ (repo // "build", Dir); (repo // "build" // "release", Dir);
    (repo // "build" // "release" // "linux", Dir);
    (repo // "build" // "release" // "linux" // "CMakeCache.txt",
     File "CMAKE_CXX_COMPILER:FILEPATH=/usr/bin/clang++" 1) ].

Definition world (files : FS) (typed : list stdin_event) : World :=
  mkWorld ∅ files typed [].

Definition host : Host := linux tools all_fine.

(** Two Debug configurations that differ in module, test and Conan
    choices. *)
Definition debug_plain : Configure.BuildConfig :=
  Configure.set_build_type (Some "Debug") (Configure.BuildConfig_init host).
Definition debug_full : Configure.BuildConfig :=
  Configure.set_use_conan (Some true)
    (Configure.set_build_tests (Some true)
       (Configure.set_core_only (Some true) debug_plain)).

(** A Release configuration for which no compiler was chosen yet. *)
Definition release_unset : Configure.BuildConfig :=
  Configure.set_interactive false
    (Configure.set_build_type (Some "Release") (Configure.BuildConfig_init host)).

Definition vcvars_output : string :=
  "PATH=C:\VC\bin" +:+ String "010" "INCLUDE=C:\VC\include".

(** [build.py --no-interactive --lint] *)
Definition build_and_lint_args : Build.Args :=
  Build.mkArgs None None None None false None None None 8 false true false false true "".

(** [configure.py --no-interactive] and
    [configure.py --no-interactive --use-conan] *)
Definition configure_defaults : Configure.Args :=
  Configure.mkArgs None None None false None None false true false false "".
Definition configure_with_conan : Configure.Args :=
  Configure.mkArgs None None None false None None false true true false "".

(** A Windows machine with Visual Studio 2022 installed but not on PATH:
    cl, mt and link are found once PATH holds the VC directory, which is
    what the vendor script prints. *)
Definition vs_root : Path :=
  Path_of true "C:/Program Files/Microsoft Visual Studio/2022/Community".

Definition winrepo : Path := ["C:"; "repo"].

Definition windows_files : FS :=
  [ (vs_root, Dir);
    (vs_root // "VC" // "Auxiliary" // "Build" // "vcvarsall.bat", File "" 0);
    (winrepo, Dir); (winrepo // "scripts", Dir);
    (winrepo // "scripts" // "configure.py", File "" 0) ].

Definition windows_host (found : list string) : Host :=
  {| system := "Windows";
     which := fun env _ cmd =>
       (among cmd found
        || (among cmd ["cl"; "mt"; "link"]
            && match env !! "PATH" with
               | Some path => contains "VC" path
               | None => false
               end))%bool;
     run := fun cmd _ fs =>
       match cmd with
       | Shell _ => mkProc 0 vcvars_output "" fs
       | Argv _ => mkProc 0 "" "" fs
       end;
     executable := "python.exe";
     scripts_dir := winrepo // "scripts";
     os_cpu_count := Some 8 |}.

Definition winhost : Host := windows_host ["cmake"; "ninja"].

Definition windows_world : World :=
  mkWorld (<["PATH" := "C:\Windows"]> ∅) windows_files [] [].

(** MSVC with Ninja: the combination that needs the bootstrap. *)
Definition msvc_ninja : Configure.BuildConfig :=
  Configure.set_build_system (Some "Ninja")
    (Configure.use_compiler "msvc" "cl"
       (Configure.set_build_type (Some "Release") (Configure.BuildConfig_init winhost))).

(** A checkout with two source files, one of them vendored. *)
Definition sources : FS :=
  checkout ++
  [ (repo // "src", Dir); (repo // "src" // "engine.cpp", File "" 0);
    (repo // "src" // "engine.hpp", File "" 0); (repo // "src" // "notes.txt", File "" 0);
    (repo // "third-party", Dir); (repo // "third-party" // "lib.cpp", File "" 0) ].

(** A machine with clang-format, which is content with every file but
    those whose path mentions [bad]. *)
Definition formatter (bad : string) : Host :=
  linux ("clang-format" :: tools)
    (fun cmd => match cmd with
                | Argv args => if existsb (contains bad) args then 1 else 0
                | Shell _ => 0
                end).

(** The same checkout after a Release build with Conan's layout, which
    puts compile_commands.json one directory down. *)
Definition built : FS :=
  sources ++
  [ (repo // "build", Dir); (repo // "build" // "release", Dir);
    (repo // "build" // "release" // "linux", Dir);
    (repo // "build" // "release" // "linux" // "build", Dir);
    (repo // "build" // "release" // "linux" // "build" // "compile_commands.json",
     File "" 0) ].

(** A machine with clang-tidy, which finds fault with the files whose path
    mentions [bad]. *)
Definition linter (bad : string) : Host :=
  linux ("clang-tidy" :: tools)
    (fun cmd => match cmd with
                | Argv (_ :: _ :: file :: _) => if contains bad file then 1 else 0
                | _ => 0
                end).


End Sample.

(** ** Properties *)

Section StringFacts.

Lemma app_one_inj {A} (l l' : list A) (a b : A) :
  l ++ [a] = l' ++ [b] -> l = l' /\ a = b.
Proof. apply app_inj_tail. Qed.

Lemma div_inj (p q : Path) (a b : string) : p // a = q // b -> p = q /\ a = b.
Proof. unfold div. apply app_one_inj. Qed.

Lemma lower_choice_inj (t1 t2 : string) :
  In t1 build_type_choices -> In t2 build_type_choices ->
  lower t1 = lower t2 -> t1 = t2.
Proof.
  unfold build_type_choices. simpl.
  intros [<-|[<-|[<-|[]]]] [<-|[<-|[<-|[]]]]; vm_compute; congruence.
Qed.

Lemma choice_truthy (t : string) : In t build_type_choices -> truthy (Some t) = true.
Proof. simpl. intros [<-|[<-|[<-|[]]]]; reflexivity. Qed.

End StringFacts.


Section Workspace.

Lemma host_flags_name (h : Host) (c : Configure.BuildConfig) :
  on_host h c -> Configure.get_platform_name c = Build.get_platform_name h.
Proof.
  unfold on_host, platform_flags, Configure.get_platform_name, Build.get_platform_name.
  simpl. intros H. injection H as -> -> ->. reflexivity.
Qed.

Lemma host_name_flags (h1 h2 : Host) :
  Build.get_platform_name h1 = Build.get_platform_name h2 ->
  platform_flags (Configure.BuildConfig_init h1) = platform_flags (Configure.BuildConfig_init h2).
Proof.
  unfold Build.get_platform_name, platform_flags. simpl.
  destruct (String.eqb_spec (system h1) "Windows") as [e1|n1];
  destruct (String.eqb_spec (system h1) "Linux") as [e2|n2];
  destruct (String.eqb_spec (system h1) "Darwin") as [e3|n3];
  destruct (String.eqb_spec (system h2) "Windows") as [f1|m1];
  destruct (String.eqb_spec (system h2) "Linux") as [f2|m2];
  destruct (String.eqb_spec (system h2) "Darwin") as [f3|m3];
  try congruence; try discriminate.
Qed.

(** C9. The build directory is a function of the pair (build type,
    platform) only, and an injective one: for configurations of one checkout
    whose build type is one [--type] accepts, the directories are equal
    exactly when build type and platform are, whatever the module flags,
    the test and example flags and the Conan choice; build.py computes the
    same directory. *)
Theorem workspace_key_unique (h1 h2 : Host) (c1 c2 : Configure.BuildConfig) (t1 t2 : string) :
  Configure.project_root c1 = Configure.project_root c2 ->
  on_host h1 c1 -> on_host h2 c2 ->
  Configure.build_type c1 = Some t1 -> Configure.build_type c2 = Some t2 ->
  In t1 build_type_choices -> In t2 build_type_choices ->
  (Configure.get_build_dir c1 = Configure.get_build_dir c2
   <-> t1 = t2 /\ platform_flags c1 = platform_flags c2)
  /\ Build.get_build_dir h1 (Configure.project_root c1) t1 = Configure.get_build_dir c1.
Proof.
  intros Hroot Hh1 Hh2 Hb1 Hb2 Ht1 Ht2.
  assert (G1 : Configure.get_build_dir c1 =
               Configure.project_root c1 // "build" // lower t1 // Build.get_platform_name h1).
  { unfold Configure.get_build_dir. rewrite Hb1, (choice_truthy t1 Ht1).
    simpl. now rewrite (host_flags_name h1 c1 Hh1). }
  assert (G2 : Configure.get_build_dir c2 =
               Configure.project_root c2 // "build" // lower t2 // Build.get_platform_name h2).
  { unfold Configure.get_build_dir. rewrite Hb2, (choice_truthy t2 Ht2).
    simpl. now rewrite (host_flags_name h2 c2 Hh2). }
  split; [|now rewrite G1].
  rewrite G1, G2. split.
  - intros E. apply div_inj in E as [E Ep]. apply div_inj in E as [_ Et].
    split; [now apply lower_choice_inj|].
    rewrite Hh1, Hh2. now apply host_name_flags.
  - intros [-> Ef]. rewrite Hroot.
    rewrite <- (host_flags_name h1 c1 Hh1), <- (host_flags_name h2 c2 Hh2).
    unfold Configure.get_platform_name. unfold platform_flags in Ef.
    injection Ef as -> -> ->. reflexivity.
Qed.

End Workspace.

Lemma workspace_key_unique_witness :
  (Configure.get_build_dir Sample.debug_plain = Configure.get_build_dir Sample.debug_full
   <-> "Debug" = "Debug"
       /\ platform_flags Sample.debug_plain = platform_flags Sample.debug_full)
  /\ Build.get_build_dir Sample.host (Configure.project_root Sample.debug_plain) "Debug"
     = Configure.get_build_dir Sample.debug_plain.
Proof.
  apply (workspace_key_unique Sample.host Sample.host Sample.debug_plain Sample.debug_full
           "Debug" "Debug");
    first [ reflexivity | simpl; tauto ].
Defined.

Section EnvironmentMerge.

Variable enc : string -> string.

Lemma merge_line_lookup (d : gmap string string) (line k : string) :
  merge_line enc d line !! k =
  match partition "=" line with
  | Some (key, value) => if bool_decide (enc key = k) then Some value else d !! k
  | None => d !! k
  end.
Proof.
  unfold merge_line. destruct (partition "=" line) as [[key value]|]; [|reflexivity].
  destruct (bool_decide_reflect (enc key = k)) as [->|Hne].
  - apply lookup_insert_eq.
  - now apply lookup_insert_ne.
Qed.

Lemma fold_merge_lookup (lines : list string) (d : gmap string string) (k : string) :
  List.fold_left (merge_line enc) lines d !! k =
  match last_value enc k lines with
  | Some v => Some v
  | None => d !! k
  end.
Proof.
  revert d. induction lines as [|line rest IH]; intros d; simpl; [reflexivity|].
  rewrite IH. destruct (last_value enc k rest); [reflexivity|].
  rewrite merge_line_lookup.
  destruct (partition "=" line) as [[key value]|]; [|reflexivity].
  now destruct (bool_decide (enc key = k)).
Qed.





End EnvironmentMerge.



Section CachedCompiler.

Lemma compiler_of_cache_host (h h' : Host) (cxx : string) :
  system h = system h' -> Configure.compiler_of_cache h cxx = Configure.compiler_of_cache h' cxx.
Proof. intros E. unfold Configure.compiler_of_cache, windows. now rewrite E. Qed.

(** With no compiler set, [setup_compiler] takes the compiler from the
    CMAKE_CXX_COMPILER entry of the workspace's CMakeCache.txt whenever
    [compiler_of_cache] recognises the entry: the process state is
    untouched (nothing is looked up, nothing is started, nothing is asked),
    and so the answer is the same on every host of that platform, whatever
    is installed there. Detection, or the interactive choice, runs exactly
    when the entry is missing or not recognised. *)
Theorem cache_wins (h : Host) (c : Configure.BuildConfig) (w : World) :
  truthy (Configure.compiler c) = false ->
  match Configure.read_cmake_cache_in (fs w) (Configure.get_build_dir c)
          !! "CMAKE_CXX_COMPILER" with
  | Some cxx =>
      match Configure.compiler_of_cache h cxx with
      | Some (comp, drv) =>
          forall h', system h' = system h ->
            Configure.setup_compiler h' c w
            = (Ret (true, Configure.use_compiler comp drv c), w)
      | None =>
          Configure.setup_compiler h c w
          = (if Configure.interactive c then Configure.select_compiler_interactive h c
             else Configure.autodetect_compiler h c) w
      end
  | None =>
      Configure.setup_compiler h c w
      = (if Configure.interactive c then Configure.select_compiler_interactive h c
         else Configure.autodetect_compiler h c) w
  end.
Proof.
  intros Hc. unfold Configure.setup_compiler. rewrite Hc.
  unfold bind, Configure.read_cmake_cache.
  destruct (Configure.read_cmake_cache_in (fs w) (Configure.get_build_dir c)
              !! "CMAKE_CXX_COMPILER") as [cxx|] eqn:E.
  - destruct (Configure.compiler_of_cache h cxx) as [[comp drv]|] eqn:Ec.
    + intros h' Hh'.
      rewrite (compiler_of_cache_host h' h cxx Hh'), Ec, E. reflexivity.
    + rewrite lookup_empty. reflexivity.
  - rewrite E. reflexivity.
Qed.

(** C10. A workspace configured with /usr/bin/clang++ is reconfigured with
    gcc and g++: [setup_compiler] looks for the text g++ in the cached
    path before it looks for clang++, and g++ is the end of clang++. The
    choice is made without looking at the host, here one that has Clang
    only. *)
Theorem cached_clang_adopted_as_gcc :
  Configure.read_cmake_cache_in Sample.configured
    (Configure.get_build_dir Sample.release_unset) !! "CMAKE_CXX_COMPILER"
  = Some "/usr/bin/clang++"
  /\ Configure.setup_compiler (Sample.linux ["cmake"; "clang"; "clang++"] Sample.all_fine)
       Sample.release_unset (Sample.world Sample.configured [])
     = (Ret (true, Configure.use_compiler "gcc" "g++" Sample.release_unset),
        Sample.world Sample.configured []).
Proof. split; reflexivity. Qed.

End CachedCompiler.

Section Interrupts.

(** At the first prompt of a round, the workspace selector turns an
    interrupt or the end of the input into its "no selection" answer. *)
Lemma select_loop_cancel (dirs : list Path) :
  Build.select_loop dirs [] = (Ret None, [])
  /\ forall rest, Build.select_loop dirs (Interrupt :: rest) = (Ret None, rest).
Proof. split; reflexivity. Qed.

(** Every other answer of the selector carries a selection. *)
Lemma ask_yes_no_never_raises (default : bool) (w : World) :
  exists b w', Configure.ask_yes_no default w = (Ret b, w').
Proof.
  unfold Configure.ask_yes_no.
  destruct (Configure.ask_yes_no_on default (stdin w)) as [b r]. eauto.
Qed.

(** C3. Not every prompt guards its wait for input. With one configured
    workspace, answering 3 (Reconfigure existing) and then closing the
    input, or pressing Ctrl-C, at the prompt that follows makes
    [select_build_dir_interactive] raise, while the same events at the first
    prompt give the "no selection" answer. In configure.py the menu of
    [select_compiler_interactive] raises likewise, and [ask_yes_no] answers
    an interrupt with [False], the answer it gives to "n". *)
Theorem reconfigure_prompt_interrupt_escapes :
  Build.select_build_dir_interactive Sample.repo (Sample.world Sample.configured [Line "3"])
  = (Exc EOFError, Sample.world Sample.configured [])
  /\ Build.select_build_dir_interactive Sample.repo
       (Sample.world Sample.configured [Line "3"; Interrupt])
     = (Exc KeyboardInterrupt, Sample.world Sample.configured [])
  /\ Build.select_build_dir_interactive Sample.repo (Sample.world Sample.configured [])
     = (Ret None, Sample.world Sample.configured [])
  /\ Build.select_build_dir_interactive Sample.repo
       (Sample.world Sample.configured [Interrupt])
     = (Ret None, Sample.world Sample.configured [])
  /\ fst (Configure.select_compiler_interactive Sample.host Sample.release_unset
            (Sample.world Sample.checkout []))
     = Exc EOFError
  /\ fst (Configure.ask_yes_no true (Sample.world Sample.checkout [Interrupt]))
     = fst (Configure.ask_yes_no true (Sample.world Sample.checkout [Line "n"])).
Proof. repeat split; reflexivity. Qed.

End Interrupts.

Section MonadFacts.

Lemma bind_inv {A B} (m : M A) (k : A -> M B) (w w' : World) (r : outcome B) :
  bind m k w = (r, w') ->
  (exists a w1, m w = (Ret a, w1) /\ k a w1 = (r, w'))
  \/ (exists e, m w = (Exc e, w') /\ r = Exc e).
Proof.
  unfold bind. destruct (m w) as [[a|e] w1]; intros H.
  - left. eauto.
  - right. injection H as <- <-. eauto.
Qed.

Lemma bind_ret_inv {A B} (m : M A) (k : A -> M B) (w w' : World) (b : B) :
  bind m k w = (Ret b, w') ->
  exists a w1, m w = (Ret a, w1) /\ k a w1 = (Ret b, w').
Proof.
  intros H. apply bind_inv in H as [H|(e & _ & H)]; [exact H|discriminate].
Qed.

End MonadFacts.

(** One step through a computation known to return: a [bind] is split, a
    test is decided. *)
Ltac step H :=
  lazymatch type of H with
  | bind _ _ _ = (Ret _, _) =>
      let a := fresh "a" in let w := fresh "w" in let E := fresh "E" in
      apply bind_ret_inv in H as (a & w & E & H)
  | (if ?b then _ else _) _ = _ => let E := fresh "E" in destruct b eqn:E
  | (match ?x with _ => _ end) _ = _ => let E := fresh "E" in destruct x eqn:E
  | (let (_, _) := ?x in _) _ = _ => destruct x
  | ret _ _ = (Ret _, _) => unfold ret in H; injection H; clear H; intros; subst
  | (Ret _, _) = (Ret _, _) => injection H; clear H; intros; subst
  end.

(** *** Frames: what a computation leaves related

    [respects R m]: whatever [m] does and however it ends, the state it
    ends in is [R]-related to the state it started in. *)
Definition respects (R : relation World) {A} (m : M A) : Prop :=
  forall w r w', m w = (r, w') -> R w w'.

Section Respects.

Context (R : relation World) `{!PreOrder R}.

Lemma respects_ret {A} (a : A) : respects R (ret a).
Proof. intros w r w' H. injection H as _ <-. reflexivity. Qed.

Lemma respects_raise {A} (e : exn) : respects R (@raise A e).
Proof. intros w r w' H. injection H as _ <-. reflexivity. Qed.

Lemma respects_bind {A B} (m : M A) (k : A -> M B) :
  respects R m -> (forall a, respects R (k a)) -> respects R (bind m k).
Proof.
  intros Hm Hk w r w' H. apply bind_inv in H as [(a & w1 & E1 & E2)|(e & E & _)].
  - transitivity w1; [exact (Hm _ _ _ E1)|exact (Hk a _ _ _ E2)].
  - exact (Hm _ _ _ E).
Qed.

Lemma respects_get : respects R get.
Proof. intros w r w' H. injection H as _ <-. reflexivity. Qed.

Lemma respects_path_exists (p : Path) : respects R (path_exists p).
Proof. intros w r w' H. injection H as _ <-. reflexivity. Qed.

Lemma respects_check_command (h : Host) (cmd : string) : respects R (check_command h cmd).
Proof. intros w r w' H. injection H as _ <-. reflexivity. Qed.

Lemma respects_environ_get (h : Host) (k : string) : respects R (environ_get h k).
Proof. intros w r w' H. injection H as _ <-. reflexivity. Qed.

Lemma respects_read_cmake_cache (d : Path) : respects R (Configure.read_cmake_cache d).
Proof. intros w r w' H. injection H as _ <-. reflexivity. Qed.

Lemma respects_find_configured_build_dir (d : Path) :
  respects R (Build.find_configured_build_dir d).
Proof. intros w r w' H. injection H as _ <-. reflexivity. Qed.

Lemma respects_any_M {A} (f : A -> M bool) (l : list A) :
  (forall x, respects R (f x)) -> respects R (any_M f l).
Proof.
  intros Hf. induction l as [|x l IH]; simpl.
  - apply respects_ret.
  - apply respects_bind; [apply Hf|]. intros [|]; [apply respects_ret|exact IH].
Qed.

End Respects.

(** One syntactic step of a frame proof; [tac] settles the operations that
    change the state. *)
Ltac respects_step tac :=
  lazymatch goal with
  | |- PreOrder _ => exact _
  | |- respects _ (bind _ _) => apply respects_bind; [exact _| |intros ?]
  | |- respects _ (ret _) => apply respects_ret; exact _
  | |- respects _ (raise _) => apply respects_raise; exact _
  | |- respects _ get => apply respects_get; exact _
  | |- respects _ (path_exists _) => apply respects_path_exists; exact _
  | |- respects _ (check_command _ _) => apply respects_check_command; exact _
  | |- respects _ (environ_get _ _) => apply respects_environ_get; exact _
  | |- respects _ (Configure.read_cmake_cache _) => apply respects_read_cmake_cache; exact _
  | |- respects _ (Build.find_configured_build_dir _) =>
      apply respects_find_configured_build_dir; exact _
  | |- respects _ (any_M _ _) => apply respects_any_M; [exact _|intros ?]
  | |- respects _ (if ?b then _ else _) => destruct b
  | |- respects _ (match ?x with _ => _ end) => destruct x
  | |- respects _ (let (_, _) := ?x in _) => destruct x
  | |- _ => first [ tac | progress cbv zeta ]
  end.
Ltac respects_go tac := repeat (respects_step tac).

(** The process environment stays as it is. *)
Definition same_environ : relation World := fun w w' => environ w' = environ w.

Global Instance same_environ_preorder : PreOrder same_environ.
Proof. split; unfold same_environ; [intros w; reflexivity|intros a b c; congruence]. Qed.

Lemma spawn_same_environ (h : Host) (j : role) (cmd : Cmd) (env : option (gmap string string)) :
  respects same_environ (spawn h j cmd env).
Proof. intros w r w' H. injection H as _ <-. reflexivity. Qed.

Section Bootstrap.

Lemma msvc_tool_visible_pure (h : Host) (c : Configure.BuildConfig) (w : World) :
  exists b, Configure.msvc_tool_visible h c w = (Ret b, w).
Proof.
  unfold Configure.msvc_tool_visible, bind, check_command, ret.
  destruct (opt_is (Configure.compiler c) "clang-cl"); [|eauto].
  destruct (which h (environ w) (fs w) "mt"); eauto.
Qed.

Lemma msvc_tool_visible_inv (h : Host) (c : Configure.BuildConfig) (w w' : World) (b : bool) :
  Configure.msvc_tool_visible h c w = (Ret b, w') ->
  Configure.msvc_tool_visible h c w' = (Ret b, w').
Proof.
  intros H. destruct (msvc_tool_visible_pure h c w) as [b' E]. congruence.
Qed.

(** A successful bootstrap ends in a state in which the tool it is for is
    found. *)
Lemma bootstrap_leaves_tool_visible (h : Host) (c : Configure.BuildConfig) (w w1 : World) :
  Configure.setup_msvc_environment h c w = (Ret true, w1) ->
  bootstrap_applies c = true ->
  Configure.msvc_tool_visible h c w1 = (Ret true, w1).
Proof.
  unfold bootstrap_applies, Configure.setup_msvc_environment.
  intros H Happ.
  apply andb_prop in Happ as [Happ Hc]. apply andb_prop in Happ as [Hw Hn].
  apply negb_true_iff in Hn.
  rewrite Hw, Hn, Hc in H. cbn [negb] in H.
  step H. step H.
  { step H. now apply msvc_tool_visible_inv in E. }
  repeat (step H; try discriminate).
  all: now apply msvc_tool_visible_inv in H.
Qed.

(** Once the tool is found, the bootstrap returns at once. *)
Lemma bootstrap_fast_path (h : Host) (c : Configure.BuildConfig) (w : World) :
  Configure.msvc_tool_visible h c w = (Ret true, w) ->
  Configure.setup_msvc_environment h c w = (Ret true, w).
Proof.
  intros H. unfold Configure.setup_msvc_environment.
  destruct (negb (Configure.is_windows c)); [reflexivity|].
  destruct (truthy (Configure.build_system c) && _)%bool; [reflexivity|].
  destruct (negb (opt_among _ _)); [reflexivity|].
  unfold bind at 1. rewrite H. reflexivity.
Qed.

Lemma bootstrap_not_applicable (h : Host) (c : Configure.BuildConfig) (w : World) :
  bootstrap_applies c = false ->
  Configure.setup_msvc_environment h c w = (Ret true, w).
Proof.
  unfold bootstrap_applies, Configure.setup_msvc_environment. intros H.
  destruct (Configure.is_windows c); [|reflexivity]. cbn [negb andb] in *.
  destruct (truthy (Configure.build_system c) && _)%bool; [reflexivity|].
  cbn [negb andb] in *.
  rewrite H. reflexivity.
Qed.

(** The bootstrap of build.py works on a copy: the process environment, the
    files and the pending input are as before. *)
Lemma build_bootstrap_keeps_environ (h : Host) :
  respects same_environ (Build.setup_msvc_environment h).
Proof.
  unfold Build.setup_msvc_environment.
  respects_go ltac:(apply spawn_same_environ).
Qed.

(** C7. Bootstrap twice. For [CompilerDetector.setup_msvc_environment] of
    configure.py: after a call that succeeded, the tool the bootstrap is for
    (mt for clang-cl, cl otherwise) is found in the process environment
    wherever the bootstrap is called for, and a second call succeeds and
    leaves the whole process state as it is, the list of started
    subprocesses included. [setup_msvc_environment] of build.py merges into
    a copy and never changes the process environment. *)
Theorem bootstrap_twice (h : Host) (c : Configure.BuildConfig) (w w1 : World) :
  Configure.setup_msvc_environment h c w = (Ret true, w1) ->
  Configure.setup_msvc_environment h c w1 = (Ret true, w1)
  /\ (bootstrap_applies c = true -> Configure.msvc_tool_visible h c w1 = (Ret true, w1))
  /\ forall w2 w3 r, Build.setup_msvc_environment h w2 = (r, w3) -> environ w3 = environ w2.
Proof.
  intros H. split; [|split].
  - destruct (bootstrap_applies c) eqn:Ha.
    + apply bootstrap_fast_path. now apply (bootstrap_leaves_tool_visible h c w).
    + now apply bootstrap_not_applicable.
  - now apply (bootstrap_leaves_tool_visible h c w).
  - intros w2 w3 r H2. exact (build_bootstrap_keeps_environ h w2 r w3 H2).
Qed.

Lemma bootstrap_twice_witness :
  Configure.setup_msvc_environment Sample.winhost Sample.msvc_ninja
    (snd (Configure.setup_msvc_environment Sample.winhost Sample.msvc_ninja
            Sample.windows_world))
  = (Ret true,
     snd (Configure.setup_msvc_environment Sample.winhost Sample.msvc_ninja
            Sample.windows_world))
  /\ List.length
       (spawned (snd (Configure.setup_msvc_environment Sample.winhost Sample.msvc_ninja
                        Sample.windows_world))) = 1%nat.
Proof.
  split; [|reflexivity].
  apply (bootstrap_twice Sample.winhost Sample.msvc_ninja Sample.windows_world).
  reflexivity.
Defined.

(** On a Windows machine where cl is not on PATH, the bootstrap of build.py
    succeeds (the environment it returns has INCLUDE), cl is still not
    found in the process environment, and a second call runs the vendor
    script a second time. *)
Lemma build_bootstrap_runs_again :
  let first := Build.setup_msvc_environment Sample.winhost Sample.windows_world in
  let second := Build.setup_msvc_environment Sample.winhost (snd first) in
  (exists env, fst first = Ret env /\ env !! "INCLUDE" = Some "C:\VC\include")
  /\ List.map (fun e => fst (fst e)) (spawned (snd first)) = [VendorScript]
  /\ fst (check_command Sample.winhost "cl" (snd first)) = Ret false
  /\ List.map (fun e => fst (fst e)) (spawned (snd second)) = [VendorScript; VendorScript].
Proof.
  vm_compute. split; [|repeat split; reflexivity].
  eexists. split; [reflexivity|]. reflexivity.
Qed.

End Bootstrap.

(** Starting a subprocess adds one entry to the log. *)
Lemma spawn_inv (h : Host) (j : role) (cmd : Cmd) (env : option (gmap string string))
  (w w' : World) (r : ProcResult) :
  spawn h j cmd env w = (Ret r, w') ->
  spawned w' = spawned w ++ [(j, cmd, returncode r)]
  /\ environ w' = environ w /\ stdin w' = stdin w /\ fs w' = fs_after r.
Proof. unfold spawn. intros H. injection H as <- <-. simpl. auto. Qed.

(** Inversion of the primitive operations in a hypothesis. *)
Ltac prim E :=
  lazymatch type of E with
  | path_exists _ _ = _ => unfold path_exists in E; injection E; clear E; intros; subst
  | get _ = _ => unfold get in E; injection E; clear E; intros; subst
  | check_command _ _ _ = _ => unfold check_command in E; injection E; clear E; intros; subst
  | environ_get _ _ _ = _ => unfold environ_get in E; injection E; clear E; intros; subst
  | Build.find_configured_build_dir _ _ = _ =>
      unfold Build.find_configured_build_dir in E; injection E; clear E; intros; subst
  | Configure.read_cmake_cache _ _ = _ =>
      unfold Configure.read_cmake_cache in E; injection E; clear E; intros; subst
  | spawn _ _ _ _ _ = _ =>
      let Hs := fresh "Hlog" in
      apply spawn_inv in E as (Hs & ? & ? & ?)
  | do_mkdir _ _ = _ => unfold do_mkdir, modify in E; injection E; clear E; intros; subst
  | do_rmtree _ _ = _ => unfold do_rmtree, modify in E; injection E; clear E; intros; subst
  | environ_set _ _ _ _ = _ =>
      unfold environ_set, modify in E; injection E; clear E; intros; subst
  | Configure.import_environment _ _ _ = _ =>
      unfold Configure.import_environment, modify in E; injection E; clear E; intros; subst
  | _ => idtac
  end.

(** The log of the final state, written out from the entries added on the
    way. *)
Ltac log_chain :=
  cbn [spawned with_fs with_environ with_stdin] in *;
  repeat match goal with
         | H : spawned ?w = _ |- context [spawned ?w] => rewrite H; clear H
         end;
  repeat rewrite <- app_assoc.

Ltac forall_split :=
  repeat match goal with
         | |- Forall _ (_ ++ _) => apply Forall_app_2
         | |- Forall _ (_ :: _) => constructor
         | |- Forall _ [] => constructor
         end.

Ltac grows_by_chain :=
  unfold grows; log_chain; eexists; split; [reflexivity|]; forall_split.

(** All the steps through the computations known to return. *)
Ltac step_hyp H :=
  lazymatch type of H with
  | bind _ _ _ = (Ret _, _) =>
      let a := fresh "a" in let w := fresh "w" in let E := fresh "E" in
      apply bind_ret_inv in H as (a & w & E & H); prim E
  | (if ?b then _ else _) _ = (Ret _, _) => let E := fresh "E" in destruct b eqn:E
  | (match ?x with _ => _ end) _ = (Ret _, _) => let E := fresh "E" in destruct x eqn:E
  | (let (_, _) := ?x in _) _ = (Ret _, _) => destruct x
  | ret _ _ = (Ret _, _) => unfold ret in H; injection H; clear H; intros; subst
  | raise _ _ = (Ret _, _) => discriminate H
  | _ => progress (prim H)
  end.
Ltac steps :=
  repeat (match goal with H : _ = (Ret _, _) |- _ => step_hyp H end; try discriminate).

Section Logs.

Global Instance grows_preorder (P : role * Cmd * Z -> Prop) : PreOrder (grows P).
Proof.
  split.
  - intros w. exists []. split; [now rewrite app_nil_r|constructor].
  - intros a b c (l1 & E1 & F1) (l2 & E2 & F2). exists (l1 ++ l2). split.
    + now rewrite E2, E1, app_assoc.
    + apply Forall_app. now split.
Qed.

Lemma grows_weaken (P Q : role * Cmd * Z -> Prop) (w w' : World) :
  (forall e, P e -> Q e) -> grows P w w' -> grows Q w w'.
Proof.
  intros HPQ (l & E & F). exists l. split; [exact E|].
  eapply Forall_impl; [exact F|exact HPQ].
Qed.

Lemma grows_same_log (P : role * Cmd * Z -> Prop) (w w' : World) :
  spawned w' = spawned w -> grows P w w'.
Proof. intros E. exists []. split; [now rewrite app_nil_r|constructor]. Qed.

Lemma grows_in (P : role * Cmd * Z -> Prop) (w w' : World) (e : role * Cmd * Z) :
  grows P w w' -> In e (spawned w) -> In e (spawned w').
Proof. intros (l & -> & _) H. apply in_or_app. now left. Qed.

Lemma grows_from_empty (P : role * Cmd * Z -> Prop) (w w' : World) :
  spawned w = [] -> grows P w w' -> Forall P (spawned w').
Proof. intros E (l & -> & F). now rewrite E. Qed.

Lemma spawn_grows (P : role * Cmd * Z -> Prop) (h : Host) (j : role) (cmd : Cmd)
  (env : option (gmap string string)) :
  (forall rc, P (j, cmd, rc)) -> respects (grows P) (spawn h j cmd env).
Proof.
  intros HP w r w' H. unfold spawn in H. injection H as _ <-. simpl.
  eexists. split; [reflexivity|]. constructor; [apply HP|constructor].
Qed.

Lemma build_bootstrap_log (h : Host) :
  respects (grows (fun e => env_job (job_of e))) (Build.setup_msvc_environment h).
Proof.
  unfold Build.setup_msvc_environment.
  respects_go ltac:(apply spawn_grows; intros; unfold env_job, job_of; cbn [fst]; tauto).
Qed.

Lemma select_build_dir_same_log (root : Path) (w w' : World)
  (r : outcome (option Build.Selection)) :
  Build.select_build_dir_interactive root w = (r, w') ->
  spawned w' = spawned w /\ fs w' = fs w /\ environ w' = environ w.
Proof.
  unfold Build.select_build_dir_interactive.
  destruct (Build.find_all_configured_build_dirs_in (fs w) root).
  - intros H. injection H as _ <-. auto.
  - destruct (Build.select_loop _ _). intros H. injection H as _ <-. auto.
Qed.

Lemma choose_build_dir_same_log (h : Host) (args : Build.Args) (root : Path) (w w' : World)
  (r : outcome (option (Build.Args * option Path * bool * string))) :
  Build.choose_build_dir h args root w = (r, w') -> spawned w' = spawned w.
Proof.
  unfold Build.choose_build_dir. intros H.
  destruct (negb (Build.has_config_args args) && _ && _)%bool.
  - apply bind_inv in H as [(a & w1 & E1 & E2)|(e & E & _)].
    + apply select_build_dir_same_log in E1 as (E1 & _).
      destruct a as [[[d n] t]|]; [destruct (truthy t)|];
        unfold ret in E2; injection E2 as _ <-; exact E1.
    + now apply select_build_dir_same_log in E as (E & _).
  - cbv zeta in H. unfold bind, Build.find_configured_build_dir, ret in H.
    injection H as _ <-. reflexivity.
Qed.

(** The formatting step adds at most the entry of format.py, and tells
    whether it succeeded. *)
Lemma format_step_log (h : Host) (args : Build.Args) (w w' : World) (b : bool) :
  Build.format_step h args w = (Ret b, w') ->
  grows (fun e => job_of e = FormatPy /\ (b = true -> rc_of e = 0)) w w'.
Proof.
  unfold Build.format_step. intros H. steps; try reflexivity.
  grows_by_chain. split; [reflexivity|].
  unfold rc_of. cbn [snd]. intros Hb. now apply Z.eqb_eq.
Qed.

(** Configuring adds at most the entry of configure.py, and gives a build
    directory only if configure.py succeeded. *)
Lemma configure_step_log (h : Host) (args : Build.Args) (sd root : Path)
  (existing : option Path) (w w' : World) (r : option Path) :
  Build.configure_step h args sd root existing w = (Ret r, w') ->
  grows (fun e => job_of e = ConfigurePy /\ (r <> None -> rc_of e = 0)) w w'.
Proof.
  unfold Build.configure_step, Build.run_configure. intros H. steps; try reflexivity.
  all: grows_by_chain; (split; [reflexivity|]); unfold rc_of; cbn [snd]; intros Hr.
  all: try (now apply Z.eqb_eq).
  all: congruence.
Qed.

(** What the build adds to the log: entries of environment jobs, then the
    entry of cmake, whose return code decides the answer. *)
Definition build_entry (b : bool) (e : role * Cmd * Z) : Prop :=
  env_job (job_of e) \/ (job_of e = CMakeBuild /\ (rc_of e = 0 <-> b = true)).

Lemma build_project_log (h : Host) (dir : Path) (bt : string) (jobs : Z) (w w' : World)
  (b : bool) :
  Build.build_project h dir bt jobs w = (Ret b, w') ->
  grows (build_entry b) w w'
  /\ (b = true -> exists cmd, In (CMakeBuild, cmd, 0) (spawned w')).
Proof.
  unfold Build.build_project. intros H. steps.
  all: try (split; [reflexivity|discriminate]).
  all: repeat match goal with
         | H : Build.setup_msvc_environment _ _ = _ |- _ =>
             apply build_bootstrap_log in H as (? & ? & ?)
         end.
  all: split;
    [ grows_by_chain
    | intros Hb; apply Z.eqb_eq in Hb; eexists; log_chain;
      repeat rewrite in_app_iff; rewrite Hb; cbn [In]; auto 10 ].
  all: try (right; split; [reflexivity|]; unfold rc_of; cbn [snd]; symmetry; apply Z.eqb_eq).
  all: try (left; unfold env_job, job_of; cbn [fst]; tauto).
  all: try (eapply Forall_impl; [eassumption|]; intros e He; left; exact He).
Qed.

Lemma build_entry_ok (b : bool) (code : Z) (e : role * Cmd * Z) :
  (b = true <-> code = 0) -> build_entry b e -> entry_ok code e.
Proof.
  intros Hb [He|[Hj Hr]]; unfold entry_ok.
  - destruct He as [-> | [-> | ->]]; exact I.
  - rewrite Hj. rewrite Hr. symmetry. exact Hb.
Qed.

Lemma format_entry_ok (b : bool) (code : Z) (e : role * Cmd * Z) :
  (code = 0 -> b = true) -> job_of e = FormatPy /\ (b = true -> rc_of e = 0) -> entry_ok code e.
Proof. intros Hb [Hj Hr]. unfold entry_ok. rewrite Hj. auto. Qed.

Lemma configure_entry_ok (r : option Path) (code : Z) (e : role * Cmd * Z) :
  (code = 0 -> r <> None) -> job_of e = ConfigurePy /\ (r <> None -> rc_of e = 0) ->
  entry_ok code e.
Proof. intros Hb [Hj Hr]. unfold entry_ok. rewrite Hj. auto. Qed.

(** The build and the lint step: the exit code is 0 exactly if cmake
    succeeded, whatever lint returns. *)
Lemma build_and_lint_log (h : Host) (args : Build.Args) (sd dir : Path) (bt : string)
  (w w' : World) (code : Z) :
  Build.build_and_lint h args sd dir bt w = (Ret code, w') ->
  grows (entry_ok code) w w'
  /\ (code = 0 \/ code = 1)
  /\ (code = 0 -> exists cmd, In (CMakeBuild, cmd, 0) (spawned w')).
Proof.
  unfold Build.build_and_lint. intros H. cbv zeta in H. steps.
  all: match goal with
       | E : Build.build_project _ _ _ _ _ = (Ret ?b, _) |- _ =>
           apply build_project_log in E as ((l & El & Fl) & Hin)
       end.
  all: match goal with
       | H : negb ?b = _ |- _ => destruct b; try discriminate H
       end.
  all: split; [|split; [auto|]]; try discriminate.
  all: try (intros _; destruct (Hin eq_refl) as [cmd Hc]; exists cmd;
            rewrite El in Hc; rewrite in_app_iff in Hc; log_chain;
            repeat rewrite in_app_iff; cbn [In]; tauto).
  all: unfold grows; log_chain; eexists; (split; [reflexivity|]); forall_split.
  all: try (eapply Forall_impl; [exact Fl|]; intros e He; eapply build_entry_ok; [|exact He];
            split; intros; congruence).
  all: reflexivity.
Qed.

(** The log of a run of build.py and its exit code. *)
Lemma main_log (h : Host) (args : Build.Args) (w w' : World) (code : Z) :
  Build.main h args w = (Ret code, w') ->
  grows (entry_ok code) w w'
  /\ (code = 0 \/ code = 1)
  /\ (code = 0 ->
      cancelled_at_selection h args w w'
      \/ exists cmd, In (CMakeBuild, cmd, 0) (spawned w')).
Proof.
  unfold Build.main. intros H. cbv zeta in H. steps.
  all: try match goal with
       | E : Build.build_and_lint _ _ _ _ _ _ = (Ret _, _) |- _ =>
           apply build_and_lint_log in E as ((lb & Elb & Flb) & Hcode & Hin)
       end.
  all: try match goal with
       | E : Build.configure_step _ _ _ _ _ _ = (Ret _, _) |- _ =>
           apply configure_step_log in E as (lc & Elc & Flc)
       end.
  all: match goal with
       | E : Build.format_step _ _ _ = (Ret ?b, _) |- _ =>
           pose proof (format_step_log _ _ _ _ _ E) as (lf & Elf & Flf);
           destruct b; try discriminate
       end.
  all: match goal with
       | E : Build.choose_build_dir _ _ _ _ = _ |- _ =>
           pose proof (choose_build_dir_same_log _ _ _ _ _ _ E) as Ech
       | |- _ => idtac
       end.
  all: split; [|split].
  all: try (right; reflexivity).
  all: try (left; reflexivity).
  all: try assumption.
  all: try discriminate.
  all: try (intros Hc; right; exact (Hin Hc)).
  all: try (intros _; left; eexists; split; eassumption).
  all: unfold grows; log_chain; eexists;
       (split; [first [reflexivity | symmetry; apply app_nil_r]|]); forall_split.
  all: try (eapply Forall_impl; [exact Flf|]; intros e He; eapply format_entry_ok; [|exact He];
            intros; congruence).
  all: try (eapply Forall_impl; [exact Flc|]; intros e He; eapply configure_entry_ok;
            [|exact He]; intros; congruence).
  all: try exact Flb.
Qed.

End Logs.

(** C4. The exit code of build.py, for a run that ends by returning from
    [main]: it is 0 or 1; it is 0 exactly when the user left at the
    workspace selection or cmake's build returned 0; in a run that exits
    with 0, format.py, configure.py and cmake all returned 0, and a failed
    build gives 1; lint.py runs only in a run that exits with 0, whatever
    lint.py itself returns. *)
Theorem build_exit_code (h : Host) (args : Build.Args) (w w' : World) (code : Z) :
  spawned w = [] ->
  Build.main h args w = (Ret code, w') ->
  (code = 0 \/ code = 1)
  /\ (code = 0 <->
      cancelled_at_selection h args w w'
      \/ exists cmd, In (CMakeBuild, cmd, 0) (spawned w'))
  /\ (code = 0 ->
      forall e, In e (spawned w') ->
        job_of e = FormatPy \/ job_of e = ConfigurePy \/ job_of e = CMakeBuild ->
        rc_of e = 0)
  /\ (forall e, In e (spawned w') -> job_of e = CMakeBuild -> rc_of e <> 0 -> code = 1)
  /\ (forall cmd rc, In (LintPy, cmd, rc) (spawned w') -> code = 0).
Proof.
  intros Hw H. destruct (main_log h args w w' code H) as (Hg & Hcode & Hzero).
  pose proof (grows_from_empty _ _ _ Hw Hg) as Hall.
  rewrite List.Forall_forall in Hall.
  split; [exact Hcode|]. split; [|split; [|split]].
  - split; [exact Hzero|]. intros [(w1 & Ef & Ec)|(cmd & Hin)].
    + unfold Build.main in H. cbv zeta in H. unfold bind at 1 in H. rewrite Ef in H.
      cbn [negb] in H. unfold bind at 1 in H. rewrite Ec in H.
      unfold ret in H. injection H as <-. reflexivity.
    + apply Hall in Hin. unfold entry_ok in Hin. cbn in Hin. now apply Hin.
  - intros -> e Hin Hj. apply Hall in Hin. unfold entry_ok in Hin.
    destruct Hj as [Hj|[Hj|Hj]]; rewrite Hj in Hin; now apply Hin.
  - intros e Hin Hj Hrc. apply Hall in Hin. unfold entry_ok in Hin. rewrite Hj in Hin.
    destruct Hcode as [-> | ->]; [|reflexivity]. exfalso. apply Hrc. now apply Hin.
  - intros cmd rc Hin. apply Hall in Hin. exact Hin.
Qed.

Lemma build_exit_code_witness :
  (exists cmd, In (LintPy, cmd, 1)
                 (spawned (snd (Build.main (Sample.linux Sample.tools
                                              (Sample.only_fails "lint.py"))
                                  Sample.build_and_lint_args
                                  (Sample.world Sample.configured [])))))
  /\ (0 = 0 \/ 0 = 1).
Proof.
  split.
  - eexists. vm_compute. right. left. reflexivity.
  - apply (build_exit_code (Sample.linux Sample.tools (Sample.only_fails "lint.py"))
             Sample.build_and_lint_args (Sample.world Sample.configured [])
             (snd (Build.main (Sample.linux Sample.tools (Sample.only_fails "lint.py"))
                     Sample.build_and_lint_args (Sample.world Sample.configured [])))
             0); reflexivity.
Defined.

Section ConfigureFrames.

Lemma respects_weaken (R R' : relation World) {A} (m : M A) :
  (forall w w', R w w' -> R' w w') -> respects R m -> respects R' m.
Proof. intros HR Hm w r w' H. apply HR. exact (Hm w r w' H). Qed.

Global Instance probing_preorder (h : Host) : PreOrder (probing h).
Proof.
  split.
  - intros w. split; [reflexivity|auto].
  - intros a b c [G1 F1] [G2 F2]. split; [now transitivity b|].
    intros Hv. now rewrite (F2 Hv), (F1 Hv).
Qed.

(** A step that leaves the log and the files alone is a probing step. *)
Lemma probing_quiet (h : Host) (w w' : World) :
  spawned w' = spawned w -> fs w' = fs w -> probing h w w'.
Proof. intros Hs Hf. split; [now apply grows_same_log|auto]. Qed.

Lemma environ_set_probing (h : Host) (k v : string) : respects (probing h) (environ_set h k v).
Proof. intros w r w' H. injection H as _ <-. now apply probing_quiet. Qed.

Lemma input_probing (h : Host) : respects (probing h) input.
Proof.
  intros w r w' H. unfold input in H.
  destruct (stdin w) as [|[s|] rest]; injection H as _ <-; now apply probing_quiet.
Qed.

Lemma ask_yes_no_probing (h : Host) (default : bool) :
  respects (probing h) (Configure.ask_yes_no default).
Proof.
  intros w r w' H. unfold Configure.ask_yes_no in H.
  destruct (Configure.ask_yes_no_on default (stdin w)). injection H as _ <-.
  now apply probing_quiet.
Qed.

Lemma vswhere_probing (h : Host) (vswhere : string) :
  respects (probing h) (spawn h Vswhere (Argv (Configure.vswhere_args vswhere)) None).
Proof.
  intros w r w' H. unfold spawn in H. injection H as _ <-. split.
  - eexists. split; [reflexivity|]. constructor; [reflexivity|constructor].
  - intros Hv. apply Hv.
Qed.

End ConfigureFrames.

Create HintDb frames discriminated.
#[export] Hint Resolve environ_set_probing input_probing ask_yes_no_probing vswhere_probing
  : frames.

Ltac frame := respects_go ltac:(solve [eauto with frames]).

Section Probing.

Variable h : Host.

Lemma try_clang_cl_dir_probing (dir : Path) :
  respects (probing h) (Configure.try_clang_cl_dir h dir).
Proof. unfold Configure.try_clang_cl_dir. frame. Qed.
Hint Resolve try_clang_cl_dir_probing : frames.

Lemma setup_clang_cl_path_probing (c : Configure.BuildConfig) :
  respects (probing h) (Configure._setup_clang_cl_path h c).
Proof. unfold Configure._setup_clang_cl_path. frame. Qed.
Hint Resolve setup_clang_cl_path_probing : frames.

Lemma detect_msvc_probing (c : Configure.BuildConfig) :
  respects (probing h) (Configure.detect_msvc h c).
Proof. unfold Configure.detect_msvc. frame. Qed.
Hint Resolve detect_msvc_probing : frames.

Lemma detect_gcc_probing : respects (probing h) (Configure.detect_gcc h).
Proof. unfold Configure.detect_gcc. frame. Qed.
Hint Resolve detect_gcc_probing : frames.

Lemma have_clang_pair_probing : respects (probing h) (Configure.have_clang_pair h).
Proof. unfold Configure.have_clang_pair. frame. Qed.
Hint Resolve have_clang_pair_probing : frames.

Lemma detect_clang_probing (c : Configure.BuildConfig) :
  respects (probing h) (Configure.detect_clang h c).
Proof. unfold Configure.detect_clang. frame. Qed.
Hint Resolve detect_clang_probing : frames.

Lemma menu_choice_probing : respects (probing h) Configure.menu_choice.
Proof. unfold Configure.menu_choice. frame. Qed.
Hint Resolve menu_choice_probing : frames.

Lemma select_compiler_interactive_probing (c : Configure.BuildConfig) :
  respects (probing h) (Configure.select_compiler_interactive h c).
Proof. unfold Configure.select_compiler_interactive. frame. Qed.
Hint Resolve select_compiler_interactive_probing : frames.

Lemma validate_compiler_probing (c : Configure.BuildConfig) :
  respects (probing h) (Configure.validate_compiler h c).
Proof. unfold Configure.validate_compiler. frame. Qed.
Hint Resolve validate_compiler_probing : frames.

Lemma autodetect_compiler_probing (c : Configure.BuildConfig) :
  respects (probing h) (Configure.autodetect_compiler h c).
Proof. unfold Configure.autodetect_compiler. frame. Qed.
Hint Resolve autodetect_compiler_probing : frames.

Lemma setup_compiler_probing (c : Configure.BuildConfig) :
  respects (probing h) (Configure.setup_compiler h c).
Proof. unfold Configure.setup_compiler. frame. Qed.

Lemma detect_ninja_probing : respects (probing h) (Configure.detect_ninja h).
Proof. unfold Configure.detect_ninja. frame. Qed.
Hint Resolve detect_ninja_probing : frames.

Lemma detect_make_probing : respects (probing h) (Configure.detect_make h).
Proof. unfold Configure.detect_make. frame. Qed.
Hint Resolve detect_make_probing : frames.

Lemma detect_msbuild_probing (c : Configure.BuildConfig) :
  respects (probing h) (Configure.detect_msbuild h c).
Proof. unfold Configure.detect_msbuild. frame. Qed.
Hint Resolve detect_msbuild_probing : frames.

Lemma select_build_system_interactive_probing (c : Configure.BuildConfig) :
  respects (probing h) (Configure.select_build_system_interactive h c).
Proof. unfold Configure.select_build_system_interactive. frame. Qed.
Hint Resolve select_build_system_interactive_probing : frames.

Lemma setup_build_system_probing (c : Configure.BuildConfig) :
  respects (probing h) (Configure.setup_build_system h c).
Proof. unfold Configure.setup_build_system. frame. Qed.

Lemma select_modules_interactive_probing (c : Configure.BuildConfig) :
  respects (probing h) (Configure.select_modules_interactive c).
Proof. unfold Configure.select_modules_interactive. frame. Qed.

Lemma select_tests_and_examples_interactive_probing (c : Configure.BuildConfig) :
  respects (probing h) (Configure.select_tests_and_examples_interactive c).
Proof. unfold Configure.select_tests_and_examples_interactive. frame. Qed.

Lemma select_build_type_interactive_probing (c : Configure.BuildConfig) :
  respects (probing h) (Configure.select_build_type_interactive c).
Proof. unfold Configure.select_build_type_interactive. frame. Qed.

End Probing.

#[export] Hint Resolve try_clang_cl_dir_probing setup_clang_cl_path_probing detect_msvc_probing
  detect_gcc_probing have_clang_pair_probing detect_clang_probing menu_choice_probing
  select_compiler_interactive_probing validate_compiler_probing autodetect_compiler_probing
  setup_compiler_probing detect_ninja_probing detect_make_probing detect_msbuild_probing
  select_build_system_interactive_probing setup_build_system_probing
  select_modules_interactive_probing select_tests_and_examples_interactive_probing
  select_build_type_interactive_probing : frames.

Section Preparing.

Variable h : Host.

Global Instance preparing_preorder : PreOrder preparing.
Proof. unfold preparing. apply _. Qed.

Lemma probing_preparing (w w' : World) : probing h w w' -> preparing w w'.
Proof.
  intros [G _]. eapply grows_weaken; [|exact G].
  intros e He. unfold aux_job. auto.
Qed.

Lemma preparing_quiet (w w' : World) : spawned w' = spawned w -> preparing w w'.
Proof. apply grows_same_log. Qed.

Lemma spawn_preparing (j : role) (cmd : Cmd) (env : option (gmap string string)) :
  aux_job j -> respects preparing (spawn h j cmd env).
Proof. intros Hj. apply spawn_grows. intros rc. exact Hj. Qed.

Lemma ask_yes_no_preparing (default : bool) : respects preparing (Configure.ask_yes_no default).
Proof.
  eapply respects_weaken; [apply probing_preparing|apply ask_yes_no_probing].
Qed.

Lemma import_environment_preparing (out : string) :
  respects preparing (Configure.import_environment h out).
Proof. intros w r w' H. injection H as _ <-. now apply preparing_quiet. Qed.

Lemma do_mkdir_preparing (p : Path) : respects preparing (do_mkdir p).
Proof. intros w r w' H. injection H as _ <-. now apply preparing_quiet. Qed.

Lemma do_rmtree_preparing (p : Path) : respects preparing (do_rmtree p).
Proof. intros w r w' H. injection H as _ <-. now apply preparing_quiet. Qed.

Lemma msvc_tool_visible_preparing (c : Configure.BuildConfig) :
  respects preparing (Configure.msvc_tool_visible h c).
Proof. unfold Configure.msvc_tool_visible. respects_go fail. Qed.

Hint Resolve ask_yes_no_preparing import_environment_preparing do_mkdir_preparing
  do_rmtree_preparing msvc_tool_visible_preparing : frames.

Ltac prepare :=
  respects_go ltac:(first [ solve [eauto with frames]
                          | apply spawn_preparing; unfold aux_job; tauto ]).

Lemma setup_msvc_environment_preparing (c : Configure.BuildConfig) :
  respects preparing (Configure.setup_msvc_environment h c).
Proof. unfold Configure.setup_msvc_environment. prepare. Qed.

Lemma find_conan_toolchain_preparing (c : Configure.BuildConfig) :
  respects preparing (Configure.find_conan_toolchain c).
Proof. unfold Configure.find_conan_toolchain. prepare. Qed.
Hint Resolve find_conan_toolchain_preparing : frames.

Lemma ask_use_conan_preparing (c : Configure.BuildConfig) :
  respects preparing (Configure.ask_use_conan c).
Proof. unfold Configure.ask_use_conan. prepare. Qed.
Hint Resolve ask_use_conan_preparing : frames.

Lemma setup_conan_preparing (c : Configure.BuildConfig) :
  respects preparing (Configure.setup_conan h c).
Proof. unfold Configure.setup_conan. prepare. Qed.

Lemma generator_check_preparing (c : Configure.BuildConfig) (lines : list string) :
  respects preparing (Configure.generator_check c lines).
Proof. induction lines as [|line rest IH]; cbn [Configure.generator_check]; prepare. Qed.
Hint Resolve generator_check_preparing : frames.

Lemma configure_env_preparing (c : Configure.BuildConfig) :
  respects preparing (Configure.configure_env h c).
Proof. unfold Configure.configure_env. prepare. Qed.

(** The one failure [setup_conan] knows is none: it always answers [True],
    also when the dependency installer failed. *)
Lemma setup_conan_never_fails (c c' : Configure.BuildConfig) (w w' : World) (ok : bool) :
  Configure.setup_conan h c w = (Ret (ok, c'), w') -> ok = true.
Proof. unfold Configure.setup_conan. intros H. steps; reflexivity. Qed.

End Preparing.

Section ConfigureLog.

Variable h : Host.

(** Facts [preparing w1 w2] in the context, as equations between logs. *)
Ltac open_preparing :=
  repeat match goal with
         | G : preparing _ _ |- _ =>
             let l := fresh "l" in let El := fresh "El" in let Fl := fresh "Fl" in
             destruct G as (l & El & Fl)
         end.

Lemma aux_cmake_entry (ok : bool) (l : list (role * Cmd * Z)) :
  Forall (fun e => aux_job (job_of e)) l -> Forall (cmake_entry ok) l.
Proof. intros F. eapply Forall_impl; [exact F|]. intros e He. now left. Qed.

(** [CMakeBuilder.configure] answers with the success of cmake. *)
Lemma configure_log (c c' : Configure.BuildConfig) (w w' : World) (ok : bool) :
  Configure.configure h c w = (Ret (ok, c'), w') -> grows (cmake_entry ok) w w'.
Proof.
  unfold Configure.configure. intros H. cbv zeta in H. steps.
  all: repeat match goal with
         | E : Configure.generator_check _ _ _ = _ |- _ =>
             pose proof (generator_check_preparing h _ _ _ _ _ E); clear E
         | E : Configure.configure_env _ _ _ = _ |- _ =>
             pose proof (configure_env_preparing h _ _ _ _ E); clear E
         | E : Configure.ask_yes_no _ _ = _ |- _ =>
             pose proof (ask_yes_no_preparing h _ _ _ _ E); clear E
         end.
  all: open_preparing.
  all: unfold grows; log_chain; eexists; (split; [reflexivity|]); forall_split.
  all: try (apply aux_cmake_entry; assumption).
  all: right; (split; [reflexivity|]); unfold rc_of; cbn [snd]; symmetry; apply Z.eqb_eq.
Qed.

End ConfigureLog.
Section ConfigureMainLog.

Variable h : Host.

Lemma aux_configure_entry (code : Z) (l : list (role * Cmd * Z)) :
  Forall (fun e => aux_job (job_of e)) l -> Forall (configure_entry code) l.
Proof.
  intros F. eapply Forall_impl; [exact F|]. intros e He. unfold configure_entry.
  destruct He as [-> | [-> | [-> | ->]]]; exact I.
Qed.

Lemma cmake_configure_entry (ok : bool) (code : Z) (l : list (role * Cmd * Z)) :
  (ok = true <-> code = 0) -> Forall (cmake_entry ok) l -> Forall (configure_entry code) l.
Proof.
  intros Hok F. eapply Forall_impl; [exact F|]. intros e [He|[Hj Hr]]; unfold configure_entry.
  - destruct He as [-> | [-> | [-> | ->]]]; exact I.
  - rewrite Hj, Hr. symmetry. exact Hok.
Qed.

(** A successful [configure] has cmake's success in the log. *)
Lemma configure_success_in_log (c c' : Configure.BuildConfig) (w w' : World) :
  Configure.configure h c w = (Ret (true, c'), w') ->
  exists cmd, In (CMakeConfigure, cmd, 0) (spawned w').
Proof.
  unfold Configure.configure. intros H. cbv zeta in H. steps.
  all: match goal with
       | E : (returncode ?a =? 0) = true, L : spawned ?w2 = _ ++ [(_, _, returncode ?a)]
         |- _ => apply Z.eqb_eq in E; rewrite E in L; rewrite L
       end.
  all: eexists; apply in_or_app; right; left; reflexivity.
Qed.

(** Facts about the stages of [main] in the context, as facts about the
    log. *)
Ltac stage_facts :=
  repeat match goal with
         | E : Configure.setup_msvc_environment _ _ _ = _ |- _ =>
             pose proof (setup_msvc_environment_preparing h _ _ _ _ E); clear E
         | E : Configure.setup_conan _ _ _ = _ |- _ =>
             pose proof (setup_conan_preparing h _ _ _ _ E); clear E
         | E : Configure.setup_compiler _ _ _ = _ |- _ =>
             pose proof (probing_preparing h _ _ (setup_compiler_probing h _ _ _ _ E)); clear E
         | E : Configure.setup_build_system _ _ _ = _ |- _ =>
             pose proof (probing_preparing h _ _ (setup_build_system_probing h _ _ _ _ E));
             clear E
         | E : Configure.select_compiler_interactive _ _ _ = _ |- _ =>
             pose proof (probing_preparing h _ _
                           (select_compiler_interactive_probing h _ _ _ _ E)); clear E
         | E : Configure.select_build_system_interactive _ _ _ = _ |- _ =>
             pose proof (probing_preparing h _ _
                           (select_build_system_interactive_probing h _ _ _ _ E)); clear E
         | E : Configure.select_modules_interactive _ _ = _ |- _ =>
             pose proof (probing_preparing h _ _
                           (select_modules_interactive_probing h _ _ _ _ E)); clear E
         | E : Configure.select_tests_and_examples_interactive _ _ = _ |- _ =>
             pose proof (probing_preparing h _ _
                           (select_tests_and_examples_interactive_probing h _ _ _ _ E));
             clear E
         | E : Configure.select_build_type_interactive _ _ = _ |- _ =>
             pose proof (probing_preparing h _ _
                           (select_build_type_interactive_probing h _ _ _ _ E)); clear E
         end.

Ltac open_preparing :=
  repeat match goal with
         | G : preparing _ _ |- _ =>
             let l := fresh "l" in let El := fresh "El" in let Fl := fresh "Fl" in
             destruct G as (l & El & Fl)
         end.

Lemma bootstrap_and_configure_log (c c' : Configure.BuildConfig) (w w' : World) (code : Z) :
  Configure.bootstrap_and_configure h c w = (Ret (code, c'), w') ->
  grows (configure_entry code) w w'
  /\ (code = 0 \/ code = 1)
  /\ (code = 0 -> exists cmd, In (CMakeConfigure, cmd, 0) (spawned w')).
Proof.
  unfold Configure.bootstrap_and_configure. intros H. steps.
  all: try match goal with
       | E : Configure.setup_conan _ _ _ = (Ret (false, _), _) |- _ =>
           apply setup_conan_never_fails in E; discriminate E
       end.
  all: match goal with
       | E : negb ?b = _ |- _ => try (destruct b; try discriminate E)
       | |- _ => idtac
       end.
  all: repeat match goal with
       | E : negb ?b = _ |- _ => destruct b; try discriminate E; clear E
       end.
  all: try match goal with
       | E : Configure.configure _ _ _ = (Ret (true, _), _) |- _ =>
           pose proof (configure_success_in_log _ _ _ _ E) as Hin
       end.
  all: try match goal with
       | E : Configure.configure _ _ _ = _ |- _ =>
           pose proof (configure_log h _ _ _ _ _ E) as (lc & Elc & Flc); clear E
       end.
  all: stage_facts; open_preparing.
  all: split; [|split; [auto|]]; try discriminate; try (intros _; exact Hin).
  all: unfold grows; log_chain; eexists;
       (split; [first [reflexivity | symmetry; apply app_nil_r]|]); forall_split.
  all: try (apply aux_configure_entry; assumption).
  all: try (eapply cmake_configure_entry; [|eassumption]; split; intros; congruence).
Qed.

(** The log of a run of configure.py and its exit code. *)
Lemma main_with_config_log (args : Configure.Args) (c' : Configure.BuildConfig)
  (w w' : World) (code : Z) :
  Configure.main_with_config h args w = (Ret (code, c'), w') ->
  grows (configure_entry code) w w'
  /\ (code = 0 \/ code = 1)
  /\ (code = 0 -> exists cmd, In (CMakeConfigure, cmd, 0) (spawned w')).
Proof.
  unfold Configure.main_with_config. intros H. cbv zeta in H. steps.
  all: try match goal with
       | E : Configure.bootstrap_and_configure _ _ _ = _ |- _ =>
           apply bootstrap_and_configure_log in E as ((lb & Elb & Flb) & Hcode & Hin)
       end.
  all: stage_facts; open_preparing.
  all: split; [|split; [auto|]]; try discriminate; try assumption.
  all: unfold grows; log_chain; eexists;
       (split; [first [reflexivity | symmetry; apply app_nil_r]|]); forall_split.
  all: try (apply aux_configure_entry; assumption).
  all: try assumption.
Qed.

End ConfigureMainLog.

Section ConfigureExtras.

Lemma opt_is_eq (o : option string) (x : string) : opt_is o x = true -> o = Some x.
Proof.
  destruct o as [s|]; [|discriminate]. unfold opt_is, opt_among, among. cbn [existsb].
  rewrite orb_false_r. intros H. apply String.eqb_eq in H. now subst.
Qed.

(** X1. The exit code of configure.py, for a run that ends by returning
    from [main]: it is 0 or 1; it is 0 exactly when cmake's configuration
    returned 0, and a cmake that failed gives 1; the only subprocesses
    configure.py starts are the Visual Studio locator, the vendor script,
    Conan's environment script, the dependency installer and cmake's
    configuration. *)
Theorem configure_exit_code (h : Host) (args : Configure.Args) (w w' : World) (code : Z) :
  spawned w = [] ->
  Configure.main h args w = (Ret code, w') ->
  (code = 0 \/ code = 1)
  /\ (code = 0 <-> exists cmd, In (CMakeConfigure, cmd, 0) (spawned w'))
  /\ (forall e, In e (spawned w') -> job_of e = CMakeConfigure -> rc_of e <> 0 -> code = 1)
  /\ (forall e, In e (spawned w') -> aux_job (job_of e) \/ job_of e = CMakeConfigure).
Proof.
  intros Hw H. unfold Configure.main in H.
  apply bind_ret_inv in H as ([code' c'] & w1 & E & H).
  unfold ret in H. injection H as -> ->.
  destruct (main_with_config_log h args c' w w' code E) as (Hg & Hcode & Hzero).
  pose proof (grows_from_empty _ _ _ Hw Hg) as Hall.
  rewrite List.Forall_forall in Hall.
  split; [exact Hcode|]. split; [|split].
  - split; [exact Hzero|]. intros (cmd & Hin).
    apply Hall in Hin. unfold configure_entry in Hin. cbn in Hin. now apply Hin.
  - intros e Hin Hj Hrc. apply Hall in Hin. unfold configure_entry in Hin. rewrite Hj in Hin.
    destruct Hcode as [-> | ->]; [|reflexivity]. exfalso. apply Hrc. now apply Hin.
  - intros e Hin. apply Hall in Hin. unfold configure_entry, aux_job in *.
    destruct (job_of e); tauto.
Qed.

Lemma configure_exit_code_witness :
  (0 = 0 <-> exists cmd,
      In (CMakeConfigure, cmd, 0)
         (spawned (snd (Configure.main Sample.host Sample.configure_defaults
                          (Sample.world Sample.checkout []))))).
Proof.
  assert (E : Configure.main Sample.host Sample.configure_defaults
                (Sample.world Sample.checkout [])
              = (Ret 0, snd (Configure.main Sample.host Sample.configure_defaults
                               (Sample.world Sample.checkout []))))
    by (vm_compute; reflexivity).
  exact (proj1 (proj2 (configure_exit_code Sample.host Sample.configure_defaults
                         (Sample.world Sample.checkout []) _ 0 eq_refl E))).
Defined.

(** X2. [setup_conan] never fails the configuration: it always answers
    [True], also when install_deps.py is missing, refused or failed. It
    leaves [use_conan] decided, and decided for Conan only with a toolchain
    file recorded; build type, compiler and generator are as before. *)
Theorem setup_conan_outcome (h : Host) (c c' : Configure.BuildConfig) (w w' : World)
  (ok : bool) :
  Configure.setup_conan h c w = (Ret (ok, c'), w') ->
  ok = true
  /\ ((Configure.use_conan c' = Some true /\ exists t, Configure.conan_toolchain c' = Some t)
      \/ Configure.use_conan c' = Some false)
  /\ Configure.build_type c' = Configure.build_type c
  /\ Configure.compiler c' = Configure.compiler c
  /\ Configure.build_system c' = Configure.build_system c.
Proof.
  unfold Configure.setup_conan. intros H. steps.
  all: cbn; repeat split; eauto.
Qed.

Lemma setup_conan_outcome_witness :
  true = true
  /\ ((Configure.use_conan
         (Configure.set_use_conan (Some false)
            (Configure.set_use_conan (Some true) Sample.release_unset)) = Some true
       /\ exists t,
            Configure.conan_toolchain
              (Configure.set_use_conan (Some false)
                 (Configure.set_use_conan (Some true) Sample.release_unset)) = Some t)
      \/ Configure.use_conan
           (Configure.set_use_conan (Some false)
              (Configure.set_use_conan (Some true) Sample.release_unset)) = Some false)
  /\ Configure.build_type
       (Configure.set_use_conan (Some false)
          (Configure.set_use_conan (Some true) Sample.release_unset))
     = Configure.build_type (Configure.set_use_conan (Some true) Sample.release_unset)
  /\ Configure.compiler
       (Configure.set_use_conan (Some false)
          (Configure.set_use_conan (Some true) Sample.release_unset))
     = Configure.compiler (Configure.set_use_conan (Some true) Sample.release_unset)
  /\ Configure.build_system
       (Configure.set_use_conan (Some false)
          (Configure.set_use_conan (Some true) Sample.release_unset))
     = Configure.build_system (Configure.set_use_conan (Some true) Sample.release_unset).
Proof.
  exact (setup_conan_outcome Sample.host
           (Configure.set_use_conan (Some true) Sample.release_unset)
           (Configure.set_use_conan (Some false)
              (Configure.set_use_conan (Some true) Sample.release_unset))
           (Sample.world Sample.checkout []) (Sample.world Sample.checkout []) true
           eq_refl).
Defined.

(** X3. Looking for a compiler and for a build system only looks:
    whatever [setup_compiler] and [setup_build_system] answer, and also when
    a prompt is interrupted, the only subprocess they start is the Visual
    Studio locator, and if the locator only reads, the files are as
    before (no directory is made, none removed). *)
Theorem detection_only_probes (h : Host) (c : Configure.BuildConfig) (w w' : World)
  (r : outcome (bool * Configure.BuildConfig)) :
  Configure.setup_compiler h c w = (r, w') \/ Configure.setup_build_system h c w = (r, w') ->
  (exists l, spawned w' = spawned w ++ l /\ Forall (fun e => job_of e = Vswhere) l)
  /\ (vswhere_readonly h -> fs w' = fs w).
Proof.
  intros [H|H].
  - exact (setup_compiler_probing h c w r w' H).
  - exact (setup_build_system_probing h c w r w' H).
Qed.

Lemma detection_only_probes_witness :
  (exists l,
      spawned (snd (Configure.setup_compiler Sample.winhost
                      (Configure.set_interactive false
                         (Configure.BuildConfig_init Sample.winhost))
                      Sample.windows_world))
      = spawned Sample.windows_world ++ l
      /\ Forall (fun e => job_of e = Vswhere) l)
  /\ (vswhere_readonly Sample.winhost ->
      fs (snd (Configure.setup_compiler Sample.winhost
                 (Configure.set_interactive false
                    (Configure.BuildConfig_init Sample.winhost))
                 Sample.windows_world))
      = fs Sample.windows_world).
Proof.
  apply (detection_only_probes Sample.winhost
           (Configure.set_interactive false (Configure.BuildConfig_init Sample.winhost))
           Sample.windows_world _
           (fst (Configure.setup_compiler Sample.winhost
                   (Configure.set_interactive false
                      (Configure.BuildConfig_init Sample.winhost))
                   Sample.windows_world))).
  left. apply surjective_pairing.
Defined.

Lemma compiler_of_cache_pairs (h : Host) (cxx comp drv : string) :
  Configure.compiler_of_cache h cxx = Some (comp, drv) ->
  In (comp, drv) [("gcc", "g++"); ("clang", "clang++"); ("clang-cl", "clang-cl");
                  ("msvc", "cl")].
Proof.
  unfold Configure.compiler_of_cache. intros H.
  repeat match type of H with
         | (if ?b then _ else _) = _ => destruct b
         end; try discriminate; injection H as <- <-; cbn; tauto.
Qed.

Lemma use_compiler_pair (a b : string) (c : Configure.BuildConfig) :
  In (a, b) [("gcc", "g++"); ("clang", "clang++"); ("clang-cl", "clang-cl"); ("msvc", "cl")] ->
  In (Configure.compiler (Configure.use_compiler a b c),
      Configure.cxx_compiler (Configure.use_compiler a b c)) compiler_pairs.
Proof.
  cbn. intros [E|[E|[E|[E|[]]]]]; injection E as <- <-; tauto.
Qed.

Lemma select_compiler_interactive_pair (h : Host) (c c' : Configure.BuildConfig)
  (w w' : World) :
  Configure.select_compiler_interactive h c w = (Ret (true, c'), w') ->
  In (Configure.compiler c', Configure.cxx_compiler c') compiler_pairs.
Proof.
  unfold Configure.select_compiler_interactive. intros H. steps.
  all: cbn; tauto.
Qed.

Lemma validate_compiler_pair (h : Host) (c c' : Configure.BuildConfig) (w w' : World) :
  Configure.validate_compiler h c w = (Ret (true, c'), w') ->
  In (Configure.compiler c', Configure.cxx_compiler c') compiler_pairs.
Proof.
  unfold Configure.validate_compiler. intros H. steps.
  all: repeat match goal with
         | E : opt_is _ _ = true |- _ => apply opt_is_eq in E
         end.
  all: cbn; try tauto.
  all: match goal with E : Configure.compiler _ = Some _ |- _ => rewrite E end; tauto.
Qed.

Lemma autodetect_compiler_pair (h : Host) (c c' : Configure.BuildConfig) (w w' : World) :
  Configure.autodetect_compiler h c w = (Ret (true, c'), w') ->
  In (Configure.compiler c', Configure.cxx_compiler c') compiler_pairs.
Proof.
  unfold Configure.autodetect_compiler. intros H. steps.
  all: cbn; tauto.
Qed.

(** X4. A compiler settled by [setup_compiler] comes with its driver: after
    a call that answered [True], compiler and C++ driver of the
    configuration are one of gcc with g++, clang with clang++, clang-cl with
    clang-cl, msvc with cl, on every path (given on the command line, read
    from the cache, chosen at the prompt, detected). *)
Theorem setup_compiler_sets_driver (h : Host) (c c' : Configure.BuildConfig) (w w' : World) :
  Configure.setup_compiler h c w = (Ret (true, c'), w') ->
  In (Configure.compiler c', Configure.cxx_compiler c') compiler_pairs.
Proof.
  unfold Configure.setup_compiler. intros H.
  destruct (truthy (Configure.compiler c)).
  { now apply validate_compiler_pair in H. }
  apply bind_ret_inv in H as (cache & w1 & E & H).
  unfold Configure.read_cmake_cache in E. injection E as <- <-.
  destruct (Configure.read_cmake_cache_in (fs w) (Configure.get_build_dir c)
              !! "CMAKE_CXX_COMPILER") as [cxx|] eqn:Ec.
  - destruct (Configure.compiler_of_cache h cxx) as [[comp drv]|] eqn:Ep.
    + rewrite Ec in H. unfold ret in H. injection H as <- <-.
      apply use_compiler_pair. now apply (compiler_of_cache_pairs h cxx).
    + rewrite lookup_empty in H. destruct (Configure.interactive c).
      * now apply select_compiler_interactive_pair in H.
      * now apply autodetect_compiler_pair in H.
  - rewrite Ec in H. destruct (Configure.interactive c).
    + now apply select_compiler_interactive_pair in H.
    + now apply autodetect_compiler_pair in H.
Qed.

Lemma setup_compiler_sets_driver_witness :
  In (Configure.compiler (Configure.use_compiler "gcc" "g++" Sample.release_unset),
      Configure.cxx_compiler (Configure.use_compiler "gcc" "g++" Sample.release_unset))
     compiler_pairs.
Proof.
  exact (setup_compiler_sets_driver Sample.host Sample.release_unset
           (Configure.use_compiler "gcc" "g++" Sample.release_unset)
           (Sample.world Sample.checkout []) (Sample.world Sample.checkout []) eq_refl).
Defined.

End ConfigureExtras.

Section GeneratorExtras.

Lemma detect_msbuild_generator (h : Host) (c : Configure.BuildConfig) (w w' : World)
  (g : option string) :
  Configure.detect_msbuild h c w = (Ret (true, g), w') ->
  In g [Some "Visual Studio 17 2022"; Some "Visual Studio 16 2019";
        Some "Visual Studio 15 2017"].
Proof.
  unfold Configure.detect_msbuild. intros H. steps.
  all: cbn; tauto.
Qed.

(** What is known of the answers of [detect_msbuild] and of the tests made
    on them. *)
Ltac msbuild_facts :=
  repeat match goal with
         | E : negb ?b = _ |- _ => is_var b; destruct b; try discriminate E; clear E
         | E : (_ && _)%bool = _ |- _ =>
             first [ apply andb_prop in E as [? ?] | apply andb_false_iff in E as [?|?] ]
         | E : true = false |- _ => discriminate E
         | E : false = true |- _ => discriminate E
         end;
  cbn [negb andb] in *; try discriminate; try congruence;
  try match goal with
      | E : Configure.detect_msbuild _ _ _ = (Ret (true, _), _) |- _ =>
          apply detect_msbuild_generator in E
      end.

Lemma select_build_system_known (h : Host) (c c' : Configure.BuildConfig) (w w' : World) :
  Configure.select_build_system_interactive h c w = (Ret (true, c'), w') ->
  In (Configure.build_system c') known_generators.
Proof.
  unfold Configure.select_build_system_interactive. intros H. steps.
  all: msbuild_facts.
  all: cbn in *; intuition (subst; auto).
Qed.

Lemma known_generator_truthy (g : option string) :
  In g known_generators -> truthy g = true.
Proof. cbn. intros [<-|[<-|[<-|[<-|[<-|[<-|[]]]]]]]; reflexivity. Qed.

(** X5. A build system settled by [setup_build_system] is a generator
    name: after a call that answered [True] the configuration has a
    non-empty [build_system], which is Ninja, Unix Makefiles, Make or a
    Visual Studio generator, or else the very text the call started with (a
    name the function does not know and passes on unchecked). *)
Theorem setup_build_system_sets_generator (h : Host) (c c' : Configure.BuildConfig)
  (w w' : World) :
  Configure.setup_build_system h c w = (Ret (true, c'), w') ->
  truthy (Configure.build_system c') = true
  /\ (In (Configure.build_system c') known_generators
      \/ Configure.build_system c' = Configure.build_system c).
Proof.
  unfold Configure.setup_build_system. intros H.
  destruct (truthy (Configure.build_system c)) eqn:Et.
  - steps.
    all: msbuild_facts.
    all: cbn in *; try (split; [reflexivity|left; tauto]).
    all: try (split; [exact Et|right; reflexivity]).
    all: intuition (subst; auto).
  - assert (G : In (Configure.build_system c') known_generators).
    { destruct (Configure.interactive c).
      - now apply select_build_system_known in H.
      - steps.
        all: msbuild_facts.
        all: cbn in *; intuition (subst; auto). }
    split; [now apply known_generator_truthy|now left].
Qed.

Lemma setup_build_system_sets_generator_witness :
  truthy (Configure.build_system
            (Configure.set_build_system (Some "Unix Makefiles")
               (Configure.set_build_system (Some "make") Sample.release_unset))) = true
  /\ (In (Configure.build_system
            (Configure.set_build_system (Some "Unix Makefiles")
               (Configure.set_build_system (Some "make") Sample.release_unset)))
         known_generators
      \/ Configure.build_system
           (Configure.set_build_system (Some "Unix Makefiles")
              (Configure.set_build_system (Some "make") Sample.release_unset))
         = Configure.build_system
             (Configure.set_build_system (Some "make") Sample.release_unset)).
Proof.
  exact (setup_build_system_sets_generator Sample.host
           (Configure.set_build_system (Some "make") Sample.release_unset)
           (Configure.set_build_system (Some "Unix Makefiles")
              (Configure.set_build_system (Some "make") Sample.release_unset))
           (Sample.world Sample.checkout []) (Sample.world Sample.checkout []) eq_refl).
Defined.

(** X6. Without a console, [configure] never decides to clean: in
    non-interactive mode the check for a changed generator in an existing
    CMakeCache.txt returns the configuration as it is and touches nothing,
    whatever the cache holds. *)
Theorem generator_check_noninteractive (c : Configure.BuildConfig) (lines : list string)
  (w : World) :
  Configure.interactive c = false ->
  Configure.generator_check c lines w = (Ret c, w).
Proof.
  intros Hi. induction lines as [|line rest IH]; cbn [Configure.generator_check].
  - reflexivity.
  - destruct (startswith "CMAKE_GENERATOR:INTERNAL=" line); [|exact IH].
    destruct (negb _); [|exact IH]. rewrite Hi. reflexivity.
Qed.

Lemma generator_check_noninteractive_witness :
  Configure.generator_check Sample.release_unset
    ["CMAKE_GENERATOR:INTERNAL=Unix Makefiles"] (Sample.world Sample.configured [Line "y"])
  = (Ret Sample.release_unset, Sample.world Sample.configured [Line "y"]).
Proof.
  exact (generator_check_noninteractive Sample.release_unset
           ["CMAKE_GENERATOR:INTERNAL=Unix Makefiles"]
           (Sample.world Sample.configured [Line "y"]) eq_refl).
Defined.

End GeneratorExtras.

Section NonWindows.

Global Instance only_input_read_preorder : PreOrder only_input_read.
Proof.
  split.
  - intros w. repeat split.
  - intros a b c (E1 & F1 & S1) (E2 & F2 & S2). repeat split; congruence.
Qed.

Lemma input_only_input_read : respects only_input_read input.
Proof.
  intros w r w' H. unfold input in H.
  destruct (stdin w) as [|[s|] rest]; injection H as _ <-; repeat split.
Qed.

Hint Resolve input_only_input_read : frames.

Variable h : Host.
Variable c : Configure.BuildConfig.
Hypothesis not_windows : Configure.is_windows c = false.

Ltac quiet := cbn [negb]; cbv iota; respects_go ltac:(solve [eauto with frames]).

Lemma detect_gcc_quiet : respects only_input_read (Configure.detect_gcc h).
Proof. unfold Configure.detect_gcc. quiet. Qed.

Lemma have_clang_pair_quiet : respects only_input_read (Configure.have_clang_pair h).
Proof. unfold Configure.have_clang_pair. quiet. Qed.

Hint Resolve detect_gcc_quiet have_clang_pair_quiet : frames.

Lemma menu_choice_quiet : respects only_input_read Configure.menu_choice.
Proof. unfold Configure.menu_choice. quiet. Qed.

Hint Resolve menu_choice_quiet : frames.

Lemma detect_clang_quiet : respects only_input_read (Configure.detect_clang h c).
Proof. unfold Configure.detect_clang. rewrite not_windows. quiet. Qed.

Hint Resolve detect_clang_quiet : frames.

Lemma select_compiler_interactive_quiet :
  respects only_input_read (Configure.select_compiler_interactive h c).
Proof. unfold Configure.select_compiler_interactive. rewrite not_windows. quiet. Qed.

Lemma validate_compiler_quiet : respects only_input_read (Configure.validate_compiler h c).
Proof. unfold Configure.validate_compiler. rewrite not_windows. quiet. Qed.

Lemma autodetect_compiler_quiet :
  respects only_input_read (Configure.autodetect_compiler h c).
Proof. unfold Configure.autodetect_compiler. rewrite not_windows. quiet. Qed.

Lemma setup_compiler_quiet : respects only_input_read (Configure.setup_compiler h c).
Proof.
  unfold Configure.setup_compiler.
  destruct (truthy (Configure.compiler c)); [apply validate_compiler_quiet|].
  apply respects_bind; [exact _|apply respects_read_cmake_cache; exact _|].
  intros cache.
  destruct (cache !! "CMAKE_CXX_COMPILER") as [cxx|] eqn:Ec.
  - destruct (Configure.compiler_of_cache h cxx) as [[comp drv]|].
    + rewrite Ec. apply respects_ret. exact _.
    + rewrite lookup_empty. destruct (Configure.interactive c).
      * apply select_compiler_interactive_quiet.
      * apply autodetect_compiler_quiet.
  - rewrite Ec. destruct (Configure.interactive c).
    + apply select_compiler_interactive_quiet.
    + apply autodetect_compiler_quiet.
Qed.

Lemma detect_msbuild_quiet : respects only_input_read (Configure.detect_msbuild h c).
Proof. unfold Configure.detect_msbuild. rewrite not_windows. quiet. Qed.

Lemma detect_make_quiet : respects only_input_read (Configure.detect_make h).
Proof. unfold Configure.detect_make. quiet. Qed.

Lemma detect_ninja_quiet : respects only_input_read (Configure.detect_ninja h).
Proof. unfold Configure.detect_ninja. quiet. Qed.

Hint Resolve detect_msbuild_quiet detect_make_quiet detect_ninja_quiet : frames.

Lemma select_build_system_interactive_quiet :
  respects only_input_read (Configure.select_build_system_interactive h c).
Proof. unfold Configure.select_build_system_interactive. rewrite not_windows. quiet. Qed.

Hint Resolve select_build_system_interactive_quiet : frames.

Lemma setup_build_system_quiet : respects only_input_read (Configure.setup_build_system h c).
Proof. unfold Configure.setup_build_system. rewrite not_windows. quiet. Qed.

End NonWindows.

(** X7. Off Windows, looking for a compiler and for a build system changes
    nothing but the pending console input: [setup_compiler] and
    [setup_build_system] start no subprocess, change no environment
    variable and touch no file, whatever they answer. *)
Theorem detection_off_windows (h : Host) (c : Configure.BuildConfig) (w w' : World)
  (r : outcome (bool * Configure.BuildConfig)) :
  Configure.is_windows c = false ->
  Configure.setup_compiler h c w = (r, w') \/ Configure.setup_build_system h c w = (r, w') ->
  environ w' = environ w /\ fs w' = fs w /\ spawned w' = spawned w.
Proof.
  intros Hw [H|H].
  - exact (setup_compiler_quiet h c Hw w r w' H).
  - exact (setup_build_system_quiet h c Hw w r w' H).
Qed.

Lemma detection_off_windows_witness :
  environ (snd (Configure.setup_build_system Sample.host Sample.release_unset
                  (Sample.world Sample.checkout [])))
  = environ (Sample.world Sample.checkout [])
  /\ fs (snd (Configure.setup_build_system Sample.host Sample.release_unset
                (Sample.world Sample.checkout [])))
     = fs (Sample.world Sample.checkout [])
  /\ spawned (snd (Configure.setup_build_system Sample.host Sample.release_unset
                     (Sample.world Sample.checkout [])))
     = spawned (Sample.world Sample.checkout []).
Proof.
  apply (detection_off_windows Sample.host Sample.release_unset
           (Sample.world Sample.checkout []) _
           (fst (Configure.setup_build_system Sample.host Sample.release_unset
                   (Sample.world Sample.checkout [])))).
  - reflexivity.
  - right. apply surjective_pairing.
Defined.

(** X8. A compiler read from the cache is not looked for: with no compiler
    set and a CMAKE_CXX_COMPILER entry that [compiler_of_cache] recognises
    in the CMakeCache.txt of the build directory, [setup_compiler] answers
    [True] with that compiler on every host of the same system, whatever is
    installed there, and leaves the process state as it is. *)
Theorem cached_compiler_not_probed (h h' : Host) (c : Configure.BuildConfig) (w : World)
  (cxx comp drv : string) :
  truthy (Configure.compiler c) = false ->
  Configure.read_cmake_cache_in (fs w) (Configure.get_build_dir c) !! "CMAKE_CXX_COMPILER"
  = Some cxx ->
  Configure.compiler_of_cache h cxx = Some (comp, drv) ->
  system h' = system h ->
  Configure.setup_compiler h' c w = (Ret (true, Configure.use_compiler comp drv c), w).
Proof.
  intros Hc Hcache Hcomp Hsys. pose proof (cache_wins h c w Hc) as H.
  rewrite Hcache, Hcomp in H. now apply H.
Qed.

Lemma cached_compiler_not_probed_witness :
  Configure.setup_compiler (Sample.linux [] Sample.all_fine) Sample.release_unset
    (Sample.world Sample.configured [])
  = (Ret (true, Configure.use_compiler "gcc" "g++" Sample.release_unset),
     Sample.world Sample.configured []).
Proof.
  exact (cached_compiler_not_probed Sample.host (Sample.linux [] Sample.all_fine)
           Sample.release_unset (Sample.world Sample.configured [])
           "/usr/bin/clang++" "gcc" "g++" eq_refl eq_refl eq_refl eq_refl).
Defined.

Section Workspaces.

Lemma name_div (p : Path) (a : string) : name (p // a) = a.
Proof. unfold name, div. apply last_last. Qed.

Lemma parent_div (p : Path) (a : string) : parent (p // a) = p.
Proof. unfold parent, div. apply removelast_last. Qed.

Lemma upper_of_lower_char (c : ascii) :
  is_lower (lower_char c) = true -> upper_char c = upper_char (lower_char c).
Proof.
  destruct c as [[] [] [] [] [] [] [] []]; vm_compute; intros H;
    first [reflexivity | discriminate H].
Qed.

Lemma capitalize_of_lower (s : string) (a : ascii) (r : string) :
  lower s = String a r -> is_lower a = true -> capitalize s = String (upper_char a) r.
Proof.
  destruct s as [|c s']; [discriminate|]. unfold lower. cbn [map_chars capitalize].
  intros H Ha. injection H as <- <-. unfold lower. f_equal.
  now apply upper_of_lower_char.
Qed.

Lemma detect_build_type_cases (d : Path) :
  let t := lower (name (parent d)) in
  Build.detect_build_type_from_dir d =
  if String.eqb t "debug" then "Debug"
  else if String.eqb t "release" then "Release"
  else if String.eqb t "relwithdebinfo" then "RelWithDebInfo"
  else "Release".
Proof.
  cbv zeta. unfold Build.detect_build_type_from_dir, among. cbn [existsb].
  destruct (String.eqb_spec (lower (name (parent d))) "debug") as [E|_].
  { rewrite E. cbn [orb]. change ("debug" =? "relwithdebinfo")%string with false.
    cbv iota. now rewrite (capitalize_of_lower _ _ _ E). }
  destruct (String.eqb_spec (lower (name (parent d))) "release") as [E|_].
  { rewrite E. cbn [orb]. change ("release" =? "relwithdebinfo")%string with false.
    cbv iota. now rewrite (capitalize_of_lower _ _ _ E). }
  cbn [orb]. rewrite orb_false_r.
  destruct (lower (name (parent d)) =? "relwithdebinfo")%string; reflexivity.
Qed.


Lemma iterdir_parent (files : FS) (p q : Path) : In q (iterdir files p) -> parent q = p.
Proof.
  unfold iterdir. rewrite List.in_map_iff. intros (e & <- & He).
  apply List.filter_In in He as (_ & He). apply andb_prop in He as (He & _).
  unfold path_eqb in He. now apply bool_decide_eq_true in He.
Qed.

Lemma configured_dirs_spec (files : FS) (root d : Path) :
  In d (Build.configured_dirs_in files root) ->
  Build.is_configured_in files d = true
  /\ is_dir files d = true
  /\ parent (parent d) = root // "build".
Proof.
  unfold Build.configured_dirs_in. cbv zeta. rewrite List.in_flat_map.
  intros (t & Ht & Hd). apply iterdir_parent in Ht.
  destruct (is_dir files t); [|destruct Hd].
  apply List.filter_In in Hd as (Hd & Hc). apply iterdir_parent in Hd.
  apply andb_prop in Hc as (Hdir & Hc).
  unfold Build.is_configured_in. repeat split; try assumption. congruence.
Qed.

Lemma insert_by_perm {A} (key : A -> Z) (x : A) (l : list A) :
  Permutation (Build.insert_by key x l) (x :: l).
Proof.
  induction l as [|y l IH]; cbn [Build.insert_by]; [reflexivity|].
  destruct (key x <? key y); [reflexivity|].
  rewrite IH. apply perm_swap.
Qed.

Lemma sorted_by_perm_acc {A} (key : A -> Z) (l acc : list A) :
  Permutation (List.fold_left (fun acc x => Build.insert_by key x acc) l acc) (acc ++ l).
Proof.
  revert acc. induction l as [|x l IH]; intros acc; cbn [List.fold_left].
  - now rewrite app_nil_r.
  - rewrite IH, insert_by_perm. apply Permutation_middle.
Qed.

Lemma sorted_by_perm {A} (key : A -> Z) (l : list A) :
  Permutation (Build.sorted_by key l) l.
Proof. unfold Build.sorted_by. apply (sorted_by_perm_acc key l []). Qed.



Lemma nth_dir_in (dirs : list Path) (idx : Z) :
  Build.in_range idx dirs = true -> In (Build.nth_dir dirs idx) dirs.
Proof.
  unfold Build.in_range, Build.nth_dir. intros H. apply andb_prop in H as (H1 & H2).
  apply Z.leb_le in H1, H2. apply nth_In. lia.
Qed.

Lemma select_loop_in (dirs : list Path) (n : nat) :
  forall inp d b t r, (List.length inp <= n)%nat ->
    Build.select_loop dirs inp = (Ret (Some (Some d, b, t)), r) ->
    In d dirs /\ t = Some (Build.detect_build_type_from_dir d).
Proof.
  induction n as [|n IH]; intros inp d b t r Hlen H.
  - destruct inp; [discriminate H|cbn [List.length] in Hlen; lia].
  - destruct inp as [|[s|] inp]; [discriminate H| |discriminate H].
    cbn [List.length] in Hlen. cbn [Build.select_loop] in H. cbv zeta in H.
    destruct (int _) as [idx|]; [|apply (IH inp d b t r); [lia|exact H]].
    destruct (Build.in_range idx dirs) eqn:Hr.
    { injection H as <- _ <- _. split; [now apply nth_dir_in|reflexivity]. }
    destruct (idx =? _); [discriminate H|].
    destruct (idx =? _); [|apply (IH inp d b t r); [lia|exact H]].
    destruct inp as [|[s'|] inp']; [discriminate H| |discriminate H].
    cbn [List.length] in Hlen.
    destruct (int _) as [idx'|]; [|apply (IH inp' d b t r); [lia|exact H]].
    destruct (Build.in_range idx' dirs) eqn:Hr'; [|apply (IH inp' d b t r); [lia|exact H]].
    injection H as <- _ <- _. split; [now apply nth_dir_in|reflexivity].
Qed.

Lemma find_all_perm (files : FS) (root : Path) :
  Permutation (Build.find_all_configured_build_dirs_in files root)
    (if exists_ files (root // "build") then Build.configured_dirs_in files root else []).
Proof.
  unfold Build.find_all_configured_build_dirs_in.
  destruct (exists_ files (root // "build")); cbn [negb]; [apply sorted_by_perm|reflexivity].
Qed.

End Workspaces.

(** X9. The build type read back from a workspace directory
    ([detect_build_type_from_dir], build.py) is always one of the three
    [--type] accepts, whatever the directory is called; and for the
    directory [get_build_dir] gives a build of type [t], it is [t]. *)
Theorem build_type_round_trip (h : Host) (root d : Path) (t : string) :
  In (Build.detect_build_type_from_dir d) build_type_choices
  /\ (In t build_type_choices ->
      Build.detect_build_type_from_dir (Build.get_build_dir h root t) = t).
Proof.
  split.
  - rewrite detect_build_type_cases. cbv zeta. unfold build_type_choices.
    repeat match goal with |- context [if ?b then _ else _] => destruct b end;
      cbn [In]; tauto.
  - intros Ht. rewrite detect_build_type_cases. cbv zeta.
    unfold Build.get_build_dir. rewrite parent_div, name_div.
    unfold build_type_choices in Ht. cbn [In] in Ht.
    destruct Ht as [<-|[<-|[<-|[]]]]; vm_compute; reflexivity.
Qed.

Lemma build_type_round_trip_witness :
  Build.detect_build_type_from_dir (Build.get_build_dir Sample.host Sample.repo "RelWithDebInfo")
  = "RelWithDebInfo".
Proof.
  apply (proj2 (build_type_round_trip Sample.host Sample.repo [] "RelWithDebInfo")).
  simpl. tauto.
Defined.



(** X12. A workspace chosen at the prompt of [select_build_dir_interactive]
    (build.py), to build or to reconfigure, is a configured workspace
    [build/<type>/<platform>] of the checkout, and the build type returned
    with it is the one read from its path; the files are as before. *)
Theorem selected_workspace_configured (root : Path) (w w' : World) (d : Path) (b : bool)
  (t : option string) :
  Build.select_build_dir_interactive root w = (Ret (Some (Some d, b, t)), w') ->
  Build.is_configured_in (fs w') d = true
  /\ parent (parent d) = root // "build"
  /\ t = Some (Build.detect_build_type_from_dir d)
  /\ fs w' = fs w.
Proof.
  intros H. pose proof (select_build_dir_same_log _ _ _ _ H) as (_ & Hfs & _).
  rewrite Hfs. unfold Build.select_build_dir_interactive in H.
  destruct (Build.find_all_configured_build_dirs_in (fs w) root) as [|d0 dirs] eqn:E;
    [discriminate H|].
  destruct (Build.select_loop (d0 :: dirs) (stdin w)) as [res rest] eqn:El.
  injection H as -> _.
  apply (select_loop_in _ _ _ _ _ _ _ (le_n _)) in El as (Hin & Ht).
  rewrite <- E in Hin.
  apply (Permutation_in _ (find_all_perm (fs w) root)) in Hin.
  destruct (exists_ (fs w) (root // "build")); [|destruct Hin].
  apply configured_dirs_spec in Hin as (Hc & _ & Hp). auto.
Qed.

Section NoPrompt.

Global Instance same_stdin_preorder : PreOrder same_stdin.
Proof. split; unfold same_stdin; [intros w; reflexivity|intros a b c; congruence]. Qed.

Lemma respects_bind_with {A B} (R : relation World) `{!PreOrder R} (Q : A -> Prop)
  (m : M A) (k : A -> M B) :
  respects R m -> (forall w a w', m w = (Ret a, w') -> Q a) ->
  (forall a, Q a -> respects R (k a)) -> respects R (bind m k).
Proof.
  intros Hm HQ Hk w r w' H. apply bind_inv in H as [(a & w1 & E1 & E2)|(e & E & _)].
  - transitivity w1; [exact (Hm _ _ _ E1)|exact (Hk a (HQ _ _ _ E1) _ _ _ E2)].
  - exact (Hm _ _ _ E).
Qed.

Lemma spawn_same_stdin (h : Host) (j : role) (cmd : Cmd) (env : option (gmap string string)) :
  respects same_stdin (spawn h j cmd env).
Proof. intros w r w' H. injection H as _ <-. reflexivity. Qed.

Lemma environ_set_same_stdin (h : Host) (k v : string) :
  respects same_stdin (environ_set h k v).
Proof. intros w r w' H. injection H as _ <-. reflexivity. Qed.

Lemma import_environment_same_stdin (h : Host) (out : string) :
  respects same_stdin (Configure.import_environment h out).
Proof. intros w r w' H. injection H as _ <-. reflexivity. Qed.

Lemma do_mkdir_same_stdin (p : Path) : respects same_stdin (do_mkdir p).
Proof. intros w r w' H. injection H as _ <-. reflexivity. Qed.

Lemma do_rmtree_same_stdin (p : Path) : respects same_stdin (do_rmtree p).
Proof. intros w r w' H. injection H as _ <-. reflexivity. Qed.

Hint Resolve spawn_same_stdin environ_set_same_stdin import_environment_same_stdin
  do_mkdir_same_stdin do_rmtree_same_stdin : frames.

Variable h : Host.

Ltac silent := cbn [negb]; cbv iota; respects_go ltac:(solve [eauto with frames]).

Lemma try_clang_cl_dir_silent (dir : Path) :
  respects same_stdin (Configure.try_clang_cl_dir h dir).
Proof. unfold Configure.try_clang_cl_dir. silent. Qed.
Hint Resolve try_clang_cl_dir_silent : frames.

Lemma setup_clang_cl_path_silent (c : Configure.BuildConfig) :
  respects same_stdin (Configure._setup_clang_cl_path h c).
Proof. unfold Configure._setup_clang_cl_path. silent. Qed.
Hint Resolve setup_clang_cl_path_silent : frames.

Lemma detect_msvc_silent (c : Configure.BuildConfig) :
  respects same_stdin (Configure.detect_msvc h c).
Proof. unfold Configure.detect_msvc. silent. Qed.
Hint Resolve detect_msvc_silent : frames.

Lemma detect_gcc_silent : respects same_stdin (Configure.detect_gcc h).
Proof. unfold Configure.detect_gcc. silent. Qed.
Hint Resolve detect_gcc_silent : frames.

Lemma have_clang_pair_silent : respects same_stdin (Configure.have_clang_pair h).
Proof. unfold Configure.have_clang_pair. silent. Qed.
Hint Resolve have_clang_pair_silent : frames.

Lemma detect_clang_silent (c : Configure.BuildConfig) :
  respects same_stdin (Configure.detect_clang h c).
Proof. unfold Configure.detect_clang. silent. Qed.
Hint Resolve detect_clang_silent : frames.

Lemma validate_compiler_silent (c : Configure.BuildConfig) :
  respects same_stdin (Configure.validate_compiler h c).
Proof. unfold Configure.validate_compiler. silent. Qed.

Lemma autodetect_compiler_silent (c : Configure.BuildConfig) :
  respects same_stdin (Configure.autodetect_compiler h c).
Proof. unfold Configure.autodetect_compiler. silent. Qed.

Lemma detect_ninja_silent : respects same_stdin (Configure.detect_ninja h).
Proof. unfold Configure.detect_ninja. silent. Qed.

Lemma detect_make_silent : respects same_stdin (Configure.detect_make h).
Proof. unfold Configure.detect_make. silent. Qed.

Lemma detect_msbuild_silent (c : Configure.BuildConfig) :
  respects same_stdin (Configure.detect_msbuild h c).
Proof. unfold Configure.detect_msbuild. silent. Qed.

Lemma msvc_tool_visible_silent (c : Configure.BuildConfig) :
  respects same_stdin (Configure.msvc_tool_visible h c).
Proof. unfold Configure.msvc_tool_visible. silent. Qed.

Hint Resolve validate_compiler_silent autodetect_compiler_silent detect_ninja_silent
  detect_make_silent detect_msbuild_silent msvc_tool_visible_silent : frames.

Lemma setup_msvc_environment_silent (c : Configure.BuildConfig) :
  respects same_stdin (Configure.setup_msvc_environment h c).
Proof. unfold Configure.setup_msvc_environment. silent. Qed.

Lemma find_conan_toolchain_silent (c : Configure.BuildConfig) :
  respects same_stdin (Configure.find_conan_toolchain c).
Proof. unfold Configure.find_conan_toolchain. silent. Qed.

Lemma configure_env_silent (c : Configure.BuildConfig) :
  respects same_stdin (Configure.configure_env h c).
Proof. unfold Configure.configure_env. silent. Qed.

Hint Resolve setup_msvc_environment_silent find_conan_toolchain_silent configure_env_silent
  : frames.

(** Without [interactive], nothing asks. *)
Section Batch.

Variable c : Configure.BuildConfig.
Hypothesis batch : Configure.interactive c = false.

Lemma setup_compiler_silent : respects same_stdin (Configure.setup_compiler h c).
Proof.
  unfold Configure.setup_compiler.
  destruct (truthy (Configure.compiler c)); [apply validate_compiler_silent|].
  apply respects_bind; [exact _|apply respects_read_cmake_cache; exact _|].
  intros cache.
  destruct (cache !! "CMAKE_CXX_COMPILER") as [cxx|] eqn:Ec.
  - destruct (Configure.compiler_of_cache h cxx) as [[comp drv]|].
    + rewrite Ec. apply respects_ret. exact _.
    + rewrite lookup_empty, batch. apply autodetect_compiler_silent.
  - rewrite Ec, batch. apply autodetect_compiler_silent.
Qed.

Lemma setup_build_system_silent : respects same_stdin (Configure.setup_build_system h c).
Proof. unfold Configure.setup_build_system. rewrite batch. silent. Qed.

Lemma ask_use_conan_silent : respects same_stdin (Configure.ask_use_conan c).
Proof. unfold Configure.ask_use_conan. rewrite batch. silent. Qed.

Lemma setup_conan_silent : respects same_stdin (Configure.setup_conan h c).
Proof.
  unfold Configure.setup_conan. cbv zeta.
  change (Configure.interactive (Configure.set_use_conan (Some true) c))
    with (Configure.interactive c).
  rewrite batch.
  respects_go ltac:(first [ apply ask_use_conan_silent | solve [eauto with frames] ]).
Qed.

Lemma generator_check_silent (lines : list string) :
  respects same_stdin (Configure.generator_check c lines).
Proof.
  induction lines as [|line rest IH]; cbn [Configure.generator_check]; [silent|].
  rewrite batch. respects_go ltac:(first [ exact IH | solve [eauto with frames] ]).
Qed.

End Batch.

Lemma generator_check_keeps (c c' : Configure.BuildConfig) (lines : list string) (w w' : World) :
  Configure.interactive c = false ->
  Configure.generator_check c lines w = (Ret c', w') -> c' = c.
Proof.
  intros Hc. revert w. induction lines as [|line rest IH]; intros w H;
    cbn [Configure.generator_check] in H.
  - now injection H as <- _.
  - rewrite Hc in H.
    destruct (startswith _ line); [|now apply IH in H].
    destruct (negb _); [now injection H as <- _|now apply IH in H].
Qed.

Lemma configure_silent (c : Configure.BuildConfig) :
  Configure.interactive c = false -> respects same_stdin (Configure.configure h c).
Proof.
  intros Hc. unfold Configure.configure.
  destruct (Configure.use_conan c) as [[]|]; [destruct (Configure.conan_toolchain c)| |].
  1: silent.
  all: cbv zeta; apply respects_bind; [exact _|silent|intros _];
    apply respects_bind; [exact _|silent|intros w0];
    apply (respects_bind_with same_stdin (fun c' => c' = c));
    [ destruct (read_text _ _); [now apply generator_check_silent|silent]
    | intros w1 c' w2 H; destruct (read_text _ _);
      [now apply generator_check_keeps in H|now injection H as <- _]
    | intros c' ->; silent ].
Qed.

Lemma validate_compiler_keeps (c c' : Configure.BuildConfig) (w w' : World) (b : bool) :
  Configure.validate_compiler h c w = (Ret (b, c'), w') ->
  Configure.interactive c' = Configure.interactive c.
Proof. unfold Configure.validate_compiler. intros H. steps; reflexivity. Qed.

Lemma autodetect_compiler_keeps (c c' : Configure.BuildConfig) (w w' : World) (b : bool) :
  Configure.autodetect_compiler h c w = (Ret (b, c'), w') ->
  Configure.interactive c' = Configure.interactive c.
Proof. unfold Configure.autodetect_compiler. intros H. steps; reflexivity. Qed.

Lemma select_compiler_interactive_keeps (c c' : Configure.BuildConfig) (w w' : World)
  (b : bool) :
  Configure.select_compiler_interactive h c w = (Ret (b, c'), w') ->
  Configure.interactive c' = Configure.interactive c.
Proof. unfold Configure.select_compiler_interactive. intros H. steps; reflexivity. Qed.

Lemma setup_compiler_keeps (c c' : Configure.BuildConfig) (w w' : World) (b : bool) :
  Configure.setup_compiler h c w = (Ret (b, c'), w') ->
  Configure.interactive c' = Configure.interactive c.
Proof.
  unfold Configure.setup_compiler. intros H.
  destruct (truthy (Configure.compiler c)).
  { now apply validate_compiler_keeps in H. }
  apply bind_ret_inv in H as (cache & w1 & E & H).
  unfold Configure.read_cmake_cache in E. injection E as <- <-.
  destruct (Configure.read_cmake_cache_in (fs w) (Configure.get_build_dir c)
              !! "CMAKE_CXX_COMPILER") as [cxx|] eqn:Ec.
  - destruct (Configure.compiler_of_cache h cxx) as [[comp drv]|] eqn:Ep.
    + rewrite Ec in H. unfold ret in H. now injection H as _ <- _.
    + rewrite lookup_empty in H. destruct (Configure.interactive c) eqn:Ei.
      * apply select_compiler_interactive_keeps in H. congruence.
      * apply autodetect_compiler_keeps in H. congruence.
  - rewrite Ec in H. destruct (Configure.interactive c) eqn:Ei.
    + apply select_compiler_interactive_keeps in H. congruence.
    + apply autodetect_compiler_keeps in H. congruence.
Qed.

Lemma select_build_system_interactive_keeps (c c' : Configure.BuildConfig) (w w' : World)
  (b : bool) :
  Configure.select_build_system_interactive h c w = (Ret (b, c'), w') ->
  Configure.interactive c' = Configure.interactive c.
Proof. unfold Configure.select_build_system_interactive. intros H. steps; reflexivity. Qed.

Lemma setup_build_system_keeps (c c' : Configure.BuildConfig) (w w' : World) (b : bool) :
  Configure.setup_build_system h c w = (Ret (b, c'), w') ->
  Configure.interactive c' = Configure.interactive c.
Proof.
  unfold Configure.setup_build_system. intros H. cbv zeta in H.
  destruct (truthy (Configure.build_system c)).
  - steps; reflexivity.
  - destruct (Configure.interactive c) eqn:Ei.
    + apply select_build_system_interactive_keeps in H. congruence.
    + steps; assumption.
Qed.

Lemma setup_conan_keeps (c c' : Configure.BuildConfig) (w w' : World) (b : bool) :
  Configure.setup_conan h c w = (Ret (b, c'), w') ->
  Configure.interactive c' = Configure.interactive c.
Proof. unfold Configure.setup_conan. intros H. cbv zeta in H. steps; reflexivity. Qed.

Lemma bootstrap_and_configure_silent (c : Configure.BuildConfig) :
  Configure.interactive c = false ->
  respects same_stdin (Configure.bootstrap_and_configure h c).
Proof.
  intros Hc. unfold Configure.bootstrap_and_configure.
  apply respects_bind; [exact _|apply setup_msvc_environment_silent|intros ok].
  destruct (_ && _)%bool; [apply respects_ret; exact _|].
  apply (respects_bind_with same_stdin (fun r => Configure.interactive (snd r) = false)).
  - now apply setup_conan_silent.
  - intros w [b c'] w' H. cbn [snd]. apply setup_conan_keeps in H. congruence.
  - intros [b c'] Hc'. cbn [snd] in Hc'. destruct (negb b); [apply respects_ret; exact _|].
    apply respects_bind; [exact _|now apply configure_silent|intros [b' c'']].
    destruct (negb b'); apply respects_ret; exact _.
Qed.

Lemma apply_args_interactive (args : Configure.Args) :
  Configure.interactive (Configure.apply_args h args)
  = negb (Configure.arg_no_interactive args).
Proof.
  unfold Configure.apply_args. cbv zeta.
  repeat match goal with |- context [if ?b then _ else _] => destruct b end; reflexivity.
Qed.

Lemma main_with_config_silent (args : Configure.Args) :
  Configure.arg_no_interactive args = true ->
  respects same_stdin (Configure.main_with_config h args).
Proof.
  intros Hn. pose proof (apply_args_interactive args) as Hi. rewrite Hn in Hi. cbn [negb] in Hi.
  unfold Configure.main_with_config. cbv zeta. rewrite Hi.
  apply respects_bind; [exact _|apply respects_check_command; exact _|intros cmake].
  destruct (negb cmake); [apply respects_ret; exact _|].
  match goal with
  | |- respects _ (bind (Configure.setup_compiler _ ?c0) _) =>
      assert (Hc : Configure.interactive c0 = false)
        by (repeat match goal with |- context [match ?x with _ => _ end] => destruct x end;
            exact Hi);
      generalize dependent c0
  end.
  intros c0 Hc.
  apply (respects_bind_with same_stdin (fun r => Configure.interactive (snd r) = false)).
  - now apply setup_compiler_silent.
  - intros w [b c'] w' H. cbn [snd]. apply setup_compiler_keeps in H. congruence.
  - intros [b c1] Hc1. cbn [snd] in Hc1. destruct (negb b); [apply respects_ret; exact _|].
    apply (respects_bind_with same_stdin (fun r => Configure.interactive (snd r) = false)).
    + now apply setup_build_system_silent.
    + intros w [b' c'] w' H. cbn [snd]. apply setup_build_system_keeps in H. congruence.
    + intros [b2 c2] Hc2. cbn [snd] in Hc2. destruct (negb b2); [apply respects_ret; exact _|].
      now apply bootstrap_and_configure_silent.
Qed.

Lemma build_setup_msvc_environment_silent :
  respects same_stdin (Build.setup_msvc_environment h).
Proof. unfold Build.setup_msvc_environment. silent. Qed.
Hint Resolve build_setup_msvc_environment_silent : frames.

Lemma build_project_silent (dir : Path) (bt : string) (jobs : Z) :
  respects same_stdin (Build.build_project h dir bt jobs).
Proof. unfold Build.build_project. silent. Qed.
Hint Resolve build_project_silent : frames.

Lemma build_and_lint_silent (args : Build.Args) (sd dir : Path) (bt : string) :
  respects same_stdin (Build.build_and_lint h args sd dir bt).
Proof. unfold Build.build_and_lint. silent. Qed.

Lemma run_configure_silent (args : Build.Args) (sd root : Path) (existing : option Path) :
  respects same_stdin (Build.run_configure h args sd root existing).
Proof. unfold Build.run_configure. silent. Qed.
Hint Resolve run_configure_silent : frames.

Lemma configure_step_silent (args : Build.Args) (sd root : Path) (existing : option Path) :
  respects same_stdin (Build.configure_step h args sd root existing).
Proof. unfold Build.configure_step. silent. Qed.

Lemma format_step_silent (args : Build.Args) : respects same_stdin (Build.format_step h args).
Proof. unfold Build.format_step. silent. Qed.

Lemma choose_build_dir_silent (args : Build.Args) (root : Path) :
  Build.arg_no_interactive args = true ->
  respects same_stdin (Build.choose_build_dir h args root).
Proof.
  intros Hn. unfold Build.choose_build_dir. rewrite Hn. cbn [negb]. rewrite andb_false_r.
  silent.
Qed.

Hint Resolve build_and_lint_silent configure_step_silent format_step_silent : frames.

Lemma build_main_silent (args : Build.Args) :
  Build.arg_no_interactive args = true -> respects same_stdin (Build.main h args).
Proof.
  intros Hn. unfold Build.main.
  respects_go ltac:(first [ now apply choose_build_dir_silent | solve [eauto with frames] ]).
Qed.

End NoPrompt.

(** X13. With [--no-interactive], configure.py never reads from the
    console: whatever the run does and however it ends, the pending console
    input is the one it started with. *)
Theorem configure_never_prompts (h : Host) (args : Configure.Args) (w w' : World)
  (r : outcome Z) :
  Configure.arg_no_interactive args = true ->
  Configure.main h args w = (r, w') ->
  stdin w' = stdin w.
Proof.
  intros Hn H. unfold Configure.main in H.
  assert (G : respects same_stdin (Configure.main h args)).
  { unfold Configure.main. apply respects_bind; [exact _| |intros [code c]].
    - now apply main_with_config_silent.
    - apply respects_ret. exact _. }
  exact (G w r w' H).
Qed.

Lemma configure_never_prompts_witness :
  stdin (snd (Configure.main Sample.host Sample.configure_defaults
                (Sample.world Sample.checkout [Line "y"])))
  = stdin (Sample.world Sample.checkout [Line "y"]).
Proof.
  apply (configure_never_prompts Sample.host Sample.configure_defaults
           (Sample.world Sample.checkout [Line "y"]) _
           (fst (Configure.main Sample.host Sample.configure_defaults
                   (Sample.world Sample.checkout [Line "y"])))).
  - reflexivity.
  - apply surjective_pairing.
Defined.

(** X14. With [--no-interactive], build.py never reads from the console
    either: the workspace selection is skipped, and the pending console
    input is the one the run started with, however it ends. *)
Theorem build_never_prompts (h : Host) (args : Build.Args) (w w' : World) (r : outcome Z) :
  Build.arg_no_interactive args = true ->
  Build.main h args w = (r, w') ->
  stdin w' = stdin w.
Proof. intros Hn H. exact (build_main_silent h args Hn w r w' H). Qed.

Lemma build_never_prompts_witness :
  stdin (snd (Build.main Sample.host Sample.build_and_lint_args
                (Sample.world Sample.configured [Line "1"])))
  = stdin (Sample.world Sample.configured [Line "1"]).
Proof.
  apply (build_never_prompts Sample.host Sample.build_and_lint_args
           (Sample.world Sample.configured [Line "1"]) _
           (fst (Build.main Sample.host Sample.build_and_lint_args
                   (Sample.world Sample.configured [Line "1"])))).
  - reflexivity.
  - apply surjective_pairing.
Defined.

Lemma selected_workspace_configured_witness :
  Build.is_configured_in (fs (Sample.world Sample.configured []))
    (Sample.repo // "build" // "release" // "linux") = true
  /\ parent (parent (Sample.repo // "build" // "release" // "linux")) = Sample.repo // "build"
  /\ Some "Release"
     = Some (Build.detect_build_type_from_dir (Sample.repo // "build" // "release" // "linux"))
  /\ fs (Sample.world Sample.configured []) = fs (Sample.world Sample.configured [Line "1"]).
Proof.
  assert (E : Build.select_build_dir_interactive Sample.repo
                (Sample.world Sample.configured [Line "1"])
              = (Ret (Some (Some (Sample.repo // "build" // "release" // "linux"), false,
                            Some "Release")),
                 Sample.world Sample.configured [])) by (vm_compute; reflexivity).
  exact (selected_workspace_configured _ _ _ _ _ _ E).
Defined.

Section BuildFlow.

Variable h : Host.

Lemma choose_build_dir_forced (args : Build.Args) (root : Path) (w : World) :
  Build.has_config_args args = true ->
  Build.choose_build_dir h args root w
  = (Ret (Some (args, None, true,
                if truthy (Build.arg_type args) then default "" (Build.arg_type args)
                else "Release")), w).
Proof.
  intros Hc. unfold Build.choose_build_dir. rewrite Hc. cbn [negb andb]. cbv zeta.
  unfold bind, Build.find_configured_build_dir, ret. rewrite orb_true_r. reflexivity.
Qed.

Lemma choose_build_dir_keeps (args a : Build.Args) (root : Path) (w w' : World)
  (d : option Path) (n : bool) (bt : string) :
  Build.choose_build_dir h args root w = (Ret (Some (a, d, n, bt)), w') ->
  Build.arg_skip_configure a = Build.arg_skip_configure args.
Proof.
  unfold Build.choose_build_dir. intros H. cbv zeta in H. steps; reflexivity.
Qed.

Lemma build_and_lint_jobs (args : Build.Args) (sd dir : Path) (bt : string) (w w' : World)
  (code : Z) :
  Build.build_and_lint h args sd dir bt w = (Ret code, w') ->
  grows (fun e => job_of e <> ConfigurePy) w w'.
Proof.
  unfold Build.build_and_lint. intros H. cbv zeta in H. steps.
  all: match goal with
       | E : Build.build_project _ _ _ _ _ = (Ret ?b, _) |- _ =>
           apply build_project_log in E as ((l & El & Fl) & _)
       end.
  all: assert (Fl' : Forall (fun e => job_of e <> ConfigurePy) l)
         by (eapply Forall_impl; [exact Fl|]; intros e [[He|[He|He]]|[He _]];
             rewrite He; discriminate).
  all: unfold grows; log_chain; eexists;
       (split; [first [reflexivity | symmetry; apply app_nil_r]|]); forall_split.
  all: first [exact Fl' | discriminate].
Qed.

End BuildFlow.

(** X15. Configuration options on the command line of build.py
    ([--type], [--compiler], [--build-system], [--core-only], the test,
    example and Conan switches, [--clean]) always lead to a run of
    configure.py before anything is built: without formatting and without
    [--skip-configure], the first subprocess is configure.py with exactly
    the options given (the cache of an existing workspace is not consulted),
    and when it fails the run ends with exit code 1 and nothing else is
    started; when configure.py is missing the run ends with 1 at once. *)
Theorem config_options_reconfigure (h : Host) (args : Build.Args) (w w' : World) (code : Z) :
  Build.has_config_args args = true ->
  Build.arg_skip_configure args = false ->
  Build.arg_format args = false ->
  Build.main h args w = (Ret code, w') ->
  if exists_ (fs w) (scripts_dir h // "configure.py") then
    exists rc rest,
      spawned w' = spawned w
                   ++ (ConfigurePy,
                       Argv ([executable h;
                              str_of (windows h) (scripts_dir h // "configure.py")]
                             ++ Build.explicit_options args), rc) :: rest
      /\ (rc <> 0 -> code = 1 /\ rest = [])
  else code = 1 /\ w' = w.
Proof.
  intros Hc Hs Hf H. unfold Build.main in H. cbv zeta in H.
  unfold Build.format_step in H. rewrite Hf in H.
  unfold bind at 1, ret at 1 in H. cbn [negb] in H.
  unfold bind at 1 in H. rewrite (choose_build_dir_forced h args _ w Hc) in H.
  rewrite Hs in H. cbn [negb andb] in H.
  unfold Build.configure_step, Build.run_configure in H. cbv zeta in H.
  apply bind_ret_inv in H as (conf & w1 & E & H).
  apply bind_ret_inv in E as ([ok nd] & w2 & E & E').
  apply bind_ret_inv in E as (there & w3 & Et & E).
  unfold path_exists in Et. injection Et as <- <-.
  destruct (exists_ (fs w) (scripts_dir h // "configure.py")); cbn [negb] in E.
  - apply bind_ret_inv in E as (w0 & w4 & Eg & E). unfold get in Eg. injection Eg as <- <-.
    apply bind_ret_inv in E as (res & w5 & Esp & E).
    apply spawn_inv in Esp as (Hlog & _).
    exists (returncode res).
    destruct (Z.eqb_spec (returncode res) 0) as [Hz|Hnz].
    + apply bind_ret_inv in E as (bd & w6 & Ef & E).
      unfold Build.find_configured_build_dir in Ef. injection Ef as <- <-.
      unfold ret in E. injection E as <- <- <-. cbn [negb] in E'.
      assert (G : exists rest, spawned w' = spawned w5 ++ rest).
      { destruct (Build.find_configured_build_dir_in (fs w5) (parent (scripts_dir h)))
          as [d|] eqn:Ed.
        - unfold ret in E'. injection E' as <- <-.
          apply build_and_lint_jobs in H as (l & El & _). now exists l.
        - unfold Build.find_configured_build_dir in E'. rewrite Ed in E'.
          injection E' as <- <-. unfold ret in H. injection H as _ <-.
          exists []. now rewrite app_nil_r. }
      destruct G as (rest & Hrest). exists rest. split; [|intros Hne; now destruct Hne].
      rewrite Hrest, Hlog, <- app_assoc. reflexivity.
    + unfold ret in E. injection E as <- <- <-. cbn [negb] in E'.
      unfold ret in E'. injection E' as <- <-. unfold ret in H. injection H as <- <-.
      exists []. split; [exact Hlog|]. intros _. split; reflexivity.
  - unfold ret in E. injection E as <- <- <-. cbn [negb] in E'.
    unfold ret in E'. injection E' as <- <-. unfold ret in H. injection H as <- <-.
    split; reflexivity.
Qed.

Lemma config_options_reconfigure_witness :
  exists rc rest,
    spawned (snd (Build.main (Sample.linux Sample.tools (Sample.only_fails "configure.py"))
                    (Build.set_arg_type (Some "Debug") Sample.build_and_lint_args)
                    (Sample.world Sample.configured [])))
    = spawned (Sample.world Sample.configured [])
      ++ (ConfigurePy,
          Argv ([executable (Sample.linux Sample.tools (Sample.only_fails "configure.py"));
                 str_of (windows (Sample.linux Sample.tools (Sample.only_fails "configure.py")))
                   (scripts_dir (Sample.linux Sample.tools (Sample.only_fails "configure.py"))
                    // "configure.py")]
                ++ Build.explicit_options
                     (Build.set_arg_type (Some "Debug") Sample.build_and_lint_args)), rc)
         :: rest
    /\ (rc <> 0 -> 1 = 1 /\ rest = []).
Proof.
  assert (E : Build.main (Sample.linux Sample.tools (Sample.only_fails "configure.py"))
                (Build.set_arg_type (Some "Debug") Sample.build_and_lint_args)
                (Sample.world Sample.configured [])
              = (Ret 1, snd (Build.main (Sample.linux Sample.tools
                                           (Sample.only_fails "configure.py"))
                               (Build.set_arg_type (Some "Debug") Sample.build_and_lint_args)
                               (Sample.world Sample.configured []))))
    by (vm_compute; reflexivity).
  exact (config_options_reconfigure
           (Sample.linux Sample.tools (Sample.only_fails "configure.py"))
           (Build.set_arg_type (Some "Debug") Sample.build_and_lint_args)
           (Sample.world Sample.configured []) _ 1 eq_refl eq_refl eq_refl E).
Defined.

(** X16. With [--skip-configure], build.py never starts configure.py:
    whatever the command line, the console input and the state of the build
    tree, no subprocess of a run that returns from [main] is configure.py. *)
Theorem skip_configure_never_configures (h : Host) (args : Build.Args) (w w' : World)
  (code : Z) :
  Build.arg_skip_configure args = true ->
  Build.main h args w = (Ret code, w') ->
  exists l, spawned w' = spawned w ++ l /\ Forall (fun e => job_of e <> ConfigurePy) l.
Proof.
  intros Hs H. unfold Build.main in H. cbv zeta in H. steps.
  all: try match goal with
       | E : Build.choose_build_dir _ _ _ _ = (Ret (Some (?a, _, _, _)), _) |- _ =>
           pose proof (choose_build_dir_keeps _ _ _ _ _ _ _ _ _ E) as Hk; rewrite Hs in Hk
       end.
  all: try match goal with
       | E : (negb (Build.arg_skip_configure ?a) && _)%bool = true,
         Hk : Build.arg_skip_configure ?a = true |- _ =>
           rewrite Hk in E; discriminate E
       | E : Build.arg_skip_configure ?a = false,
         Hk : Build.arg_skip_configure ?a = true |- _ => congruence
       end.
  all: try match goal with
       | E : Build.build_and_lint _ _ _ _ _ _ = (Ret _, _) |- _ =>
           apply build_and_lint_jobs in E as (lb & Elb & Flb)
       end.
  all: match goal with
       | E : Build.format_step _ _ _ = (Ret ?b, _) |- _ =>
           pose proof (format_step_log _ _ _ _ _ E) as (lf & Elf & Flf)
       end.
  all: assert (Flf' : Forall (fun e => job_of e <> ConfigurePy) lf)
         by (eapply Forall_impl; [exact Flf|]; intros e [He _]; rewrite He; discriminate).
  all: try match goal with
       | E : Build.choose_build_dir _ _ _ _ = _ |- _ =>
           pose proof (choose_build_dir_same_log _ _ _ _ _ _ E) as Ech
       end.
  all: log_chain; eexists;
       (split; [first [reflexivity | symmetry; apply app_nil_r]|]); forall_split.
  all: first [exact Flf' | exact Flb].
Qed.

Lemma skip_configure_never_configures_witness :
  exists l,
    spawned (snd (Build.main Sample.host
                    (Build.mkArgs None None None None false None None None 8 false true true
                       false false "")
                    (Sample.world Sample.checkout [])))
    = spawned (Sample.world Sample.checkout []) ++ l
    /\ Forall (fun e => job_of e <> ConfigurePy) l.
Proof.
  assert (E : Build.main Sample.host
                (Build.mkArgs None None None None false None None None 8 false true true
                   false false "")
                (Sample.world Sample.checkout [])
              = (Ret 1, snd (Build.main Sample.host
                               (Build.mkArgs None None None None false None None None 8 false
                                  true true false false "")
                               (Sample.world Sample.checkout []))))
    by (vm_compute; reflexivity).
  exact (skip_configure_never_configures Sample.host
           (Build.mkArgs None None None None false None None None 8 false true true
              false false "")
           (Sample.world Sample.checkout []) _ 1 eq_refl E).
Defined.

Section Parsing.

Lemma contains_char_cons (c a : ascii) (r : string) :
  contains (String c "") (String a r) = (Ascii.eqb c a || contains (String c "") r)%bool.
Proof. cbn [contains startswith]. now rewrite andb_true_r. Qed.

Lemma append_cons (a : ascii) (s t : string) : String a s +:+ t = String a (s +:+ t).
Proof. reflexivity. Qed.

Lemma append_nil (t : string) : "" +:+ t = t.
Proof. reflexivity. Qed.

Lemma contains_char_app (c : ascii) (s t : string) :
  contains (String c "") (s +:+ t)
  = (contains (String c "") s || contains (String c "") t)%bool.
Proof.
  induction s as [|a s IH].
  - rewrite append_nil. destruct t; reflexivity.
  - rewrite append_cons, !contains_char_cons, IH. now rewrite orb_assoc.
Qed.

Lemma partition_app (c : ascii) (k v : string) :
  contains (String c "") k = false -> partition c (k +:+ String c v) = Some (k, v).
Proof.
  induction k as [|a k IH]; intros H.
  - rewrite append_nil. cbn [partition]. now rewrite Ascii.eqb_refl.
  - rewrite contains_char_cons in H. apply orb_false_elim in H as (Ha & Hk).
    rewrite append_cons. cbn [partition]. rewrite Ascii.eqb_sym, Ha. now rewrite (IH Hk).
Qed.

Lemma unrecognised_answer (r : string) :
  among r [""; "y"; "yes"; "n"; "no"] = false ->
  String.eqb r "" = false /\ among r ["y"; "yes"] = false /\ among r ["n"; "no"] = false.
Proof.
  unfold among. cbn [existsb]. intros H.
  repeat match type of H with (_ || _)%bool = false => apply orb_false_elim in H as (? & H) end.
  repeat split; try assumption; cbn [orb];
    repeat match goal with E : _ = false |- _ => rewrite E; clear E end; reflexivity.
Qed.

End Parsing.

(** X17. One entry line of CMakeCache.txt as [read_cmake_cache] reads it
    ([cache_line] is the body of its loop): a line [NAME:TYPE=VALUE] without
    surrounding white space that is no comment, whose NAME has neither colon
    nor equals sign and whose TYPE has no equals sign, sets [cache[NAME]] to
    VALUE, whatever VALUE is (it may contain [=] and [:]). *)
Theorem cache_line_entry (cache : gmap string string) (name ty value : string) :
  let line := name +:+ ":" +:+ ty +:+ "=" +:+ value in
  strip line = line ->
  startswith "#" line = false -> startswith "//" line = false ->
  contains ":" name = false -> contains "=" name = false -> contains "=" ty = false ->
  Configure.cache_line cache line = <[name := value]> cache.
Proof.
  cbv zeta. intros Hs Hh Hc Hn1 Hn2 Ht. unfold Configure.cache_line. rewrite Hs, Hh, Hc.
  assert (Hne : String.eqb (name +:+ ":" +:+ ty +:+ "=" +:+ value) "" = false).
  { destruct name; reflexivity. }
  rewrite Hne. cbn [orb].
  assert (Hcolon : contains ":" (name +:+ ":" +:+ ty +:+ "=" +:+ value) = true).
  { rewrite contains_char_app. apply orb_true_iff. right.
    change (":" +:+ ty +:+ "=" +:+ value) with (String ":" (ty +:+ "=" +:+ value)).
    rewrite contains_char_cons. reflexivity. }
  assert (Hline : name +:+ ":" +:+ ty +:+ "=" +:+ value
                  = (name +:+ ":" +:+ ty) +:+ String "=" value).
  { clear. induction name as [|a n IH].
    - rewrite !append_nil. change (":" +:+ ty +:+ "=" +:+ value)
        with (String ":" (ty +:+ String "=" value)).
      change (":" +:+ ty) with (String ":" ty). now rewrite append_cons.
    - rewrite !append_cons. now f_equal. }
  assert (Hkey : contains "=" (name +:+ ":" +:+ ty) = false).
  { rewrite contains_char_app, Hn2. cbn [orb].
    change (":" +:+ ty) with (String ":" ty). rewrite contains_char_cons, Ht. reflexivity. }
  assert (Heq : contains "=" (name +:+ ":" +:+ ty +:+ "=" +:+ value) = true).
  { rewrite Hline, contains_char_app. apply orb_true_iff. right.
    rewrite contains_char_cons. reflexivity. }
  rewrite Heq, Hcolon. cbn [andb]. rewrite Hline, (partition_app "=" _ value Hkey).
  unfold before. change (":" +:+ ty) with (String ":" ty).
  now rewrite (partition_app ":" name ty Hn1).
Qed.

Lemma cache_line_entry_witness :
  Configure.cache_line ∅ "CMAKE_CXX_FLAGS:STRING=-DMODE=fast"
  = <["CMAKE_CXX_FLAGS" := "-DMODE=fast"]> ∅.
Proof.
  apply (cache_line_entry ∅ "CMAKE_CXX_FLAGS" "STRING" "-DMODE=fast"); reflexivity.
Defined.

(** X18. [ask_yes_no] (configure.py) asks again after every line it does
    not recognise (neither empty nor y, yes, n, no, in any case and with
    white space around), and the answer is that of the first line it
    recognises; when the input ends before such a line, the answer is
    [False], also where the default is [True]. *)
Theorem ask_yes_no_skips (default : bool) (pre : list string) (rest : list stdin_event) :
  Forall (fun s => among (lower (strip s)) [""; "y"; "yes"; "n"; "no"] = false) pre ->
  Configure.ask_yes_no_on default (List.map Line pre ++ rest)
  = Configure.ask_yes_no_on default rest
  /\ Configure.ask_yes_no_on default (List.map Line pre) = (false, []).
Proof.
  intros H. induction H as [|s pre Hs _ IH]; [split; reflexivity|].
  apply unrecognised_answer in Hs as (H1 & H2 & H3).
  cbn [List.map app Configure.ask_yes_no_on]. cbv zeta. rewrite H1, H2, H3. exact IH.
Qed.

Lemma ask_yes_no_skips_witness :
  Configure.ask_yes_no_on true (List.map Line ["maybe"; "ok"] ++ [Line " N "; Line "y"])
  = Configure.ask_yes_no_on true [Line " N "; Line "y"]
  /\ Configure.ask_yes_no_on true (List.map Line ["maybe"; "ok"]) = (false, []).
Proof.
  apply (ask_yes_no_skips true ["maybe"; "ok"] [Line " N "; Line "y"]).
  repeat constructor.
Defined.

(** X19. Importing the output of an environment script is idempotent:
    merging the same output a second time, into [os.environ]
    ([import_environment], configure.py) or into the environment of the
    build ([merge_lines], build.py), changes nothing more. *)
Theorem environment_merge_twice (h : Host) (out : string) (w : World)
  (env : gmap string string) :
  snd (Configure.import_environment h out (snd (Configure.import_environment h out w)))
  = snd (Configure.import_environment h out w)
  /\ merge_lines id (merge_lines id env out) out = merge_lines id env out.
Proof.
  assert (G : forall enc d, merge_lines enc (merge_lines enc d out) out = merge_lines enc d out).
  { intros enc d. apply map_eq. intros k. unfold merge_lines.
    rewrite !fold_merge_lookup. now destruct (last_value enc k (splitlines out)). }
  split; [|apply G].
  unfold Configure.import_environment, modify, with_environ. cbn [snd environ fs stdin spawned].
  now rewrite G.
Qed.

Section FormatPy.

Variable h : Host.
Variable env : gmap string string.

Lemma run_clang_format_inv (args : list string) (st st' : Format.State)
  (r : option ProcResult) :
  Format.run_clang_format h env args st = (r, st') ->
  (r = None /\ st' = st)
  \/ exists p, r = Some p
               /\ Format.started st'
                  = Format.started st ++ [("clang-format" :: args, returncode p)].
Proof.
  unfold Format.run_clang_format. destruct (which h env (Format.files st) "clang-format");
    intros H; injection H as <- <-; [right; eauto|left; auto].
Qed.

Lemma check_clang_format_inv (st st' : Format.State) (ok : bool) :
  Format.check_clang_format h env st = (ok, st') ->
  (ok = false /\ st' = st)
  \/ exists rc, Format.started st' = Format.started st ++ [(["clang-format"; "--version"], rc)]
                /\ (ok = true <-> rc = 0).
Proof.
  unfold Format.check_clang_format.
  destruct (Format.run_clang_format h env ["--version"] st) as [[p|] st1] eqn:E;
    intros H; injection H as <- <-;
    apply run_clang_format_inv in E as [(E & ->)|(p' & E & El)]; try discriminate.
  - injection E as <-. right. exists (returncode p). split; [exact El|]. apply Z.eqb_eq.
  - left. auto.
Qed.

Lemma format_files_inv (check_only : bool) (source_files : list Path) :
  forall (st st' : Format.State) (failed : list Path),
    Format.format_files h env check_only source_files st = (inr failed, st') ->
    exists l,
      Format.started st' = Format.started st ++ l
      /\ List.map fst l
         = List.map (fun f => "clang-format"
                              :: Format.format_args check_only (str_of (windows h) f))
             source_files
      /\ (failed = [] <-> Forall (fun e => snd e = 0) l).
Proof.
  induction source_files as [|f rest IH]; intros st st' failed H; cbn [Format.format_files] in H.
  - injection H as <- <-. exists []. rewrite app_nil_r. repeat split; auto.
  - unfold Format.format_file in H.
    destruct (Format.run_clang_format h env _ st) as [[p|] st1] eqn:E; [|discriminate H].
    apply run_clang_format_inv in E as [(E & _)|(p' & E & El)]; [discriminate E|].
    injection E as <-.
    destruct (Format.format_files h env check_only rest st1) as [[e|failed'] st2] eqn:E2;
      [discriminate H|].
    injection H as <- <-. destruct (IH _ _ _ E2) as (l & Hl & Hm & Hf).
    eexists (_ :: l). split; [rewrite Hl, El, <- app_assoc; reflexivity|].
    split; [cbn [List.map fst]; now rewrite Hm|].
    destruct (Z.eqb_spec (returncode p) 0) as [Hz|Hnz].
    + rewrite Hf. split.
      * intros Hall. constructor; [exact Hz|exact Hall].
      * intros Hall. now inversion Hall.
    + split; [discriminate|]. intros Hall. inversion Hall. contradiction.
Qed.

End FormatPy.

(** X20. The exit code of format.py, for a run that returns from [main]:
    every subprocess it started is clang-format; the exit code is 0 or 1,
    and it is 0 exactly when clang-format was started at least once and
    every run of it returned 0 (the version check and the run for each
    file). *)
Theorem format_exit_code (h : Host) (env : gmap string string) (args : Format.Args)
  (st st' : Format.State) (code : Z) :
  Format.main h env args st = (inr code, st') ->
  exists l,
    Format.started st' = Format.started st ++ l
    /\ Forall (fun e => exists a, fst e = "clang-format" :: a) l
    /\ (code = 0 \/ code = 1)
    /\ (code = 0 <-> l <> [] /\ Forall (fun e => snd e = 0) l).
Proof.
  unfold Format.main. intros H.
  destruct (Format.check_clang_format h env st) as [ok st1] eqn:Ec.
  apply check_clang_format_inv in Ec as [(-> & ->)|(rc & El & Hok)].
  { cbn [negb] in H. injection H as <- <-. exists []. rewrite app_nil_r.
    repeat split; auto; try discriminate. intros [Hn _]. now destruct Hn. }
  destruct ok; cbn [negb] in H.
  2:{ injection H as <- <-. eexists. split; [exact El|].
      split; [constructor; [eexists; reflexivity|constructor]|]. split; [auto|].
      split; [discriminate|]. intros [_ Hall]. inversion Hall as [|? ? Hrc _]. cbn [snd] in Hrc.
      apply Hok in Hrc. discriminate Hrc. }
  assert (Hrc : rc = 0) by now apply Hok. subst rc.
  destruct (Format.find_files h args (Format.files st1)) as [source_files assigned].
  destruct source_files as [|f fl].
  { destruct assigned; [|discriminate H]. injection H as <- <-. eexists. split; [exact El|].
    split; [constructor; [eexists; reflexivity|constructor]|]. split; [auto|].
    split; [|reflexivity]. intros _. split; [discriminate|]. constructor; [reflexivity|constructor]. }
  assert (G : exists failed b,
             Format.format_files h env b (f :: fl) st1 = (inr failed, st')
             /\ (code = 0 /\ failed = [] \/ code = 1 /\ failed <> [])).
  { destruct (Format.arg_check args);
      match type of H with
      | match ?x with _ => _ end = _ => destruct x as [[e|[|f' failed]] st2] eqn:E
      end; try discriminate H; injection H as <- <-; eexists; eexists; (split; [exact E|]);
      auto. all: right; split; [reflexivity|discriminate]. }
  destruct G as (failed & b & E & Hcode).
  apply format_files_inv in E as (l & Hl & Hm & Hf).
  exists ((["clang-format"; "--version"], 0) :: l).
  split; [rewrite Hl, El, <- app_assoc; reflexivity|]. split.
  { constructor; [eexists; reflexivity|].
    clear -Hm. revert Hm. generalize (f :: fl). induction l as [|e l IH]; intros fs Hm;
      [constructor|]. destruct fs as [|f0 fs]; [discriminate Hm|]. cbn [List.map] in Hm.
    injection Hm as He Hm. constructor; [eexists; exact He|]. eapply IH. exact Hm. }
  split; [destruct Hcode as [[-> _]|[-> _]]; auto|].
  split.
  - intros ->. destruct Hcode as [[_ Hn]|[Hn _]]; [|discriminate Hn].
    split; [discriminate|]. constructor; [reflexivity|now apply Hf].
  - intros [_ Hall]. inversion Hall as [|? ? _ Hall']. apply Hf in Hall'.
    destruct Hcode as [[-> _]|[_ Hn]]; [reflexivity|contradiction].
Qed.

Lemma format_exit_code_witness :
  exists l,
    Format.started (snd (Format.main (Sample.formatter "hpp") ∅ (Format.mkArgs true [])
                           (Format.mkState Sample.sources [])))
    = Format.started (Format.mkState Sample.sources []) ++ l
    /\ Forall (fun e => exists a, fst e = "clang-format" :: a) l
    /\ (1 = 0 \/ 1 = 1)
    /\ (1 = 0 <-> l <> [] /\ Forall (fun e => snd e = 0) l).
Proof.
  assert (E : Format.main (Sample.formatter "hpp") ∅ (Format.mkArgs true [])
                (Format.mkState Sample.sources [])
              = (inr 1, snd (Format.main (Sample.formatter "hpp") ∅ (Format.mkArgs true [])
                               (Format.mkState Sample.sources []))))
    by (vm_compute; reflexivity).
  exact (format_exit_code (Sample.formatter "hpp") ∅ (Format.mkArgs true [])
           (Format.mkState Sample.sources []) _ 1 E).
Defined.



(** X22. format.py with paths on its command line among which no source
    file is found (paths that do not exist, files with another extension,
    files and directories below third-party, directories without sources)
    does not return: once the version check has succeeded, [main] ends with
    [UnboundLocalError], raised by the warning for "no source files", which
    reads [source_dirs], a variable assigned only when no path is given. *)
Theorem format_paths_without_sources (h : Host) (env : gmap string string)
  (args : Format.Args) (st : Format.State) :
  Format.arg_paths args <> [] ->
  fst (Format.check_clang_format h env st) = true ->
  Format.explicit_files h (Format.files (snd (Format.check_clang_format h env st)))
    (parent (scripts_dir h)) Format.extensions [parent (scripts_dir h) // "third-party"]
    (Format.arg_paths args) = [] ->
  Format.main h env args st
  = (inl Format.UnboundLocalError, snd (Format.check_clang_format h env st)).
Proof.
  intros Hp Hok He. unfold Format.main.
  destruct (Format.check_clang_format h env st) as [ok st1]. cbn [fst snd] in *. subst ok.
  cbn [negb]. unfold Format.find_files. cbv zeta.
  destruct (Format.arg_paths args) as [|p ps] eqn:Ea; [now destruct Hp|].
  rewrite He. reflexivity.
Qed.

Lemma format_paths_without_sources_witness :
  Format.main (Sample.formatter "hpp") ∅
    (Format.mkArgs false ["docs"; "src/notes.txt"; "third-party"])
    (Format.mkState Sample.sources [])
  = (inl Format.UnboundLocalError,
     snd (Format.check_clang_format (Sample.formatter "hpp") ∅
            (Format.mkState Sample.sources []))).
Proof.
  apply (format_paths_without_sources (Sample.formatter "hpp") ∅
           (Format.mkArgs false ["docs"; "src/notes.txt"; "third-party"])
           (Format.mkState Sample.sources [])).
  - discriminate.
  - reflexivity.
  - reflexivity.
Defined.

Section FormatFiles.




Lemma listed_exists (files : FS) (p : Path) : In p (List.map fst files) -> exists_ files p = true.
Proof.
  unfold exists_. induction files as [|[q n] files IH]; [intros []|].
  cbn [List.map fst In fs_lookup]. intros [->|H].
  - unfold path_eqb. now rewrite bool_decide_eq_true_2.
  - destruct (path_eqb q p); [reflexivity|now apply IH].
Qed.



End FormatFiles.



Section LintPy.

Variable h : Host.
Variable env : gmap string string.

Lemma run_clang_tidy_inv (args : list string) (st st' : Format.State)
  (r : option ProcResult) :
  Lint.run_clang_tidy h env args st = (r, st') ->
  (r = None /\ st' = st)
  \/ exists p, r = Some p
               /\ Format.started st'
                  = Format.started st ++ [("clang-tidy" :: args, returncode p)].
Proof.
  unfold Lint.run_clang_tidy. destruct (which h env (Format.files st) "clang-tidy");
    intros H; injection H as <- <-; [right; eauto|left; auto].
Qed.

Lemma check_clang_tidy_inv (st st' : Format.State) (ok : bool) :
  Lint.check_clang_tidy h env st = (ok, st') ->
  (ok = false /\ st' = st)
  \/ exists rc, Format.started st' = Format.started st ++ [(["clang-tidy"; "--version"], rc)]
                /\ (ok = true <-> rc = 0).
Proof.
  unfold Lint.check_clang_tidy.
  destruct (Lint.run_clang_tidy h env ["--version"] st) as [[p|] st1] eqn:E;
    intros H; injection H as <- <-;
    apply run_clang_tidy_inv in E as [(E & ->)|(p' & E & El)]; try discriminate.
  - injection E as <-. right. exists (returncode p). split; [exact El|]. apply Z.eqb_eq.
  - left. auto.
Qed.

Lemma lint_files_inv (build_dir : Path) (fix_issues : bool) (source_files : list Path) :
  forall (st st' : Format.State) (has_errors : bool),
    Lint.lint_files h env build_dir fix_issues source_files st = (inr has_errors, st') ->
    exists l,
      Format.started st' = Format.started st ++ l
      /\ List.map fst l
         = List.map (fun f => "clang-tidy" :: Lint.lint_args h f build_dir fix_issues) source_files
      /\ (has_errors = false <-> Forall (fun e => snd e = 0) l).
Proof.
  induction source_files as [|f rest IH]; intros st st' has_errors H;
    cbn [Lint.lint_files] in H.
  - injection H as <- <-. exists []. rewrite app_nil_r. repeat split; auto.
  - unfold Lint.lint_file in H.
    destruct (Lint.run_clang_tidy h env _ st) as [[p|] st1] eqn:E; [|discriminate H].
    apply run_clang_tidy_inv in E as [(E & _)|(p' & E & El)]; [discriminate E|].
    injection E as <-.
    destruct (Lint.lint_files h env build_dir fix_issues rest st1) as [[e|errs] st2] eqn:E2;
      [discriminate H|].
    injection H as <- <-. destruct (IH _ _ _ E2) as (l & Hl & Hm & Hf).
    eexists (_ :: l). split; [rewrite Hl, El, <- app_assoc; reflexivity|].
    split; [cbn [List.map fst]; now rewrite Hm|].
    destruct (Z.eqb_spec (returncode p) 0) as [Hz|Hnz].
    + rewrite Hf. split.
      * intros Hall. constructor; [exact Hz|exact Hall].
      * intros Hall. now inversion Hall.
    + split; [discriminate|]. intros Hall. inversion Hall. contradiction.
Qed.

Lemma glob_compile_commands_holds (files : FS) (base : Path) (depth : nat) (q : Path) :
  Lint.glob_compile_commands files base depth = Some q ->
  exists_ files (parent q // "compile_commands.json") = true.
Proof.
  unfold Lint.glob_compile_commands. intros H. apply List.find_some in H as (Hin & Hq).
  apply andb_prop in Hq as (Hq & Hn). apply andb_prop in Hq as (_ & Hlen).
  apply String.eqb_eq in Hn. apply Nat.eqb_eq in Hlen.
  assert (Hq : q = parent q // "compile_commands.json").
  { unfold parent, name, div in *. rewrite <- Hn.
    apply app_removelast_last. intros ->. cbn [List.length] in Hlen. lia. }
  rewrite <- Hq. now apply listed_exists.
Qed.

Lemma find_compile_commands_holds (files : FS) (base dir : Path) :
  Lint.find_compile_commands files base = Some dir ->
  exists_ files (dir // "compile_commands.json") = true.
Proof.
  unfold Lint.find_compile_commands.
  destruct (exists_ files (base // "compile_commands.json")) eqn:E0.
  { intros H. now injection H as <-. }
  destruct (List.find _ _) as [sub|] eqn:E1.
  { intros H. injection H as <-. now apply List.find_some in E1 as (_ & E1). }
  destruct (Lint.glob_compile_commands files base 0) as [q|] eqn:G0.
  { intros H. injection H as <-. now apply glob_compile_commands_holds in G0. }
  destruct (Lint.glob_compile_commands files base 1) as [q|] eqn:G1.
  { intros H. injection H as <-. now apply glob_compile_commands_holds in G1. }
  destruct (Lint.glob_compile_commands files base 2) as [q|] eqn:G2; [|discriminate].
  intros H. injection H as <-. now apply glob_compile_commands_holds in G2.
Qed.

End LintPy.

(** X24. The exit code of lint.py, for a run that returns from [main]:
    every subprocess it started is clang-tidy; the exit code is 0 or 1, and
    it is 0 exactly when the version check succeeded, a
    compile_commands.json was found for the requested build directory, and
    every run of clang-tidy returned 0. Without a compile_commands.json no
    file is linted. *)
Theorem lint_exit_code (h : Host) (env : gmap string string) (args : Lint.Args)
  (st st' : Format.State) (code : Z) :
  Lint.main h env args st = (inr code, st') ->
  exists l,
    Format.started st' = Format.started st ++ l
    /\ Forall (fun e => exists a, fst e = "clang-tidy" :: a) l
    /\ (code = 0 \/ code = 1)
    /\ (code = 0 <->
        l <> [] /\ Forall (fun e => snd e = 0) l
        /\ Lint.find_compile_commands
             (Format.files (snd (Lint.check_clang_tidy h env st)))
             (Lint.requested_build_dir h args) <> None)
    /\ (Lint.find_compile_commands
          (Format.files (snd (Lint.check_clang_tidy h env st)))
          (Lint.requested_build_dir h args) = None ->
        (length l <= 1)%nat).
Proof.
  unfold Lint.main. intros H.
  destruct (Lint.check_clang_tidy h env st) as [ok st1] eqn:Ec. cbn [snd].
  apply check_clang_tidy_inv in Ec as [(-> & ->)|(rc & El & Hok)].
  { cbn [negb] in H. injection H as <- <-. exists []. rewrite app_nil_r.
    repeat split; auto; try discriminate. intros [Hn _]. now destruct Hn. }
  destruct ok; cbn [negb] in H.
  2:{ injection H as <- <-. eexists. split; [exact El|].
      split; [constructor; [eexists; reflexivity|constructor]|]. split; [auto|].
      split; [|intros _; cbn [List.length]; lia].
      split; [discriminate|]. intros (_ & Hall & _). inversion Hall as [|? ? Hrc _].
      cbn [snd] in Hrc. apply Hok in Hrc. discriminate Hrc. }
  assert (Hrc : rc = 0) by now apply Hok. subst rc.
  destruct (Lint.find_compile_commands (Format.files st1) (Lint.requested_build_dir h args))
    as [dir|] eqn:Ef.
  2:{ injection H as <- <-. eexists. split; [exact El|].
      split; [constructor; [eexists; reflexivity|constructor]|]. split; [auto|].
      split; [|intros _; cbn [List.length]; lia].
      split; [discriminate|]. intros (_ & _ & Hn). now destruct Hn. }
  destruct (Lint.source_files h (Format.files st1)) as [|f fl].
  { injection H as <- <-. eexists. split; [exact El|].
    split; [constructor; [eexists; reflexivity|constructor]|]. split; [auto|].
    split; [|discriminate]. split; [|reflexivity]. intros _.
    split; [discriminate|]. split; [|discriminate]. constructor; [reflexivity|constructor]. }
  destruct (Lint.lint_files h env dir (Lint.arg_fix args) (f :: fl) st1)
    as [[e|has_errors] st2] eqn:E; [discriminate H|].
  injection H as <- <-.
  apply lint_files_inv in E as (l & Hl & Hm & Hf).
  exists ((["clang-tidy"; "--version"], 0) :: l).
  split; [rewrite Hl, El, <- app_assoc; reflexivity|]. split.
  { constructor; [eexists; reflexivity|].
    clear -Hm. revert Hm. generalize (f :: fl). induction l as [|e l IH]; intros fs Hm;
      [constructor|]. destruct fs as [|f0 fs]; [discriminate Hm|]. cbn [List.map] in Hm.
    injection Hm as He Hm. constructor; [eexists; exact He|]. eapply IH. exact Hm. }
  split; [destruct has_errors; auto|].
  split; [|discriminate].
  split.
  - intros Hc. destruct has_errors; [discriminate Hc|].
    split; [discriminate|]. split; [|discriminate].
    constructor; [reflexivity|now apply Hf].
  - intros (_ & Hall & _). inversion Hall as [|? ? _ Hall']. apply Hf in Hall'.
    now rewrite Hall'.
Qed.

Lemma lint_exit_code_witness :
  exists l,
    Format.started (snd (Lint.main (Sample.linter "hpp") ∅
                           (Lint.mkArgs false None None None)
                           (Format.mkState Sample.built [])))
    = Format.started (Format.mkState Sample.built []) ++ l
    /\ Forall (fun e => exists a, fst e = "clang-tidy" :: a) l
    /\ (1 = 0 \/ 1 = 1)
    /\ (1 = 0 <->
        l <> [] /\ Forall (fun e => snd e = 0) l
        /\ Lint.find_compile_commands
             (Format.files (snd (Lint.check_clang_tidy (Sample.linter "hpp") ∅
                                   (Format.mkState Sample.built []))))
             (Lint.requested_build_dir (Sample.linter "hpp")
                (Lint.mkArgs false None None None)) <> None)
    /\ (Lint.find_compile_commands
          (Format.files (snd (Lint.check_clang_tidy (Sample.linter "hpp") ∅
                                (Format.mkState Sample.built []))))
          (Lint.requested_build_dir (Sample.linter "hpp")
             (Lint.mkArgs false None None None)) = None ->
        (length l <= 1)%nat).
Proof.
  assert (E : Lint.main (Sample.linter "hpp") ∅ (Lint.mkArgs false None None None)
                (Format.mkState Sample.built [])
              = (inr 1, snd (Lint.main (Sample.linter "hpp") ∅
                               (Lint.mkArgs false None None None)
                               (Format.mkState Sample.built []))))
    by (vm_compute; reflexivity).
  exact (lint_exit_code (Sample.linter "hpp") ∅ (Lint.mkArgs false None None None)
           (Format.mkState Sample.built []) _ 1 E).
Defined.

(** X25. lint.py lints every source file once, and always against a
    compilation database that is there: in a run that returns from [main]
    after a version check that succeeded, the commands after the version
    check are [clang-tidy -p=<dir> <file>] (with [--fix] if asked), one per
    file of [source_files] and in that order, for one directory [dir] that
    held a compile_commands.json when it was looked for; or there is none,
    because no compile_commands.json was found. *)
Theorem lint_runs_per_file (h : Host) (env : gmap string string) (args : Lint.Args)
  (st st' : Format.State) (code : Z) :
  fst (Lint.check_clang_tidy h env st) = true ->
  Lint.main h env args st = (inr code, st') ->
  let searched := Format.files (snd (Lint.check_clang_tidy h env st)) in
  (Lint.find_compile_commands searched (Lint.requested_build_dir h args) = None
   /\ code = 1
   /\ List.map fst (Format.started st')
      = List.map fst (Format.started st) ++ [["clang-tidy"; "--version"]])
  \/ exists dir,
       Lint.find_compile_commands searched (Lint.requested_build_dir h args) = Some dir
       /\ exists_ searched (dir // "compile_commands.json") = true
       /\ List.map fst (Format.started st')
          = List.map fst (Format.started st)
            ++ ["clang-tidy"; "--version"]
               :: List.map
                    (fun f => "clang-tidy"
                              :: ["-p=" +:+ str_of (windows h) dir; str_of (windows h) f]
                                 ++ (if Lint.arg_fix args then ["--fix"] else []))
                    (Lint.source_files h searched).
Proof.
  unfold Lint.main. intros Hok H.
  destruct (Lint.check_clang_tidy h env st) as [ok st1] eqn:Ec. cbn [fst snd] in *. subst ok.
  apply check_clang_tidy_inv in Ec as [(Hf & _)|(rc & El & _)]; [discriminate Hf|].
  cbn [negb] in H.
  destruct (Lint.find_compile_commands (Format.files st1) (Lint.requested_build_dir h args))
    as [dir|] eqn:Ef.
  2:{ injection H as <- <-. left. repeat split. now rewrite El, map_app. }
  right. exists dir. split; [reflexivity|].
  split; [now apply find_compile_commands_holds in Ef|].
  destruct (Lint.source_files h (Format.files st1)) as [|f fl].
  { injection H as <- <-. now rewrite El, map_app. }
  destruct (Lint.lint_files h env dir (Lint.arg_fix args) (f :: fl) st1)
    as [[e|has_errors] st2] eqn:E; [discriminate H|].
  injection H as <- <-.
  apply lint_files_inv in E as (l & Hl & Hm & _).
  rewrite Hl, El, !map_app, <- app_assoc, Hm. reflexivity.
Qed.

Lemma lint_runs_per_file_witness :
  (Lint.find_compile_commands
     (Format.files (snd (Lint.check_clang_tidy (Sample.linter "hpp") ∅
                           (Format.mkState Sample.built []))))
     (Lint.requested_build_dir (Sample.linter "hpp") (Lint.mkArgs false None None None))
   = None
   /\ 1 = 1
   /\ List.map fst
        (Format.started (snd (Lint.main (Sample.linter "hpp") ∅
                                (Lint.mkArgs false None None None)
                                (Format.mkState Sample.built []))))
      = List.map fst (Format.started (Format.mkState Sample.built []))
        ++ [["clang-tidy"; "--version"]])
  \/ exists dir,
       Lint.find_compile_commands
         (Format.files (snd (Lint.check_clang_tidy (Sample.linter "hpp") ∅
                               (Format.mkState Sample.built []))))
         (Lint.requested_build_dir (Sample.linter "hpp") (Lint.mkArgs false None None None))
       = Some dir
       /\ exists_ (Format.files (snd (Lint.check_clang_tidy (Sample.linter "hpp") ∅
                                        (Format.mkState Sample.built []))))
            (dir // "compile_commands.json") = true
       /\ List.map fst
            (Format.started (snd (Lint.main (Sample.linter "hpp") ∅
                                    (Lint.mkArgs false None None None)
                                    (Format.mkState Sample.built []))))
          = List.map fst (Format.started (Format.mkState Sample.built []))
            ++ ["clang-tidy"; "--version"]
               :: List.map
                    (fun f => "clang-tidy"
                              :: ["-p=" +:+ str_of (windows (Sample.linter "hpp")) dir;
                                  str_of (windows (Sample.linter "hpp")) f]
                                 ++ (if Lint.arg_fix (Lint.mkArgs false None None None)
                                     then ["--fix"] else []))
                    (Lint.source_files (Sample.linter "hpp")
                       (Format.files (snd (Lint.check_clang_tidy (Sample.linter "hpp") ∅
                                             (Format.mkState Sample.built []))))).
Proof.
  assert (E : Lint.main (Sample.linter "hpp") ∅ (Lint.mkArgs false None None None)
                (Format.mkState Sample.built [])
              = (inr 1, snd (Lint.main (Sample.linter "hpp") ∅
                               (Lint.mkArgs false None None None)
                               (Format.mkState Sample.built []))))
    by (vm_compute; reflexivity).
  exact (lint_runs_per_file (Sample.linter "hpp") ∅ (Lint.mkArgs false None None None)
           (Format.mkState Sample.built []) _ 1 eq_refl E).
Defined.

Section CleanBuild.

Lemma fs_lookup_app (a b : FS) (q : Path) :
  fs_lookup (a ++ b) q = match fs_lookup a q with Some n => Some n | None => fs_lookup b q end.
Proof.
  induction a as [|[p n] a IH]; [reflexivity|]. cbn [app fs_lookup].
  destruct (path_eqb p q); [reflexivity|exact IH].
Qed.

Lemma fs_lookup_rmtree (p q : Path) (files : FS) :
  fs_lookup (rmtree p files) q = if is_prefix p q then None else fs_lookup files q.
Proof.
  unfold rmtree. induction files as [|[r n] files IH]; cbn [List.filter fs_lookup fst].
  - now destruct (is_prefix p q).
  - destruct (is_prefix p r) eqn:Er; cbn [negb fs_lookup].
    + rewrite IH. unfold path_eqb. destruct (bool_decide_reflect (r = q)) as [->|_];
        [now rewrite Er|reflexivity].
    + rewrite IH. unfold path_eqb. destruct (bool_decide_reflect (r = q)) as [->|_];
        [now rewrite Er|reflexivity].
Qed.

Lemma fs_lookup_none_not_in (l : list Path) (q : Path) :
  ~ In q l -> fs_lookup (List.map (fun p => (p, Dir)) l) q = None.
Proof.
  induction l as [|p l IH]; [reflexivity|]. cbn [List.map fs_lookup In]. intros H.
  unfold path_eqb. rewrite bool_decide_eq_false_2 by (intros ->; apply H; now left).
  apply IH. intros Hin. apply H. now right.
Qed.

Lemma prefixes_from_shape (done rest q : Path) :
  In q (prefixes_from done rest) -> exists a b, rest = a ++ b /\ q = done ++ a /\ a <> [].
Proof.
  revert done. induction rest as [|c rest IH]; intros done; cbn [prefixes_from]; [intros []|].
  intros [<-|H].
  - exists [c], rest. repeat split. discriminate.
  - apply IH in H as (a & b & -> & -> & _). exists (c :: a), b.
    rewrite <- app_assoc. repeat split. discriminate.
Qed.

Lemma prefixes_from_whole (done rest : Path) :
  rest <> [] -> In (done ++ rest) (prefixes_from done rest).
Proof.
  revert done. induction rest as [|c rest IH]; intros done H; [now destruct H|].
  cbn [prefixes_from]. destruct rest as [|c' rest]; [now left|].
  right. replace (done ++ c :: c' :: rest) with ((done ++ [c]) ++ c' :: rest)
    by now rewrite <- app_assoc.
  apply IH. discriminate.
Qed.

Lemma is_prefix_app (p a : Path) : is_prefix p (p ++ a) = true.
Proof. induction p as [|c p IH]; [reflexivity|]. cbn [app is_prefix]. now rewrite String.eqb_refl. Qed.

Lemma is_prefix_inv (p q : Path) : is_prefix p q = true -> exists a, q = p ++ a.
Proof.
  revert q. induction p as [|c p IH]; intros q H; [now exists q|].
  destruct q as [|d q]; [discriminate H|]. cbn [is_prefix] in H.
  apply andb_prop in H as (Hc & H). apply String.eqb_eq in Hc as ->.
  apply IH in H as (a & ->). now exists a.
Qed.

(** Below [p], [mkdir p] adds nothing. *)
Lemma fs_lookup_mkdir_below (p q : Path) (files : FS) :
  is_prefix p q = true -> q <> p -> fs_lookup (mkdir p files) q = fs_lookup files q.
Proof.
  intros Hpre Hne. unfold mkdir. rewrite fs_lookup_app.
  destruct (fs_lookup files q) as [n|]; [reflexivity|].
  apply fs_lookup_none_not_in. intros Hin. apply List.filter_In in Hin as (Hin & _).
  apply prefixes_from_shape in Hin as (a & b & Hp & Hq & _). cbn [app] in Hq. subst q.
  apply is_prefix_inv in Hpre as (a' & Ha). subst p. rewrite <- app_assoc in Ha.
  apply (f_equal (@List.length string)) in Ha as Hlen. rewrite !length_app in Hlen.
  assert (b = []) by (destruct b; [reflexivity|cbn [List.length] in Hlen; lia]). subst b.
  apply Hne. now rewrite app_nil_r.
Qed.

Lemma mkdir_keeps (p q : Path) (files : FS) (n : node) :
  fs_lookup files q = Some n -> fs_lookup (mkdir p files) q = Some n.
Proof. intros H. unfold mkdir. now rewrite fs_lookup_app, H. Qed.

Lemma mkdir_exists (p : Path) (files : FS) : p <> [] -> exists_ (mkdir p files) p = true.
Proof.
  intros Hp. unfold exists_, mkdir. rewrite fs_lookup_app.
  destruct (fs_lookup files p) as [n|] eqn:E; [reflexivity|].
  assert (Hin : In p (List.filter (fun q => negb (exists_ files q)) (prefixes_from [] p))).
  { apply List.filter_In. split; [exact (prefixes_from_whole [] p Hp)|].
    unfold exists_. now rewrite E. }
  revert Hin. generalize (List.filter (fun q => negb (exists_ files q)) (prefixes_from [] p)).
  intros l. induction l as [|r l IH]; [intros []|]. cbn [In List.map fs_lookup].
  unfold path_eqb. destruct (bool_decide_reflect (r = p)) as [_|Hn]; [reflexivity|].
  intros [->|Hin]; [now destruct Hn|now apply IH].
Qed.

Lemma get_build_dir_nonempty (c : Configure.BuildConfig) : Configure.get_build_dir c <> [].
Proof. unfold Configure.get_build_dir, div. cbv zeta. intros H. now apply app_eq_nil in H as (_ & H). Qed.

Lemma generator_check_fs (c c' : Configure.BuildConfig) (lines : list string) (w w' : World) :
  Configure.generator_check c lines w = (Ret c', w') ->
  fs w' = fs w /\ environ w' = environ w
  /\ (Configure.clean_build c = true -> Configure.clean_build c' = true)
  /\ Configure.is_windows c' = Configure.is_windows c
  /\ Configure.use_conan c' = Configure.use_conan c.
Proof.
  revert w. induction lines as [|line rest IH]; intros w H; cbn [Configure.generator_check] in H.
  - injection H as <- <-. auto.
  - destruct (startswith _ line); [|now apply IH].
    destruct (negb _); [|now apply IH].
    destruct (Configure.interactive c).
    + apply bind_ret_inv in H as (b & w1 & E & H). unfold ret in H. injection H as <- <-.
      unfold Configure.ask_yes_no in E. destruct (Configure.ask_yes_no_on _ _).
      injection E as _ <-. destruct b; auto.
    + injection H as <- <-. auto.
Qed.

End CleanBuild.

(** X26. [--clean] gives cmake an empty build directory, unless Conan's
    toolchain is used: when [CMakeBuilder.configure] takes the manual branch
    with [clean_build] set (and does not run Conan's environment script),
    the file system cmake starts on holds the build directory and nothing
    below it; nothing outside the build directory was removed. *)
Theorem clean_build_empties (h : Host) (c c' : Configure.BuildConfig) (w w' : World)
  (ok : bool) :
  Configure.clean_build c = true ->
  Configure.use_conan c <> Some true ->
  Configure.configure h c w = (Ret (ok, c'), w') ->
  exists cmd env before,
    fs w' = fs_after (run h (Argv cmd) env before)
    /\ exists_ before (Configure.get_build_dir c) = true
    /\ (forall q, is_prefix (Configure.get_build_dir c) q = true ->
                  q <> Configure.get_build_dir c -> fs_lookup before q = None)
    /\ (forall q n, is_prefix (Configure.get_build_dir c) q = false ->
                    fs_lookup (fs w) q = Some n -> fs_lookup before q = Some n).
Proof.
  intros Hclean Hconan H. unfold Configure.configure in H.
  assert (Hm : Configure.configure h c w
               = (let build_dir := Configure.get_build_dir c in
                  let* _ := do_mkdir build_dir in
                  let* w := get in
                  let* c :=
                    match read_text (fs w) (build_dir // "CMakeCache.txt") with
                    | Some cache_content =>
                        Configure.generator_check c (splitlines cache_content)
                    | None => ret c
                    end in
                  let* _ :=
                    if Configure.clean_build c then
                      let* there := path_exists build_dir in
                      let* _ := if there then do_rmtree build_dir else ret tt in
                      do_mkdir build_dir
                    else ret tt in
                  let* w := get in
                  let cmake_cmd := Configure.cmake_cmd_manual h c build_dir (environ w, fs w) in
                  let* env := Configure.configure_env h c in
                  let* result := spawn h CMakeConfigure (Argv cmake_cmd) (Some env) in
                  ret (returncode result =? 0, c)) w).
  { unfold Configure.configure.
    destruct (Configure.use_conan c) as [[]|]; [now destruct Hconan| |];
      destruct (Configure.conan_toolchain c); reflexivity. }
  unfold Configure.configure in Hm. rewrite Hm in H. clear Hm. cbv zeta in H.
  set (dir := Configure.get_build_dir c) in *.
  apply bind_ret_inv in H as (u & w1 & E1 & H).
  unfold do_mkdir, modify in E1. injection E1 as _ <-.
  apply bind_ret_inv in H as (w0 & w2 & E2 & H). unfold get in E2. injection E2 as <- <-.
  apply bind_ret_inv in H as (c1 & w3 & E3 & H).
  assert (G3 : fs w3 = mkdir dir (fs w) /\ environ w3 = environ w
               /\ Configure.clean_build c1 = true
               /\ Configure.is_windows c1 = Configure.is_windows c
               /\ Configure.use_conan c1 = Configure.use_conan c).
  { cbn [fs with_fs] in E3. destruct (read_text _ _).
    - apply generator_check_fs in E3 as (Hf & He & Hc & Hw & Hu). cbn [fs environ with_fs] in *.
      auto.
    - unfold ret in E3. injection E3 as <- <-. cbn [fs environ with_fs]. auto. }
  destruct G3 as (Hf3 & He3 & Hc1 & Hw1 & Hu1). rewrite Hc1 in H.
  apply bind_ret_inv in H as (u4 & w4 & E4 & H).
  apply bind_ret_inv in E4 as (there & w5 & E5 & E4).
  unfold path_exists in E5. injection E5 as <- <-.
  rewrite Hf3, (mkdir_exists dir (fs w) (get_build_dir_nonempty c)) in E4.
  apply bind_ret_inv in E4 as (u6 & w6 & E6 & E4).
  unfold do_rmtree, modify in E6. injection E6 as _ <-.
  unfold do_mkdir, modify in E4. injection E4 as _ <-.
  apply bind_ret_inv in H as (w7 & w8 & E7 & H). unfold get in E7. injection E7 as <- <-.
  apply bind_ret_inv in H as (env & w9 & E9 & H).
  assert (G9 : w9 = with_fs (mkdir dir (fs (with_fs (rmtree dir (fs w3)) w3)))
                      (with_fs (rmtree dir (fs w3)) w3)).
  { unfold Configure.configure_env in E9.
    apply bind_ret_inv in E9 as (wa & wb & Ea & E9). unfold get in Ea. injection Ea as <- <-.
    assert (Hb : (Configure.is_windows c1 && bool_decide (Configure.use_conan c1 = Some true))%bool
                 = false).
    { rewrite Hu1. rewrite (bool_decide_eq_false_2 _ Hconan). apply andb_false_r. }
    rewrite Hb in E9. unfold ret in E9. now injection E9 as _ <-. }
  subst w9.
  apply bind_ret_inv in H as (res & w10 & E10 & H).
  unfold spawn in E10. injection E10 as <- <-. unfold ret in H. injection H as _ _ <-.
  cbn [fs with_fs]. rewrite Hf3.
  eexists _, _, _. split; [reflexivity|].
  split; [apply mkdir_exists, get_build_dir_nonempty|]. split.
  - intros q Hq Hne. rewrite (fs_lookup_mkdir_below _ _ _ Hq Hne), fs_lookup_rmtree.
    now rewrite Hq.
  - intros q n Hq Hn. apply mkdir_keeps. rewrite fs_lookup_rmtree, Hq. now apply mkdir_keeps.
Qed.

Lemma clean_build_empties_witness :
  exists cmd env before,
    fs (snd (Configure.configure Sample.host
               (Configure.set_clean_build true Sample.release_unset)
               (Sample.world Sample.configured [])))
    = fs_after (run Sample.host (Argv cmd) env before)
    /\ exists_ before
         (Configure.get_build_dir (Configure.set_clean_build true Sample.release_unset)) = true
    /\ (forall q,
          is_prefix (Configure.get_build_dir
                       (Configure.set_clean_build true Sample.release_unset)) q = true ->
          q <> Configure.get_build_dir (Configure.set_clean_build true Sample.release_unset) ->
          fs_lookup before q = None)
    /\ (forall q n,
          is_prefix (Configure.get_build_dir
                       (Configure.set_clean_build true Sample.release_unset)) q = false ->
          fs_lookup (fs (Sample.world Sample.configured [])) q = Some n ->
          fs_lookup before q = Some n).
Proof.
  assert (E : Configure.configure Sample.host
                (Configure.set_clean_build true Sample.release_unset)
                (Sample.world Sample.configured [])
              = (Ret (true, Configure.set_clean_build true Sample.release_unset),
                 snd (Configure.configure Sample.host
                        (Configure.set_clean_build true Sample.release_unset)
                        (Sample.world Sample.configured []))))
    by (vm_compute; reflexivity).
  apply (clean_build_empties Sample.host (Configure.set_clean_build true Sample.release_unset)
           (Configure.set_clean_build true Sample.release_unset)
           (Sample.world Sample.configured [])
           (snd (Configure.configure Sample.host
                   (Configure.set_clean_build true Sample.release_unset)
                   (Sample.world Sample.configured []))) true).
  - reflexivity.
  - discriminate.
  - exact E.
Defined.


